(** * Shoes Production Dashboard: the OEE pipeline of [dash.py]

    The script reads one spreadsheet into a pandas [DataFrame], derives the
    columns [Availability], [Performance], [Quality] and [OEE], and then
    answers a handful of queries over the augmented frame (overall waste
    percentage, per-step lookup, status/threshold filter, summary of the
    filtered rows).

    The embedding follows the script:
    - numbers are IEEE-754 binary64 values, as numpy's [float64]; they are
      Rocq's primitive floats, so every operation rounds as the program's
      does, and NaN, the infinities and the two zeros are all present;
    - a [DataFrame] is a dictionary from column names to columns together
      with the length of its index; a column ([Series]) is either numeric
      ([Float64]) or textual ([Object]);
    - a column access that fails raises [KeyError], arithmetic on a textual
      column raises [TypeError], positional access outside the index raises
      [IndexError]: the script's functions live in the [result] monad.

    Two things are left out. A column of whole numbers, which pandas would
    read as [int64], is taken as [float64]: the formulas divide, so the
    values meet as floats anyway. A textual column has no missing cells. *)

From Stdlib Require Import ZArith Lia Floats.
From stdpp Require Import gmap strings list fin_maps.

Set Warnings "-inexact-float".

(** ** Exceptions *)

Inductive exn :=
  | KeyError (k : string)
  | TypeError
  | IndexError
  | ValueError
  | ZeroDivisionError.

Inductive result (A : Type) :=
  | Ok (a : A)
  | Raise (e : exn).
Arguments Ok {A} a.
Arguments Raise {A} e.

Global Instance result_ret : MRet result := λ A a, Ok a.
Global Instance result_bind : MBind result := λ A B f m,
  match m with
  | Ok a => f a
  | Raise e => Raise e
  end.

(** ** float64 scalars *)

Module F64.

(** [x >= y] and [x > y] on floats; both are false when either side is NaN. *)
Definition geb (x y : float) : bool := PrimFloat.leb y x.
Definition gtb (x y : float) : bool := PrimFloat.ltb y x.

(** [pandas.isna] on a float. *)
Definition isna (x : float) : bool := PrimFloat.is_nan x.

(** Membership in the closed unit interval, by the float comparisons. *)
Definition in_unit (x : float) : bool :=
  PrimFloat.leb 0 x && PrimFloat.leb x 1.

(** [Series.clip(lower, upper)] at one element, as pandas'
    [_clip_with_scalar] computes it: with [mask = isna(self)], first
    [result.where(mask | (self >= lower), lower)], then
    [result.where(mask | (self <= upper), upper)]. A NaN stays a NaN. *)
Definition clip (lower upper x : float) : float :=
  let mask := isna x in
  let result := if mask || geb x lower then x else lower in
  if mask || PrimFloat.leb x upper then result else upper.

(** [Series.fillna(value)] at one element. *)
Definition fillna (value x : float) : float :=
  if isna x then value else x.

(** The equality pandas' hash tables use for [unique] and [isin]: numeric
    equality, with every NaN equal to every NaN. *)
Definition same (x y : float) : bool :=
  PrimFloat.eqb x y || (isna x && isna y).

End F64.

(** ** Series and DataFrame *)

Inductive scalar :=
  | Num (x : float)
  | Str (s : string).

Inductive Series :=
  | Float64 (xs : list float)
  | Object (xs : list string).

Record DataFrame := mkDataFrame {
  index_len : nat;
  columns : gmap string Series;
}.

Definition Series_len (s : Series) : nat :=
  match s with
  | Float64 xs => length xs
  | Object xs => length xs
  end.

(** [s.iloc[i]] as an option. *)
Definition Series_iloc (s : Series) (i : nat) : option scalar :=
  match s with
  | Float64 xs => Num <$> xs !! i
  | Object xs => Str <$> xs !! i
  end.

(** Every column of a frame is as long as the frame's index. pandas keeps
    this for every frame it builds. *)
Definition rectangular (df : DataFrame) : Prop :=
  map_Forall (λ _ s, Series_len s = index_len df) (columns df).

(** [df[k]] *)
Definition getitem (df : DataFrame) (k : string) : result Series :=
  match columns df !! k with
  | Some s => Ok s
  | None => Raise (KeyError k)
  end.

(** [df[k] = s], for a series [s] computed from columns of [df]. *)
Definition setitem (df : DataFrame) (k : string) (s : Series) : DataFrame :=
  {| index_len := index_len df; columns := <[k := s]> (columns df) |}.

(** The value of column [k] in row [i], if there is one. *)
Definition cell (df : DataFrame) (k : string) (i : nat) : option scalar :=
  columns df !! k ≫= λ s, Series_iloc s i.

(** Elementwise arithmetic of two columns of one frame. *)
Definition Series_binop (f : float → float → float) (a b : Series)
  : result Series :=
  match a, b with
  | Float64 xs, Float64 ys => Ok (Float64 (zip_with f xs ys))
  | _, _ => Raise TypeError
  end.

Definition Series_truediv := Series_binop PrimFloat.div.
Definition Series_sub := Series_binop PrimFloat.sub.
Definition Series_mul := Series_binop PrimFloat.mul.

(** Elementwise function of one numeric column. *)
Definition Series_map (f : float → float) (a : Series) : result Series :=
  match a with
  | Float64 xs => Ok (Float64 (f <$> xs))
  | Object _ => Raise TypeError
  end.

(** [c - s] for a scalar [c]. *)
Definition Series_rsub (c : float) := Series_map (PrimFloat.sub c).
Definition Series_clip (lower upper : float) := Series_map (F64.clip lower upper).
Definition Series_fillna (value : float) := Series_map (F64.fillna value).

(** ** [load_data] (dash.py, lines 11-46)

    [src] is the frame [pd.read_excel] returned. Each assignment
    [df[k] = ...] reads its columns, computes, and stores the new column;
    [df["OEE"].fillna(0, inplace=True)] updates the column of [df], as it
    does in pandas without copy-on-write. [data_dict] holds the fourteen
    columns under the script's keys. *)

Definition load_data (src : DataFrame)
  : result (DataFrame * gmap string Series) :=
  let df := src in
  (* df["Availability"] = df[cur] / df[exp] *)
  cur ← getitem df "Current Lot Run Time (Hours)";
  exp ← getitem df "Expected Lot Run Time (Hours)";
  a ← Series_truediv cur exp;
  let df := setitem df "Availability" a in
  (* df["Performance"] = (df[exp] - df[down]) / df[exp] *)
  exp ← getitem df "Expected Lot Run Time (Hours)";
  down ← getitem df "Process Down time";
  d ← Series_sub exp down;
  exp ← getitem df "Expected Lot Run Time (Hours)";
  p ← Series_truediv d exp;
  let df := setitem df "Performance" p in
  (* df["Quality"] = 1 - df["Failure Rate"] *)
  fr ← getitem df "Failure Rate";
  q ← Series_rsub 1 fr;
  let df := setitem df "Quality" q in
  (* clamp to [0,1] *)
  a ← getitem df "Availability";
  a ← Series_clip 0 1 a;
  let df := setitem df "Availability" a in
  p ← getitem df "Performance";
  p ← Series_clip 0 1 p;
  let df := setitem df "Performance" p in
  q ← getitem df "Quality";
  q ← Series_clip 0 1 q;
  let df := setitem df "Quality" q in
  (* df["OEE"] = df["Availability"] * df["Performance"] * df["Quality"] *)
  a ← getitem df "Availability";
  p ← getitem df "Performance";
  ap ← Series_mul a p;
  q ← getitem df "Quality";
  oee ← Series_mul ap q;
  let df := setitem df "OEE" oee in
  (* df["OEE"].fillna(0, inplace=True) *)
  oee ← getitem df "OEE";
  oee ← Series_fillna 0 oee;
  let df := setitem df "OEE" oee in
  (* data_dict = { ... : df[...].to_dict(), ... } *)
  c1 ← getitem df "Steps";
  c2 ← getitem df "Running Status";
  c3 ← getitem df "Current lot Number";
  c4 ← getitem df "Material Used (KG)";
  c5 ← getitem df "Waste Materials (KG)";
  c6 ← getitem df "Current Lot Run Time (Hours)";
  c7 ← getitem df "Expected Lot Run Time (Hours)";
  c8 ← getitem df "Process Down time";
  c9 ← getitem df "Failure Rate";
  c10 ← getitem df "Units produced";
  c11 ← getitem df "Availability";
  c12 ← getitem df "Performance";
  c13 ← getitem df "Quality";
  c14 ← getitem df "OEE";
  let data_dict : gmap string Series :=
    <["OEE" := c14]> (<["Quality" := c13]> (<["Performance" := c12]>
    (<["Availability" := c11]> (<["Units_Produced" := c10]>
    (<["Failure_Rate" := c9]> (<["Process_Down_Time" := c8]>
    (<["Expected_Lot_Run_Time" := c7]> (<["Current_Lot_Run_Time" := c6]>
    (<["Waste_Materials" := c5]> (<["Material_Used" := c4]>
    (<["Current_Lot_Number" := c3]> (<["Running_Status" := c2]>
    (<["Steps" := c1]> ∅))))))))))))) in
  mret (df, data_dict).

(** ** The formulas of one row

    What lines 15-25 compute at one index of the frame. *)

Definition availability (cur exp : float) : float :=
  F64.clip 0 1 (cur / exp).

Definition performance (exp down : float) : float :=
  F64.clip 0 1 ((exp - down) / exp).

Definition quality (fr : float) : float :=
  F64.clip 0 1 (1 - fr).

Definition oee_of (a p q : float) : float :=
  F64.fillna 0 (a * p * q).

Definition oee (cur exp down fr : float) : float :=
  oee_of (availability cur exp) (performance exp down) (quality fr).

(** ** Reductions (lines 63-70)

    [Series.sum()] skips NaN. The sum is taken left to right here; numpy
    adds long columns pairwise, which can differ in the last bits and is
    not what any statement below depends on. *)

Definition nansum (xs : list float) : float :=
  foldl (λ acc x, if F64.isna x then acc else (acc + x)%float) 0%float xs.

Definition Series_sum (s : Series) : result float :=
  match s with
  | Float64 xs => Ok (nansum xs)
  | Object _ => Raise TypeError
  end.

Definition float_of_nat (n : nat) : float :=
  PrimFloat.of_uint63 (Uint63.of_Z (Z.of_nat n)).

(** [Series.mean()]: NaN is skipped, and the mean of nothing is NaN. *)
Definition nanmean (xs : list float) : float :=
  (nansum xs / float_of_nat (length (filter (λ x, F64.isna x = false) xs)))%float.

Definition Series_mean (s : Series) : result float :=
  match s with
  | Float64 xs => Ok (nanmean xs)
  | Object _ => Raise TypeError
  end.

(** numpy's division does not raise: on a zero divisor it returns an
    infinity or NaN. To state that line 70 never divides by zero, the
    division of that line is instrumented: it raises on a zero divisor, as
    Python's own float division does. *)
Definition checked_div (x y : float) : result float :=
  if (y =? 0)%float then Raise ZeroDivisionError else Ok (x / y)%float.

(** Line 70:
    [(total_waste / total_material_used) * 100 if total_material_used > 0 else 0] *)
Definition waste_percentage_of (total_waste total_material_used : float)
  : result float :=
  if F64.gtb total_material_used 0
  then r ← checked_div total_waste total_material_used; mret (r * 100)%float
  else mret 0%float.

(** Lines 68-70 over the frame. *)
Definition waste_percentage (df : DataFrame) : result float :=
  mat ← getitem df "Material Used (KG)";
  total_material_used ← Series_sum mat;
  waste ← getitem df "Waste Materials (KG)";
  total_waste ← Series_sum waste;
  waste_percentage_of total_waste total_material_used.

(** ** Masks and boolean indexing *)

Definition Series_values (s : Series) : list scalar :=
  match s with
  | Float64 xs => Num <$> xs
  | Object xs => Str <$> xs
  end.

(** [==] between two cells: numeric or textual equality; a number never
    equals a text, and NaN equals nothing. *)
Definition scalar_eqb (a b : scalar) : bool :=
  match a, b with
  | Num x, Num y => (x =? y)%float
  | Str x, Str y => String.eqb x y
  | _, _ => false
  end.

(** The equality of [unique] and [isin]. *)
Definition scalar_same (a b : scalar) : bool :=
  match a, b with
  | Num x, Num y => F64.same x y
  | Str x, Str y => String.eqb x y
  | _, _ => false
  end.

(** [s == v] *)
Definition Series_eq (s : Series) (v : scalar) : list bool :=
  (λ x, scalar_eqb x v) <$> Series_values s.

(** [s.isin(values)] *)
Definition Series_isin (s : Series) (values : list scalar) : list bool :=
  (λ x, existsb (scalar_same x) values) <$> Series_values s.

(** [s >= t] *)
Definition Series_ge (s : Series) (t : float) : result (list bool) :=
  match s with
  | Float64 xs => Ok ((λ x, F64.geb x t) <$> xs)
  | Object _ => Raise TypeError
  end.

(** [s.unique()]: the distinct values in order of first appearance. *)
Fixpoint unique_from (seen : list scalar) (xs : list scalar) : list scalar :=
  match xs with
  | [] => []
  | x :: xs =>
      if existsb (scalar_same x) seen then unique_from seen xs
      else x :: unique_from (x :: seen) xs
  end.

Definition Series_unique (s : Series) : list scalar :=
  unique_from [] (Series_values s).

(** The entries of [xs] at the positions where [mask] holds. *)
Fixpoint compress {A} (mask : list bool) (xs : list A) : list A :=
  match mask, xs with
  | b :: mask, x :: xs =>
      if b then x :: compress mask xs else compress mask xs
  | _, _ => []
  end.

Definition Series_compress (mask : list bool) (s : Series) : Series :=
  match s with
  | Float64 xs => Float64 (compress mask xs)
  | Object xs => Object (compress mask xs)
  end.

(** [df[mask]] for a mask computed from the columns of [df]. *)
Definition boolean_index (df : DataFrame) (mask : list bool) : DataFrame :=
  {| index_len := length (filter (λ b, b = true) mask);
     columns := Series_compress mask <$> columns df |}.

(** The row at position [i] as a dictionary from column names to values. *)
Definition row (df : DataFrame) (i : nat) : gmap string scalar :=
  omap (λ s, Series_iloc s i) (columns df).

(** [df.iloc[i]] *)
Definition iloc (df : DataFrame) (i : nat) : result (gmap string scalar) :=
  if decide (i < index_len df) then Ok (row df i) else Raise IndexError.

(** ** Step detail (lines 243-246)

    [step_data = df[df['Steps'] == selected_step].iloc[0]] *)

Definition step_data (df : DataFrame) (selected_step : scalar)
  : result (gmap string scalar) :=
  steps ← getitem df "Steps";
  iloc (boolean_index df (Series_eq steps selected_step)) 0.

(** ** Filter (lines 315-335) *)

(** The default of the status multiselect: every distinct status. *)
Definition status_options (df : DataFrame) : result (list scalar) :=
  status ← getitem df "Running Status";
  mret (Series_unique status).

(** The slider's percentage divided by 100. *)
Definition oee_threshold (slider : nat) : float :=
  (float_of_nat slider / 100)%float.

(** Lines 332-335. Line 339 then reorders the columns, which a dictionary
    of columns does not record. *)
Definition filtered_df (df : DataFrame) (status_filter : list scalar)
    (oee_threshold : float) : result DataFrame :=
  status ← getitem df "Running Status";
  oee ← getitem df "OEE";
  ge ← Series_ge oee oee_threshold;
  mret (boolean_index df
          (zip_with andb (Series_isin status status_filter) ge)).

(** ** Summary of the filtered rows (lines 361-381)

    [idxmax] and [idxmin] return the label of a row. A row is named here by
    its position in the selection, which [loc] then reads; labels and
    positions name the same rows. *)

(** The best entry of a column under [better], NaN skipped, the first one
    winning a tie; [i] is the position of the head of [xs]. *)
Fixpoint argbest (better : float → float → bool) (xs : list float) (i : nat)
    (acc : option (nat * float)) : option (nat * float) :=
  match xs with
  | [] => acc
  | x :: xs =>
      let acc' :=
        if F64.isna x then acc
        else match acc with
             | None => Some (i, x)
             | Some (_, y) => if better x y then Some (i, x) else acc
             end in
      argbest better xs (S i) acc'
  end.

(** [s.max()] and [s.min()]: NaN when there is nothing to compare. *)
Definition Series_extreme (better : float → float → bool) (s : Series)
  : result float :=
  match s with
  | Float64 xs =>
      Ok (match argbest better xs 0 None with
          | Some (_, v) => v
          | None => nan
          end)
  | Object _ => Raise TypeError
  end.

(** [s.idxmax()] and [s.idxmin()]: [ValueError] on an empty column. *)
Definition Series_idx (better : float → float → bool) (s : Series)
  : result nat :=
  match s with
  | Float64 xs =>
      match argbest better xs 0 None with
      | Some (i, _) => Ok i
      | None => Raise ValueError
      end
  | Object _ => Raise TypeError
  end.

(** [df.loc[i, k]] *)
Definition loc (df : DataFrame) (i : nat) (k : string) : result scalar :=
  s ← getitem df k;
  match Series_iloc s i with
  | Some v => Ok v
  | None => Raise (KeyError k)
  end.

(** What the left column writes: either the four figures, or the two lines
    saying that no step matches. *)
Inductive Summary :=
  | NoStepsMatch
  | FilteredSummary (total_steps : nat)
      (average_oee total_units total_material : float).

(** What the right column writes. *)
Inductive Ranges :=
  | NoDataMatches
  | PerformanceRanges (oee_min oee_max : float) (best lowest : scalar)
      (average_waste_rate : float).

(** Lines 361-370: the left column. *)
Definition filtered_summary (fdf : DataFrame) : result Summary :=
  if decide (0 < index_len fdf) then
    oee ← getitem fdf "OEE";
    m ← Series_mean oee;
    units ← getitem fdf "Units produced";
    u ← Series_sum units;
    mat ← getitem fdf "Material Used (KG)";
    t ← Series_sum mat;
    mret (FilteredSummary (index_len fdf) m u t)
  else mret NoStepsMatch.

(** Lines 372-381: the right column. *)
Definition performance_ranges (fdf : DataFrame) : result Ranges :=
  if decide (0 < index_len fdf) then
    oee ← getitem fdf "OEE";
    lo ← Series_extreme PrimFloat.ltb oee;
    oee ← getitem fdf "OEE";
    hi ← Series_extreme F64.gtb oee;
    oee ← getitem fdf "OEE";
    imax ← Series_idx F64.gtb oee;
    best ← loc fdf imax "Steps";
    oee ← getitem fdf "OEE";
    imin ← Series_idx PrimFloat.ltb oee;
    lowest ← loc fdf imin "Steps";
    waste ← getitem fdf "Waste Materials (KG)";
    w ← Series_sum waste;
    mat ← getitem fdf "Material Used (KG)";
    t ← Series_sum mat;
    mret (PerformanceRanges lo hi best lowest (w / t * 100)%float)
  else mret NoDataMatches.

(** ** Row-at-a-time evaluation

    The metrics of one record, and an evaluator that visits the records in
    a given order and stores each result in the slot of its record. This is
    the reading of the transform as independent per-row work; it is compared
    below with the column operations of [load_data]. *)

Record Metrics := mkMetrics {
  m_availability : float;
  m_performance : float;
  m_quality : float;
  m_oee : float;
}.

Record Inputs := mkInputs {
  i_current : float;
  i_expected : float;
  i_down : float;
  i_failure : float;
}.

Definition compute_row (r : Inputs) : Metrics :=
  {| m_availability := availability (i_current r) (i_expected r);
     m_performance := performance (i_expected r) (i_down r);
     m_quality := quality (i_failure r);
     m_oee := oee (i_current r) (i_expected r) (i_down r) (i_failure r) |}.

Definition eval_in_order (order : list nat) (rows : list Inputs)
  : list (option Metrics) :=
  foldl (λ out i,
           match rows !! i with
           | Some r => <[i := Some (compute_row r)]> out
           | None => out
           end)
        (replicate (length rows) None) order.

Definition num_cell (df : DataFrame) (k : string) (i : nat) : option float :=
  match cell df k i with
  | Some (Num x) => Some x
  | _ => None
  end.

(** The four raw figures of record [i] that the metrics are computed from. *)
Definition inputs_at (df : DataFrame) (i : nat) : option Inputs :=
  c ← num_cell df "Current Lot Run Time (Hours)" i;
  e ← num_cell df "Expected Lot Run Time (Hours)" i;
  d ← num_cell df "Process Down time" i;
  f ← num_cell df "Failure Rate" i;
  Some (mkInputs c e d f).

(** The four derived figures of record [i]. *)
Definition metrics_at (df : DataFrame) (i : nat) : option Metrics :=
  a ← num_cell df "Availability" i;
  p ← num_cell df "Performance" i;
  q ← num_cell df "Quality" i;
  o ← num_cell df "OEE" i;
  Some (mkMetrics a p q o).

(** The derived figures of record [i] of the frame loaded from [src]. *)
Definition record_metrics (src : DataFrame) (i : nat)
  : result (option Metrics) :=
  '(df, _) ← load_data src;
  mret (metrics_at df i).

(** A numeric column as a list; empty when the column is absent or textual. *)
Definition numeric_column (df : DataFrame) (k : string) : list float :=
  match columns df !! k with
  | Some (Float64 xs) => xs
  | _ => []
  end.

(** The records of a frame as the row-at-a-time evaluator takes them. *)
Definition input_rows (df : DataFrame) : list Inputs :=
  zip_with (λ ce df, mkInputs ce.1 ce.2 df.1 df.2)
    (zip (numeric_column df "Current Lot Run Time (Hours)")
         (numeric_column df "Expected Lot Run Time (Hours)"))
    (zip (numeric_column df "Process Down time")
         (numeric_column df "Failure Rate")).

(** ** The globals of the script (line 49)

    [df, data_dict = load_data()], for a sheet that loads. *)

Definition loads (src : DataFrame) : bool :=
  match load_data src with
  | Ok _ => true
  | Raise _ => false
  end.

Definition script_df (src : DataFrame) : DataFrame :=
  match load_data src with
  | Ok (df, _) => df
  | Raise _ => src
  end.

Definition script_data_dict (src : DataFrame) : gmap string Series :=
  match load_data src with
  | Ok (_, data_dict) => data_dict
  | Raise _ => ∅
  end.

(** ** Notions used in the statements *)

(** [v] is [x] saturated at the bounds of the unit interval. *)
Definition saturates (x v : float) : Prop :=
  (PrimFloat.ltb x 0 = true → v = 0%float) ∧
  (PrimFloat.ltb 1 x = true → v = 1%float) ∧
  (F64.in_unit x = true → v = x).

(** [c] and [d] have strictly opposite signs. *)
Definition opposite_signs (c d : float) : bool :=
  (F64.gtb c 0 && PrimFloat.ltb d 0) || (PrimFloat.ltb c 0 && F64.gtb d 0).

(** The sign of a nonzero number, read on its comparisons with 0. *)
Definition has_sign (x : float) (s : bool) : Prop :=
  if s then PrimFloat.ltb x 0 = true else F64.gtb x 0 = true.

Definition signed_infinity (s : bool) : float :=
  if s then neg_infinity else infinity.

(** Record [i] is the first one, in table order, whose step equals [s]. *)
Definition first_match (df : DataFrame) (s : scalar) (i : nat) : Prop :=
  (∃ v, cell df "Steps" i = Some v ∧ scalar_eqb v s = true) ∧
  ∀ j w, j < i → cell df "Steps" j = Some w → scalar_eqb w s = false.

(** ** Column names *)

Definition derived_columns : list string :=
  ["Availability"; "Performance"; "Quality"; "OEE"].

Definition required_columns : list string :=
  ["Steps"; "Running Status"; "Current lot Number"; "Material Used (KG)";
   "Waste Materials (KG)"; "Current Lot Run Time (Hours)";
   "Expected Lot Run Time (Hours)"; "Process Down time"; "Failure Rate";
   "Units produced"].

Definition numeric_inputs : list string :=
  ["Current Lot Run Time (Hours)"; "Expected Lot Run Time (Hours)";
   "Process Down time"; "Failure Rate"].

(** ** Notions used in the proofs about binary64 *)

(** The record [mrs] is [M] shifted right by [k] bits, and its two sticky
    flags are raised only if a nonzero bit was shifted out. *)
Definition shifted (M k : Z) (mrs : shr_record) : Prop :=
  shr_m mrs = (M / 2 ^ k)%Z ∧
  (shr_r mrs || shr_s mrs = true → (M mod 2 ^ k)%Z ≠ 0%Z).

(** A zero, or a positive number [m * 2^e] that is at most 1. *)
Definition SF_unit_value (x : spec_float) : Prop :=
  match x with
  | S754_zero _ => True
  | S754_finite false m e => (e ≤ 0 ∧ Zpos m ≤ 2 ^ (- e))%Z
  | _ => False
  end.

(** The number 1 in binary64. *)
Definition SF_one : spec_float := S754_finite false 4503599627370496 (-52).

(** ** Sample sheets *)

Local Open Scope float_scope.

(** A sheet with the ten columns of the spreadsheet. *)
Definition sheet (steps status lots : list string)
    (material waste current expected down failure units : list float)
  : DataFrame :=
  {| index_len := length steps;
     columns :=
       <["Steps" := Object steps]> (
       <["Running Status" := Object status]> (
       <["Current lot Number" := Object lots]> (
       <["Material Used (KG)" := Float64 material]> (
       <["Waste Materials (KG)" := Float64 waste]> (
       <["Current Lot Run Time (Hours)" := Float64 current]> (
       <["Expected Lot Run Time (Hours)" := Float64 expected]> (
       <["Process Down time" := Float64 down]> (
       <["Failure Rate" := Float64 failure]> (
       <["Units produced" := Float64 units]> ∅))))))))) |}.

(** One record: 8 hours run of 10 expected, 1 hour down, 2% failures. *)
Definition sheet_nominal : DataFrame :=
  sheet ["Cutting"] ["Running"] ["L1"]
        [100] [5] [8] [10] [1] [0.02] [500].

(** One record that ran 12 hours of 10 expected. *)
Definition sheet_overrun : DataFrame :=
  sheet ["Cutting"] ["Running"] ["L1"]
        [100] [5] [12] [10] [1] [0.02] [500].

(** One record with nothing run and nothing expected. *)
Definition sheet_idle : DataFrame :=
  sheet ["Cutting"] ["Stopped"] ["L1"]
        [0] [0] [0] [0] [0] [0] [0].

(** One record with no expected run time and a negative down time. *)
Definition sheet_negative_down : DataFrame :=
  sheet ["Cutting"] ["Running"] ["L1"]
        [100] [5] [5] [0] [-1] [0] [500].

(** Three records, two of which share the step name. *)
Definition sheet_three : DataFrame :=
  sheet ["Cutting"; "Stitching"; "Cutting"]
        ["Running"; "Stopped"; "Running"]
        ["L1"; "L2"; "L3"]
        [100; 80; 60] [5; 8; 3] [8; 12; 0] [10; 10; 0] [1; 0; 0]
        [0.02; 0.5; 0] [500; 400; 300].

(** The sheet of [sheet_three] without its failure-rate column. *)
Definition sheet_no_failure_rate : DataFrame :=
  {| index_len := 3;
     columns := delete "Failure Rate" (columns sheet_three) |}.

Local Close Scope float_scope.

(** ** Key performance indicators (lines 63-129) *)

(** The eight figures of the two rows of tiles, and the five captions that
    depend on them. *)
Record KPIs := mkKPIs {
  avg_oee : float;
  avg_availability : float;
  avg_performance : float;
  avg_quality : float;
  total_units : float;
  total_material_used : float;
  total_waste : float;
  waste_percent : float;
  oee_delta : string;
  availability_delta : string;
  performance_delta : string;
  quality_delta : string;
  waste_delta : string;
}.

Local Open Scope float_scope.

(** Lines 63-70, then the [delta] arguments of lines 79, 86, 93, 100
    and 128. *)
Definition kpis (df : DataFrame) : result KPIs :=
  oee ← getitem df "OEE";
  avg_oee ← Series_mean oee;
  a ← getitem df "Availability";
  avg_availability ← Series_mean a;
  p ← getitem df "Performance";
  avg_performance ← Series_mean p;
  q ← getitem df "Quality";
  avg_quality ← Series_mean q;
  units ← getitem df "Units produced";
  total_units ← Series_sum units;
  mat ← getitem df "Material Used (KG)";
  total_material_used ← Series_sum mat;
  waste ← getitem df "Waste Materials (KG)";
  total_waste ← Series_sum waste;
  waste_percentage ← waste_percentage_of total_waste total_material_used;
  mret {|
    avg_oee := avg_oee;
    avg_availability := avg_availability;
    avg_performance := avg_performance;
    avg_quality := avg_quality;
    total_units := total_units;
    total_material_used := total_material_used;
    total_waste := total_waste;
    waste_percent := waste_percentage;
    oee_delta :=
      if F64.geb avg_oee 0.85 then "Target: 85%" else "Below Target: 85%";
    availability_delta :=
      if F64.geb avg_availability 0.90
      then "Target: 90%" else "Below Target: 90%";
    performance_delta :=
      if F64.geb avg_performance 0.95
      then "Target: 95%" else "Below Target: 95%";
    quality_delta :=
      if F64.geb avg_quality 0.99 then "Target: 99%" else "Below Target: 99%";
    waste_delta := if PrimFloat.ltb waste_percentage 5 then "Good" else "High";
  |}.

Local Close Scope float_scope.

(** ** Material efficiency (line 234)

    [df['Material_Efficiency'] = (df[mat] - df[waste]) / df[mat]]; the
    column is added to the frame that the later sections read. *)

Definition material_efficiency (df : DataFrame) : result DataFrame :=
  mat ← getitem df "Material Used (KG)";
  waste ← getitem df "Waste Materials (KG)";
  d ← Series_sub mat waste;
  mat ← getitem df "Material Used (KG)";
  e ← Series_truediv d mat;
  mret (setitem df "Material_Efficiency" e).

(** ** The step selector (line 243) *)

(** The options of the selectbox: [df['Steps'].unique()]. *)
Definition step_options (df : DataFrame) : result (list scalar) :=
  steps ← getitem df "Steps";
  mret (Series_unique steps).

(** ** The order of the columns of the table (line 338) *)

Definition leading_columns : list string :=
  ["Steps"; "OEE"; "Availability"; "Performance"; "Quality"].

(** [leading + [col for col in columns if col not in leading]], for the
    column labels of the filtered frame in their order. *)
Definition columns_order (cols : list string) : list string :=
  leading_columns ++ filter (λ col, col ∉ leading_columns) cols.

(** ** The selection of the script (lines 332-335) *)

Definition selects (df : DataFrame) (status_filter : list scalar)
    (threshold : float) : bool :=
  match filtered_df df status_filter threshold with
  | Ok _ => true
  | Raise _ => false
  end.

Definition selection (df : DataFrame) (status_filter : list scalar)
    (threshold : float) : DataFrame :=
  match filtered_df df status_filter threshold with
  | Ok fdf => fdf
  | Raise _ => df
  end.

(** ** Sample selections *)

(** The frame of the sheet of three records, and two selections of it: the
    running steps with an OEE of at least 50%, and the steps of either
    status with an OEE of at least 50%. *)
Definition frame_three : DataFrame := script_df sheet_three.

Definition running_steps : DataFrame :=
  selection frame_three [Str "Running"] (oee_threshold 50).

Definition steps_above_half : DataFrame :=
  selection frame_three [Str "Running"; Str "Stopped"] (oee_threshold 50).

(** ** Notions used in the statements *)

(** The three columns that the totals are taken of. *)
Definition totalled_columns : list string :=
  ["Units produced"; "Material Used (KG)"; "Waste Materials (KG)"].

(** The keys of [data_dict], each with the column it holds. *)
Definition data_dict_keys : list (string * string) :=
  [("Steps", "Steps"); ("Running_Status", "Running Status");
   ("Current_Lot_Number", "Current lot Number");
   ("Material_Used", "Material Used (KG)");
   ("Waste_Materials", "Waste Materials (KG)");
   ("Current_Lot_Run_Time", "Current Lot Run Time (Hours)");
   ("Expected_Lot_Run_Time", "Expected Lot Run Time (Hours)");
   ("Process_Down_Time", "Process Down time");
   ("Failure_Rate", "Failure Rate"); ("Units_Produced", "Units produced");
   ("Availability", "Availability"); ("Performance", "Performance");
   ("Quality", "Quality"); ("OEE", "OEE")].

(** [acc] names the best entry of [pre] under [better], whose non-strict
    order is [le]: nothing when every entry is NaN; otherwise a position
    [j] and its value [v], not NaN, that no entry beats and that beats
    every entry before it. *)
Definition best_of (better le : float → float → bool) (pre : list float)
    (acc : option (nat * float)) : Prop :=
  match acc with
  | None => Forall (λ x, F64.isna x = true) pre
  | Some (j, v) =>
      pre !! j = Some v ∧ F64.isna v = false ∧
      Forall (λ y, F64.isna y = true ∨ le y v = true) pre ∧
      ∀ k y, k < j → pre !! k = Some y →
             F64.isna y = true ∨ better v y = true
  end.

(** * Facts about binary64

    The comparisons and the multiplication of primitive floats are related
    to their specification over [spec_float] by the axioms of
    [FloatAxioms]; the facts below are derived from that specification. *)

Section float_facts.
Local Open Scope Z_scope.

(** *** Rounding a value that is at most 1 *)

(** The number of binary digits of a positive number. *)
Lemma digits2_pos_bounds p :
  2 ^ (Zpos (digits2_pos p) - 1) ≤ Zpos p < 2 ^ Zpos (digits2_pos p).
Proof.
  induction p as [p IH|p IH|]; simpl digits2_pos.
  - rewrite Pos2Z.inj_succ.
    replace (Z.succ (Z.pos (digits2_pos p)) - 1) with (Z.succ (Z.pos (digits2_pos p) - 1)) by lia.
    rewrite !Z.pow_succ_r by lia. lia.
  - rewrite Pos2Z.inj_succ.
    replace (Z.succ (Z.pos (digits2_pos p)) - 1) with (Z.succ (Z.pos (digits2_pos p) - 1)) by lia.
    rewrite !Z.pow_succ_r by lia. lia.
  - simpl. lia.
Qed.

Lemma Zdigits2_le m k : 0 ≤ m → 0 ≤ k → m ≤ 2 ^ k → Zdigits2 m ≤ k + 1.
Proof.
  intros Hm Hk Hle. destruct m as [|p|p]; simpl; [lia| |lia].
  destruct (digits2_pos_bounds p) as [Hlo _].
  destruct (Z_le_gt_dec (Zpos (digits2_pos p)) (k + 1)) as [|Hgt]; [done|].
  assert (2 ^ (k + 1) ≤ 2 ^ (Z.pos (digits2_pos p) - 1)) by (apply Z.pow_le_mono_r; lia).
  rewrite Z.pow_add_r in H by lia. lia.
Qed.

(** One step of the right shift. *)
Lemma shr_1_m mrs : 0 ≤ shr_m mrs → shr_m (shr_1 mrs) = shr_m mrs / 2.
Proof.
  destruct mrs as [m r s]. intros Hm.
  destruct m as [|[p|p|]|p]; cbn [shr_1 shr_m] in *; try lia.
  - reflexivity.
  - rewrite Pos2Z.inj_xI. apply Z.div_unique with 1; lia.
  - rewrite Pos2Z.inj_xO. apply Z.div_unique with 0; lia.
  - reflexivity.
Qed.

Lemma shr_1_flags mrs :
  0 ≤ shr_m mrs →
  shr_r (shr_1 mrs) || shr_s (shr_1 mrs) = true →
  shr_m mrs mod 2 ≠ 0 ∨ shr_r mrs || shr_s mrs = true.
Proof.
  destruct mrs as [m r s]. intros Hm.
  destruct m as [|[p|p|]|p]; cbn [shr_1 shr_m shr_r shr_s orb] in *;
    try lia; intros H.
  - by right.
  - left. rewrite Pos2Z.inj_xI, Z.add_comm, Z.mul_comm, Z.mod_add by lia. done.
  - by right.
  - by left.
Qed.

(** Shifting by one more bit keeps [shifted]. *)
Lemma shifted_step M k mrs :
  0 ≤ M → 0 ≤ k → shifted M k mrs → shifted M (k + 1) (shr_1 mrs).
Proof.
  intros HM Hk [Hm Hfl].
  assert (0 < 2 ^ k) by (apply Z.pow_pos_nonneg; lia).
  assert (Hm0 : 0 ≤ shr_m mrs) by (rewrite Hm; apply Z.div_pos; lia).
  assert (Hpow : 2 ^ (k + 1) = 2 ^ k * 2) by (rewrite Z.pow_add_r by lia; lia).
  split.
  - rewrite shr_1_m, Hm, Hpow by done. rewrite Z.div_div by lia. done.
  - intros Hf. destruct (shr_1_flags mrs Hm0 Hf) as [Hodd|Hold].
    + rewrite Hm in Hodd. intros Hz. apply Hodd.
      rewrite Hpow in Hz. apply Z.mod_divide in Hz; [|lia].
      destruct Hz as [c Hc]. subst M.
      replace (c * (2 ^ k * 2)) with ((c * 2) * 2 ^ k) by lia.
      rewrite Z.div_mul by lia. rewrite Z.mod_mul; lia.
    + specialize (Hfl Hold). intros Hz. apply Hfl.
      rewrite Hpow in Hz. apply Z.mod_divide in Hz; [|lia].
      destruct Hz as [c Hc]. subst M.
      replace (c * (2 ^ k * 2)) with ((c * 2) * 2 ^ k) by lia.
      apply Z.mod_mul. lia.
Qed.

Lemma shifted_iter M p : ∀ k mrs,
  0 ≤ M → 0 ≤ k → shifted M k mrs →
  shifted M (k + Zpos p) (SpecFloat.iter_pos shr_1 p mrs).
Proof.
  induction p as [p IH|p IH|]; intros k mrs HM Hk Hs; simpl.
  - replace (k + Z.pos p~1) with ((k + 1 + Z.pos p) + Z.pos p) by lia.
    apply IH; [done|lia|]. apply IH; [done|lia|]. by apply shifted_step.
  - replace (k + Z.pos p~0) with ((k + Z.pos p) + Z.pos p) by lia.
    apply IH; [done|lia|]. by apply IH.
  - by apply shifted_step.
Qed.


(** Truncating [m * 2^e <= 1] to the format's precision stays at most 1,
    and strictly below 1 when a nonzero bit is lost. *)
Lemma shr_fexp_unit m e :
  0 ≤ m → e ≤ 0 → m ≤ 2 ^ (- e) →
  ∀ mrs e', shr_fexp prec emax m e loc_Exact = (mrs, e') →
  e' ≤ 0 ∧ 0 ≤ shr_m mrs ∧ shr_m mrs ≤ 2 ^ (- e') ∧
  (shr_r mrs || shr_s mrs = true → shr_m mrs < 2 ^ (- e')).
Proof.
  intros Hm He Hle mrs e'. unfold shr_fexp, shr. simpl shr_record_of_loc.
  pose proof (Zdigits2_le m (- e) Hm ltac:(lia) Hle) as Hd.
  assert (Hf : fexp prec emax (Zdigits2 m + e) ≤ 0).
  { unfold fexp, emin, prec, emax. lia. }
  destruct (fexp prec emax (Zdigits2 m + e) - e) as [|n|n] eqn:Hn.
  - intros [= <- <-]. simpl. repeat split; try done. 
  - intros [= <- <-].
    destruct (shifted_iter m n 0 (Build_shr_record m false false) Hm ltac:(lia)) as [Hv Hfl].
    { split; simpl; [by rewrite Z.div_1_r|done]. }
    rewrite Z.add_0_l in Hv, Hfl.
    assert (0 < 2 ^ Z.pos n) by (apply Z.pow_pos_nonneg; lia).
    assert (Hsplit : 2 ^ (- e) = 2 ^ (- (e + Z.pos n)) * 2 ^ Z.pos n).
    { rewrite <- Z.pow_add_r by lia. f_equal. lia. }
    split; [lia|]. rewrite Hv. split; [apply Z.div_pos; lia|]. split.
    + apply Z.div_le_upper_bound; [lia|]. lia.
    + intros Hfl'. specialize (Hfl Hfl').
      apply Z.div_lt_upper_bound; [lia|].
      assert (m ≠ 2 ^ (- e)); [|lia].
      intros ->. apply Hfl. rewrite Hsplit. apply Z.mod_mul. lia.
  - intros [= <- <-]. simpl. repeat split; try done.
Qed.

Lemma round_nearest_even_cases m l :
  round_nearest_even m l = m ∨
  (round_nearest_even m l = m + 1 ∧ l ≠ loc_Exact).
Proof.
  destruct l as [|[]]; simpl; try destruct (Z.even m);
    first [by left | right; split; [done|discriminate]].
Qed.

Lemma loc_of_shr_record_inexact mrs :
  loc_of_shr_record mrs ≠ loc_Exact → shr_r mrs || shr_s mrs = true.
Proof. destruct mrs as [m [] []]; simpl; congruence. Qed.

(** Rounding [m * 2^e <= 1] to nearest even gives a zero or a positive
    number that is at most 1. *)
Lemma binary_round_aux_unit m e :
  0 ≤ m → e ≤ 0 → m ≤ 2 ^ (- e) →
  SF_unit_value (binary_round_aux prec emax false m e loc_Exact).
Proof.
  intros Hm He Hle. unfold binary_round_aux.
  destruct (shr_fexp prec emax m e loc_Exact) as [mrs1 e1] eqn:H1.
  destruct (shr_fexp_unit m e Hm He Hle _ _ H1) as (He1 & Hm1 & Hle1 & Hlt1).
  set (m2 := round_nearest_even (shr_m mrs1) (loc_of_shr_record mrs1)).
  assert (Hm2 : 0 ≤ m2 ∧ m2 ≤ 2 ^ (- e1)).
  { subst m2. destruct (round_nearest_even_cases (shr_m mrs1) (loc_of_shr_record mrs1))
      as [->|[-> Hl]]; [lia|].
    apply loc_of_shr_record_inexact, Hlt1 in Hl. lia. }
  destruct (shr_fexp prec emax m2 e1 loc_Exact) as [mrs2 e2] eqn:H2.
  destruct (shr_fexp_unit m2 e1 ltac:(lia) He1 ltac:(lia) _ _ H2) as (He2 & Hm2' & Hle2 & _).
  destruct (shr_m mrs2) as [|p|p] eqn:Hp; [done| |lia].
  replace (e2 <=? emax - prec) with true; [done|].
  symmetry. apply Z.leb_le. unfold emax, prec. lia.
Qed.

Lemma Prim2SF_zero : Prim2SF 0 = S754_zero false.
Proof. reflexivity. Qed.

Lemma Prim2SF_one : Prim2SF 1 = SF_one.
Proof. reflexivity. Qed.

Lemma SFcompare_refl x : x ≠ S754_nan → SFcompare x x = Some Eq.
Proof.
  destruct x as [s|s| |s m e]; simpl; try done.
  - by destruct s.
  - intros _. rewrite Z.compare_refl, Pos.compare_cont_refl. by destruct s.
Qed.

Lemma isna_Prim2SF x : F64.isna x = true ↔ Prim2SF x = S754_nan.
Proof.
  unfold F64.isna, is_nan. rewrite FloatAxioms.eqb_spec. unfold SFeqb.
  destruct (Prim2SF x) as [s|s| |s m e] eqn:Hx; [| |done|];
    (rewrite SFcompare_refl by done; split; done).
Qed.

Lemma isna_false_Prim2SF x : F64.isna x = false ↔ Prim2SF x ≠ S754_nan.
Proof.
  rewrite <- isna_Prim2SF. destruct (F64.isna x); split; congruence.
Qed.

Lemma canonical_digits m e :
  canonical_mantissa prec emax m e = true →
  Zpos (digits2_pos m) ≤ 53 ∧ (-1074 < e → Zpos (digits2_pos m) = 53) ∧ -1074 ≤ e.
Proof.
  unfold canonical_mantissa, fexp, emin, prec, emax. intros H%Z.eqb_eq. lia.
Qed.

(** [<=] between two positive finite numbers compares exponents, then
    mantissas. *)
Lemma finite_leb_spec m e c e0 :
  SFleb (S754_finite false m e) (S754_finite false c e0) = true
  ↔ e < e0 ∨ (e = e0 ∧ Z.pos m ≤ Z.pos c).
Proof.
  unfold SFleb, SFcompare.
  destruct (Z.compare_spec e e0) as [->|Hlt|Hgt].
  - rewrite Pos.compare_cont_spec.
    destruct (Pos.compare_spec m c) as [->|Hl|Hg]; cbn [Pos.switch_Eq];
      (split; [intros Hb; try discriminate Hb; lia | intros Hle; try reflexivity; lia]).
  - split; [intros _; lia|reflexivity].
  - split; [discriminate|lia].
Qed.

(** For a number in canonical form, [<= 1] by the float comparison is
    [<= 1] by value. *)
Lemma finite_unit_value_leb m e :
  bounded prec emax m e = true →
  SFleb (S754_finite false m e) SF_one = true ↔ e ≤ 0 ∧ Zpos m ≤ 2 ^ (- e).
Proof.
  unfold bounded. intros [Hc _]%andb_prop.
  destruct (canonical_digits m e Hc) as (Hd & Hn & Hmin).
  destruct (digits2_pos_bounds m) as [Hlo Hhi].
  unfold SF_one. rewrite finite_leb_spec. 
  destruct (Z_dec' e (-52)) as [[Hlt|Hgt]| ->].
  - assert (2 ^ Z.pos (digits2_pos m) ≤ 2 ^ (- e)) by (apply Z.pow_le_mono_r; lia). 
    lia.
  - rewrite Hn in Hlo by lia. 
    change (2 ^ (53 - 1)) with 4503599627370496 in Hlo.
    split; [lia|]. intros [He Hle]. exfalso.
    assert (2 ^ (- e) ≤ 2 ^ 51) by (apply Z.pow_le_mono_r; lia).
    change (2 ^ 51) with 2251799813685248 in *. lia.
  - change (2 ^ (- -52)) with 4503599627370496. lia.
Qed.

Lemma in_unit_Prim2SF x : F64.in_unit x = true ↔ SF_unit_value (Prim2SF x).
Proof.
  unfold F64.in_unit. rewrite !FloatAxioms.leb_spec, Prim2SF_zero, Prim2SF_one.
  pose proof (Prim2SF_valid x) as Hv.
  destruct (Prim2SF x) as [s|s| |s m e]; simpl in *.
  - done.
  - destruct s; simpl; split; done.
  - done.
  - destruct s; [done|].
    rewrite andb_true_l. by apply finite_unit_value_leb.
Qed.

Lemma SFmul_unit x y :
  SF_unit_value x → SF_unit_value y → SF_unit_value (SFmul prec emax x y).
Proof.
  destruct x as [sx|sx| |sx mx ex], y as [sy|sy| |sy my ey];
    cbn [SF_unit_value SFmul]; try done.
  all: try (destruct sx; done). all: try (destruct sy; done).
  destruct sx; [done|]. destruct sy; [done|].
    intros [Hex Hx] [Hey Hy]. cbn [xorb].
    apply binary_round_aux_unit; [lia|lia|].
    replace (- (ex + ey)) with (- ex + - ey) by lia.
    rewrite Z.pow_add_r by lia. rewrite Pos2Z.inj_mul.
    apply Z.mul_le_mono_nonneg; lia.
Qed.

(** The unit interval is closed under the rounded product. *)
Lemma in_unit_mul x y :
  F64.in_unit x = true → F64.in_unit y = true → F64.in_unit (x * y) = true.
Proof.
  rewrite !in_unit_Prim2SF, FloatAxioms.mul_spec. apply SFmul_unit.
Qed.

Lemma in_unit_notna x : F64.in_unit x = true → F64.isna x = false.
Proof.
  rewrite in_unit_Prim2SF, isna_false_Prim2SF.
  by destruct (Prim2SF x).
Qed.

Lemma isna_mul_l x y : F64.isna x = true → F64.isna (x * y) = true.
Proof. rewrite !isna_Prim2SF, FloatAxioms.mul_spec. by intros ->. Qed.

Lemma isna_mul_r x y : F64.isna y = true → F64.isna (x * y) = true.
Proof.
  rewrite !isna_Prim2SF, FloatAxioms.mul_spec. intros ->. by destruct (Prim2SF x).
Qed.

(** *** Clamping *)

Lemma clip_isna x : F64.isna (F64.clip 0 1 x) = F64.isna x.
Proof.
  unfold F64.clip. destruct (F64.isna x) eqn:Hx; cbn [orb]; [done|].
  destruct (F64.geb x 0), (PrimFloat.leb x 1); done.
Qed.

(** A clamped value is NaN or in the unit interval. *)
Lemma clip_range x :
  F64.isna (F64.clip 0 1 x) = true ∨ F64.in_unit (F64.clip 0 1 x) = true.
Proof.
  unfold F64.clip. destruct (F64.isna x) eqn:Hx; cbn [orb]; [by left|right].
  destruct (F64.geb x 0) eqn:Hlo, (PrimFloat.leb x 1) eqn:Hhi; try done.
  unfold F64.in_unit, F64.geb in *. by rewrite Hlo, Hhi.
Qed.

Lemma clip_inside x : F64.in_unit x = true → F64.clip 0 1 x = x.
Proof.
  unfold F64.in_unit, F64.clip, F64.geb. intros [-> ->]%andb_prop.
  by rewrite !orb_true_r.
Qed.

Lemma SFltb_leb_finite m e c e0 :
  SFltb (S754_finite false c e0) (S754_finite false m e) = true →
  SFleb (S754_finite false m e) (S754_finite false c e0) = false.
Proof.
  unfold SFltb, SFleb, SFcompare.
  change (Pos.compare_cont Eq m c) with (Pos.compare m c).
  change (Pos.compare_cont Eq c m) with (Pos.compare c m).
  rewrite (Z.compare_antisym e0 e), (Pos.compare_antisym c m).
  destruct (e0 ?= e); cbn [CompOpp]; try done.
  by destruct (c ?= m)%positive.
Qed.

Lemma clip_below x : PrimFloat.ltb x 0 = true → F64.clip 0 1 x = 0%float.
Proof.
  intros Hlt. unfold F64.clip, F64.geb.
  assert (F64.isna x = false ∧ PrimFloat.leb 0 x = false ∧ PrimFloat.leb x 1 = true)
    as (-> & -> & ->); [|done].
  rewrite isna_false_Prim2SF, !FloatAxioms.leb_spec.
  rewrite FloatAxioms.ltb_spec in Hlt. rewrite Prim2SF_zero in *. rewrite Prim2SF_one.
  destruct (Prim2SF x) as [s|s| |s m e]; try done; by destruct s.
Qed.

Lemma clip_above x : PrimFloat.ltb 1 x = true → F64.clip 0 1 x = 1%float.
Proof.
  intros Hlt. unfold F64.clip.
  assert (F64.isna x = false ∧ PrimFloat.leb x 1 = false) as (-> & ->); [|done].
  rewrite isna_false_Prim2SF, FloatAxioms.leb_spec.
  rewrite FloatAxioms.ltb_spec in Hlt. rewrite Prim2SF_one in *.
  destruct (Prim2SF x) as [s|s| |s m e]; try done.
  - by destruct s.
  - destruct s; [done|]. split; [done|]. by apply SFltb_leb_finite.
Qed.

(** *** A zero expected run time *)

Lemma eqb_zero_Prim2SF x :
  PrimFloat.eqb x 0 = true ↔ ∃ s, Prim2SF x = S754_zero s.
Proof.
  rewrite FloatAxioms.eqb_spec, Prim2SF_zero. unfold SFeqb.
  destruct (Prim2SF x) as [s|s| |s m e]; cbn [SFcompare].
  - split; [eauto|done].
  - split; [by destruct s|by intros [? ?]].
  - split; [done|by intros [? ?]].
  - split; [by destruct s|by intros [? ?]].
Qed.

Lemma has_sign_Prim2SF x s :
  match Prim2SF x with
  | S754_infinity s' | S754_finite s' _ _ => s' = s
  | _ => False
  end → has_sign x s.
Proof.
  unfold has_sign, F64.gtb. rewrite !FloatAxioms.ltb_spec, Prim2SF_zero.
  destruct (Prim2SF x) as [s'|s'| |s' m e]; try done; intros ->; by destruct s.
Qed.

Lemma Prim2SF_signed_infinity x s :
  Prim2SF x = S754_infinity s → x = signed_infinity s.
Proof.
  intros H. apply Prim2SF_inj. rewrite H. by destruct s.
Qed.

(** Dividing [c], of sign [sc], by a zero of sign [s] gives NaN or the
    infinity of sign [xorb sc s]. *)
Lemma div_zero_sign c exp s :
  Prim2SF exp = S754_zero s →
  F64.isna (c / exp) = true ∨
  ∃ sc, has_sign c sc ∧ (c / exp)%float = signed_infinity (xorb sc s).
Proof.
  intros He.
  destruct (Prim2SF c) as [sc|sc| |sc mc ec] eqn:Hc.
  - left. apply isna_Prim2SF. by rewrite FloatAxioms.div_spec, Hc, He.
  - right. exists sc. split; [by apply has_sign_Prim2SF; rewrite Hc|].
    apply Prim2SF_signed_infinity. by rewrite FloatAxioms.div_spec, Hc, He.
  - left. apply isna_Prim2SF. by rewrite FloatAxioms.div_spec, Hc, He.
  - right. exists sc. split; [by apply has_sign_Prim2SF; rewrite Hc|].
    apply Prim2SF_signed_infinity. by rewrite FloatAxioms.div_spec, Hc, He.
Qed.

(** Subtracting [d] from a zero gives NaN, a zero, or a number of the sign
    opposite to that of [d]. *)
Lemma zero_sub_sign exp d s :
  Prim2SF exp = S754_zero s →
  F64.isna (exp - d) = true ∨ (∃ s', Prim2SF (exp - d) = S754_zero s') ∨
  ∃ sd, has_sign d sd ∧ has_sign (exp - d) (negb sd).
Proof.
  intros He.
  destruct (Prim2SF d) as [sd|sd| |sd md ed] eqn:Hd.
  - right; left. rewrite FloatAxioms.sub_spec, Hd, He.
    destruct s, sd; cbn; eauto.
  - right; right. exists sd. split; [by apply has_sign_Prim2SF; rewrite Hd|].
    apply has_sign_Prim2SF. by rewrite FloatAxioms.sub_spec, Hd, He.
  - left. apply isna_Prim2SF. rewrite FloatAxioms.sub_spec, Hd, He. done.
  - right; right. exists sd. split; [by apply has_sign_Prim2SF; rewrite Hd|].
    apply has_sign_Prim2SF. by rewrite FloatAxioms.sub_spec, Hd, He.
Qed.

Lemma has_sign_inj x s1 s2 : has_sign x s1 → has_sign x s2 → s1 = s2.
Proof.
  unfold has_sign, F64.gtb. destruct s1, s2; try done;
    rewrite !FloatAxioms.ltb_spec, Prim2SF_zero;
    destruct (Prim2SF x) as [s|s| |s m e]; try done; by destruct s.
Qed.

(** With [exp] a zero of sign [s] and [d] of sign [sd], [(exp - d) / exp] is
    NaN or the infinity of sign [xorb (negb sd) s]. *)
Lemma zero_sub_div_sign exp d s :
  Prim2SF exp = S754_zero s →
  F64.isna ((exp - d) / exp) = true ∨
  ∃ sd, has_sign d sd ∧
        ((exp - d) / exp)%float = signed_infinity (xorb (negb sd) s).
Proof.
  intros He.
  destruct (div_zero_sign (exp - d) exp s He) as [Hn|(sn & Hsn & Hq)]; [by left|].
  destruct (zero_sub_sign exp d s He) as [Hnan|[[s' Hz]|(sd & Hsd & Hsn')]].
  - apply isna_Prim2SF in Hnan. left. apply isna_Prim2SF.
    by rewrite FloatAxioms.div_spec, Hnan.
  - left. apply isna_Prim2SF. by rewrite FloatAxioms.div_spec, Hz, He.
  - right. exists sd. split; [done|].
    by rewrite Hq, (has_sign_inj _ _ _ Hsn Hsn').
Qed.

Lemma fillna_isna x : F64.isna x = true → F64.fillna 0 x = 0%float.
Proof. unfold F64.fillna. by intros ->. Qed.

Lemma fillna_notna x : F64.isna x = false → F64.fillna 0 x = x.
Proof. unfold F64.fillna. by intros ->. Qed.

(** A zero times a value of the unit interval is a zero. *)
Lemma zero_mul_unit q :
  F64.in_unit q = true → PrimFloat.eqb (0 * q) 0 = true.
Proof.
  rewrite in_unit_Prim2SF, eqb_zero_Prim2SF, FloatAxioms.mul_spec, Prim2SF_zero.
  destruct (Prim2SF q) as [s|s| |s m e]; cbn; try done; eauto.
Qed.

Lemma eqb_zero_notna x : PrimFloat.eqb x 0 = true → F64.isna x = false.
Proof.
  rewrite eqb_zero_Prim2SF, isna_false_Prim2SF. by intros [s ->].
Qed.

Lemma oee_of_zero_product a p q :
  F64.isna (a * p) = true ∨ (a * p)%float = 0%float →
  F64.isna q = true ∨ F64.in_unit q = true →
  PrimFloat.eqb (oee_of a p q) 0 = true.
Proof.
  intros Hap Hq. unfold oee_of.
  destruct Hap as [Hap|Hap].
  { by rewrite fillna_isna by (by apply isna_mul_l). }
  destruct Hq as [Hq|Hq].
  { by rewrite fillna_isna by (by apply isna_mul_r). }
  rewrite Hap. pose proof (zero_mul_unit q Hq) as Hz.
  by rewrite fillna_notna by (by apply eqb_zero_notna).
Qed.

(** With nothing expected the OEE is 0, unless the run time and the down
    time have strictly opposite signs. *)
Lemma oee_expected_zero cur exp down fr :
  PrimFloat.eqb exp 0 = true →
  opposite_signs cur down = false →
  PrimFloat.eqb (oee cur exp down fr) 0 = true.
Proof.
  intros [s He]%eqb_zero_Prim2SF Hopp. unfold oee.
  apply oee_of_zero_product; [|apply clip_range].
  unfold availability, performance.
  destruct (div_zero_sign cur exp s He) as [Ha|(sc & Hsc & Ha)].
  { left. apply isna_mul_l. by rewrite clip_isna. }
  destruct (zero_sub_div_sign exp down s He) as [Hp|(sd & Hsd & Hp)].
  { left. apply isna_mul_r. by rewrite clip_isna. }
  rewrite Ha, Hp. unfold opposite_signs in Hopp. unfold has_sign in Hsc, Hsd.
  destruct sc, sd, s; cbn [xorb negb signed_infinity]; try (by right);
    rewrite Hsc, Hsd in Hopp; cbn in Hopp; try done;
    by rewrite ?orb_true_r in Hopp.
Qed.

(** Two non-negative figures do not have opposite signs. *)
Lemma nonnegative_not_opposite cur down :
  PrimFloat.ltb cur 0 = false → PrimFloat.ltb down 0 = false →
  opposite_signs cur down = false.
Proof.
  unfold opposite_signs. intros -> ->. by rewrite andb_false_r.
Qed.

End float_facts.

(** * The frame computed by [load_data] *)

Lemma getitem_Ok df k s : getitem df k = Ok s ↔ columns df !! k = Some s.
Proof.
  unfold getitem. destruct (columns df !! k); split; congruence.
Qed.

Lemma getitem_setitem_eq df k s : getitem (setitem df k s) k = Ok s.
Proof. apply getitem_Ok. apply lookup_insert_eq. Qed.

Lemma getitem_setitem_ne df k k' s :
  k ≠ k' → getitem (setitem df k s) k' = getitem df k'.
Proof. intros. unfold getitem, setitem; simpl. by rewrite lookup_insert_ne. Qed.

(** One step of the symbolic execution of [load_data] in hypothesis [H]:
    a column access is resolved, or split into its outcomes. *)
Ltac load_step H :=
  first
  [ rewrite getitem_setitem_eq in H
  | rewrite getitem_setitem_ne in H by done
  | progress cbn [mbind result_bind mret result_ret Series_truediv Series_sub
                  Series_mul Series_binop Series_rsub Series_clip
                  Series_fillna Series_map] in H
  | match type of H with
    | context [getitem ?d ?k] =>
        match goal with
        | Hk : getitem d k = _ |- _ => rewrite Hk in H
        | _ => let s := fresh "s" in
               let Hk := fresh "Hk" in
               destruct (getitem d k) as [s|?] eqn:Hk; [|discriminate H]
        end
    | context [Series_binop _ ?a _] =>
        is_var a; destruct a as [?|?]; [|discriminate H]
    | context [Series_binop _ _ ?b] =>
        is_var b; destruct b as [?|?]; [|discriminate H]
    | context [Series_map _ ?a] =>
        is_var a; destruct a as [?|?]; [|discriminate H]
    | context [match ?s with Float64 _ => _ | Object _ => _ end] =>
        is_var s; destruct s as [?|?]; [|discriminate H]
    end ].

(** What a successful load says about the sheet and about the frame. *)
Lemma load_data_inv src df dd :
  load_data src = Ok (df, dd) →
  ∃ cur exp down fr,
    columns src !! "Current Lot Run Time (Hours)" = Some (Float64 cur) ∧
    columns src !! "Expected Lot Run Time (Hours)" = Some (Float64 exp) ∧
    columns src !! "Process Down time" = Some (Float64 down) ∧
    columns src !! "Failure Rate" = Some (Float64 fr) ∧
    Forall (λ k, is_Some (columns src !! k)) required_columns ∧
    index_len df = index_len src ∧
    let A := F64.clip 0 1 <$> zip_with PrimFloat.div cur exp in
    let P := F64.clip 0 1 <$>
               zip_with PrimFloat.div (zip_with PrimFloat.sub exp down) exp in
    let Q := F64.clip 0 1 <$> (PrimFloat.sub 1 <$> fr) in
    columns df !! "Availability" = Some (Float64 A) ∧
    columns df !! "Performance" = Some (Float64 P) ∧
    columns df !! "Quality" = Some (Float64 Q) ∧
    columns df !! "OEE" =
      Some (Float64 (F64.fillna 0 <$>
                       zip_with PrimFloat.mul (zip_with PrimFloat.mul A P) Q)) ∧
    ∀ k, k ∉ derived_columns → columns df !! k = columns src !! k.
Proof.
  intros H. unfold load_data in H.
  unfold Series_truediv, Series_sub, Series_mul, Series_rsub, Series_clip,
    Series_fillna in H.
  repeat load_step H.
  injection H as <- <-.
  repeat match goal with
         | Hk : getitem _ _ = Ok _ |- _ => apply getitem_Ok in Hk
         end.
  eexists _, _, _, _. repeat (split; [eassumption|]).
  split.
  { unfold required_columns.
    repeat (apply List.Forall_cons; [by eexists|]). apply List.Forall_nil. }
  split; [done|]. cbn zeta. unfold setitem; cbn [columns].
  repeat split.
  - by rewrite !lookup_insert_ne, lookup_insert_eq by done.
  - by rewrite !lookup_insert_ne, lookup_insert_eq by done.
  - by rewrite !lookup_insert_ne, lookup_insert_eq by done.
  - by rewrite lookup_insert_eq.
  - intros k Hne. unfold derived_columns in Hne.
    rewrite !not_elem_of_cons in Hne. destruct Hne as (? & ? & ? & ? & _).
    by rewrite !lookup_insert_ne by done.
Qed.

(** The same execution in the goal, when every column is known. *)
Ltac load_run :=
  repeat first
  [ rewrite getitem_setitem_eq
  | rewrite getitem_setitem_ne by done
  | progress cbn [mbind result_bind mret result_ret Series_truediv Series_sub
                  Series_mul Series_binop Series_rsub Series_clip
                  Series_fillna Series_map]
  | match goal with
    | Hk : getitem ?d ?k = _ |- context [getitem ?d ?k] => rewrite Hk
    end ].

(** A sheet with the ten columns, the four time and rate columns numeric,
    loads. *)
Lemma load_data_total src :
  Forall (λ k, is_Some (columns src !! k)) required_columns →
  Forall (λ k, ∃ xs, columns src !! k = Some (Float64 xs)) numeric_inputs →
  ∃ df dd, load_data src = Ok (df, dd).
Proof.
  unfold required_columns, numeric_inputs. intros Hreq Hnum.
  repeat match goal with
         | H : Forall _ (_ :: _) |- _ =>
             apply Forall_cons in H as [? H]
         end.
  repeat match goal with
         | H : ∃ xs, columns _ !! _ = Some _ |- _ =>
             destruct H as [? H]; apply getitem_Ok in H
         | H : is_Some (columns _ !! _) |- _ =>
             destruct H as [? H]; apply getitem_Ok in H
         end.
  repeat match goal with
         | H1 : getitem ?d ?k = Ok (Float64 ?a),
           H2 : getitem ?d ?k = Ok ?b |- _ =>
             is_var b; rewrite H1 in H2; injection H2 as <-
         end.
  unfold load_data.
  unfold Series_truediv, Series_sub, Series_mul, Series_rsub, Series_clip,
    Series_fillna.
  load_run. eauto.
Qed.

Lemma loads_script src :
  loads src = true →
  load_data src = Ok (script_df src, script_data_dict src).
Proof.
  unfold loads, script_df, script_data_dict.
  by destruct (load_data src) as [[df dd]|e].
Defined.

(** The performance column, element by element. *)
Lemma zip_performance (exp down : list float) :
  F64.clip 0 1 <$> zip_with PrimFloat.div (zip_with PrimFloat.sub exp down) exp
  = zip_with performance exp down.
Proof.
  revert down. induction exp as [|e exp IH]; intros [|d down]; simpl; try done.
  by rewrite IH.
Qed.

Lemma num_cell_Float64 df k xs i :
  columns df !! k = Some (Float64 xs) → num_cell df k i = xs !! i.
Proof.
  unfold num_cell, cell. intros ->. simpl. by destruct (xs !! i).
Qed.

(** The derived figures of a record are the formulas applied to its raw
    figures. *)
Lemma load_data_metrics_at src df dd i :
  load_data src = Ok (df, dd) →
  metrics_at df i = compute_row <$> inputs_at src i.
Proof.
  intros (cur & exp & down & fr & Hc & He & Hd & Hf & _ & _ & HA & HP & HQ & HO & _)
    %load_data_inv. cbn zeta in *.
  unfold metrics_at, inputs_at.
  rewrite (num_cell_Float64 _ _ _ _ Hc), (num_cell_Float64 _ _ _ _ He),
    (num_cell_Float64 _ _ _ _ Hd), (num_cell_Float64 _ _ _ _ Hf),
    (num_cell_Float64 _ _ _ _ HA), (num_cell_Float64 _ _ _ _ HP),
    (num_cell_Float64 _ _ _ _ HQ), (num_cell_Float64 _ _ _ _ HO).
  rewrite zip_performance.
  repeat first [rewrite list_lookup_fmap | rewrite lookup_zip_with].
  destruct (cur !! i) as [c|], (exp !! i) as [e|], (down !! i) as [d|],
    (fr !! i) as [f|]; try done.
Qed.

Lemma num_cell_Some df k i x :
  num_cell df k i = Some x →
  ∃ xs, columns df !! k = Some (Float64 xs) ∧ xs !! i = Some x.
Proof.
  unfold num_cell, cell.
  destruct (columns df !! k) as [[xs|xs]|]; simpl; [| |done].
  - destruct (xs !! i) as [y|] eqn:Hy; simpl; [|done]. intros [= <-]. eauto.
  - by destruct (xs !! i).
Qed.

Lemma record_metrics_Ok src i om :
  record_metrics src i = Ok om ↔
  ∃ df dd, load_data src = Ok (df, dd) ∧ metrics_at df i = om.
Proof.
  unfold record_metrics. destruct (load_data src) as [[df dd]|e]; simpl.
  - split; [intros [= <-]; eauto|]. by intros (? & ? & [= <- <-] & <-).
  - split; [done|]. by intros (? & ? & ? & _).
Qed.

Lemma record_metrics_Some src i m :
  record_metrics src i = Ok (Some m) →
  ∃ r, inputs_at src i = Some r ∧ m = compute_row r.
Proof.
  intros (df & dd & Hl & Hm)%record_metrics_Ok.
  rewrite (load_data_metrics_at _ _ _ _ Hl) in Hm.
  destruct (inputs_at src i) as [r|]; [|done]. injection Hm as <-. eauto.
Qed.

(** The metrics of a record of a sheet that has the ten columns: the load
    succeeds and the record gets the formulas of its raw figures. *)
Lemma record_metrics_spec src i r :
  Forall (λ k, is_Some (columns src !! k)) required_columns →
  inputs_at src i = Some r →
  record_metrics src i = Ok (Some (compute_row r)).
Proof.
  intros Hreq Hr.
  assert (Forall (λ k, ∃ xs, columns src !! k = Some (Float64 xs)) numeric_inputs)
    as Hnum.
  { unfold inputs_at in Hr.
    destruct (num_cell src "Current Lot Run Time (Hours)" i) eqn:H1; [|done].
    destruct (num_cell src "Expected Lot Run Time (Hours)" i) eqn:H2; [|done].
    destruct (num_cell src "Process Down time" i) eqn:H3; [|done].
    destruct (num_cell src "Failure Rate" i) eqn:H4; [|done].
    apply num_cell_Some in H1 as (? & ? & _), H2 as (? & ? & _),
      H3 as (? & ? & _), H4 as (? & ? & _).
    unfold numeric_inputs. repeat (apply List.Forall_cons; [by eexists|]).
    apply List.Forall_nil. }
  destruct (load_data_total src Hreq Hnum) as (df & dd & Hl).
  apply record_metrics_Ok. exists df, dd. split; [done|].
  by rewrite (load_data_metrics_at _ _ _ _ Hl), Hr.
Qed.

(** Loading keeps the frame rectangular. *)
Lemma load_data_rectangular src df dd :
  rectangular src → load_data src = Ok (df, dd) → rectangular df.
Proof.
  intros Hrect (cur & exp & down & fr & Hc & He & Hd & Hf & _ & Hn & HA & HP & HQ & HO & Hk)
    %load_data_inv. cbn zeta in *.
  pose proof (Hrect _ _ Hc) as Lc. pose proof (Hrect _ _ He) as Le.
  pose proof (Hrect _ _ Hd) as Ld. pose proof (Hrect _ _ Hf) as Lf.
  simpl in Lc, Le, Ld, Lf.
  intros k s Hs. rewrite Hn.
  destruct (decide (k ∈ derived_columns)) as [Hin|Hnin].
  - unfold derived_columns in Hin.
    repeat (apply elem_of_cons in Hin as [->|Hin]);
      [| | | |by apply elem_of_nil in Hin].
    + rewrite HA in Hs. injection Hs as <-. simpl.
      rewrite length_fmap, length_zip_with. lia.
    + rewrite HP in Hs. injection Hs as <-. simpl.
      rewrite length_fmap, !length_zip_with. lia.
    + rewrite HQ in Hs. injection Hs as <-. simpl.
      rewrite !length_fmap. lia.
    + rewrite HO in Hs. injection Hs as <-. simpl.
      rewrite !length_fmap, !length_zip_with, !length_fmap, !length_zip_with. lia.
  - rewrite (Hk k Hnin) in Hs. by apply (Hrect k s).
Qed.

(** * The metrics of one record *)

Lemma availability_range cur exp :
  F64.isna (availability cur exp) = true ∨
  F64.in_unit (availability cur exp) = true.
Proof. apply clip_range. Qed.

Lemma performance_range exp down :
  F64.isna (performance exp down) = true ∨
  F64.in_unit (performance exp down) = true.
Proof. apply clip_range. Qed.

Lemma quality_range fr :
  F64.isna (quality fr) = true ∨ F64.in_unit (quality fr) = true.
Proof. apply clip_range. Qed.

Lemma oee_of_in_unit a p q :
  F64.isna a = true ∨ F64.in_unit a = true →
  F64.isna p = true ∨ F64.in_unit p = true →
  F64.isna q = true ∨ F64.in_unit q = true →
  F64.in_unit (oee_of a p q) = true.
Proof.
  intros [Ha|Ha] Hp Hq; unfold oee_of.
  { by rewrite fillna_isna by (by apply isna_mul_l, isna_mul_l). }
  destruct Hp as [Hp|Hp].
  { by rewrite fillna_isna by (by apply isna_mul_l, isna_mul_r). }
  destruct Hq as [Hq|Hq].
  { by rewrite fillna_isna by (by apply isna_mul_r). }
  assert (F64.in_unit (a * p * q) = true) as Hu
    by (apply in_unit_mul; [apply in_unit_mul|]; done).
  by rewrite fillna_notna by (by apply in_unit_notna).
Qed.

Lemma oee_in_unit cur exp down fr :
  F64.in_unit (oee cur exp down fr) = true.
Proof.
  apply oee_of_in_unit;
    [apply availability_range|apply performance_range|apply quality_range].
Qed.

Lemma range_notna x :
  F64.isna x = true ∨ F64.in_unit x = true → F64.isna x = false →
  F64.in_unit x = true.
Proof. intros [->|?]; done. Qed.

Lemma oee_of_product a p q :
  F64.in_unit a = true → F64.in_unit p = true → F64.in_unit q = true →
  oee_of a p q = (a * p * q)%float.
Proof.
  intros Ha Hp Hq. unfold oee_of.
  rewrite fillna_notna; [done|].
  apply in_unit_notna, in_unit_mul; [apply in_unit_mul|]; done.
Qed.

(** Every OEE of the loaded frame is in the unit interval. *)
Lemma load_data_oee_column src df dd :
  load_data src = Ok (df, dd) →
  ∃ oees, columns df !! "OEE" = Some (Float64 oees) ∧
          Forall (λ x, F64.in_unit x = true) oees.
Proof.
  intros (cur & exp & down & fr & _ & _ & _ & _ & _ & _ & _ & _ & _ & HO & _)
    %load_data_inv. cbn zeta in *.
  eexists; split; [exact HO|].
  apply Forall_fmap, Forall_forall. intros x Hx. simpl.
  apply list_elem_of_lookup in Hx as [i Hi].
  repeat first [rewrite list_lookup_fmap in Hi | rewrite lookup_zip_with in Hi].
  destruct (cur !! i), (exp !! i), (down !! i), (fr !! i); simpl in Hi; try done.
  all: try (destruct (zip_with _ _ _ !! i); simpl in Hi; done).
  injection Hi as <-. exact (oee_in_unit _ _ _ _).
Qed.

(** * Masks *)

Lemma Series_iloc_values s i : Series_iloc s i = Series_values s !! i.
Proof. destruct s; simpl; by rewrite list_lookup_fmap. Qed.

Lemma Series_values_length s : length (Series_values s) = Series_len s.
Proof. destruct s; simpl; by rewrite length_fmap. Qed.

(** The first selected entry is the one at the first position where the
    mask holds. *)
Lemma compress_first {A} (mask : list bool) (xs : list A) i :
  mask !! i = Some true →
  (∀ j, j < i → mask !! j = Some false) →
  compress mask xs !! 0 = xs !! i.
Proof.
  revert mask xs. induction i as [|i IH]; intros [|b mask] xs Hi Hlt; try done.
  - injection Hi as ->. by destruct xs.
  - assert (b = false) as ->.
    { specialize (Hlt 0 ltac:(lia)). by injection Hlt. }
    destruct xs as [|x xs]; [done|]. simpl. apply IH; [done|].
    intros j Hj. apply (Hlt (S j)). lia.
Qed.

Lemma compress_all {A} (mask : list bool) (xs : list A) :
  Forall (λ b, b = true) mask → length xs ≤ length mask →
  compress mask xs = xs.
Proof.
  intros H. revert xs.
  induction H as [|b mask -> _ IH]; intros [|x xs] Hlen; simpl in *; try done; [lia|].
  f_equal. apply IH. lia.
Qed.

Lemma filter_true_all (mask : list bool) :
  Forall (λ b, b = true) mask →
  length (filter (λ b, b = true) mask) = length mask.
Proof.
  induction 1 as [|b mask -> _ IH]; [done|].
  rewrite filter_cons_True by done. simpl. by rewrite IH.
Qed.

Lemma filter_true_none (mask : list bool) :
  Forall (λ b, b = false) mask →
  length (filter (λ b, b = true) mask) = 0.
Proof.
  induction 1 as [|b mask -> _ IH]; [done|].
  by rewrite filter_cons_False by done.
Qed.

Lemma filter_true_pos (mask : list bool) i :
  mask !! i = Some true → 0 < length (filter (λ b, b = true) mask).
Proof.
  intros Hi. assert (true ∈ filter (λ b, b = true) mask) as Hin.
  { apply list_elem_of_filter. split; [done|]. by eapply list_elem_of_lookup_2. }
  destruct (filter (λ b, b = true) mask); [by apply elem_of_nil in Hin|simpl; lia].
Qed.

Lemma Series_iloc_compress_first mask s i :
  mask !! i = Some true →
  (∀ j, j < i → mask !! j = Some false) →
  Series_iloc (Series_compress mask s) 0 = Series_iloc s i.
Proof.
  intros Hi Hlt. destruct s; simpl; by rewrite (compress_first _ _ i).
Qed.

Lemma row_boolean_index_first df mask i :
  mask !! i = Some true →
  (∀ j, j < i → mask !! j = Some false) →
  row (boolean_index df mask) 0 = row df i.
Proof.
  intros Hi Hlt. apply map_eq. intros k. unfold row, boolean_index; simpl.
  rewrite !lookup_omap, lookup_fmap.
  destruct (columns df !! k) as [s|]; simpl; [|done].
  by apply Series_iloc_compress_first.
Qed.

(** * Step detail *)

Lemma first_match_mask df steps s i :
  getitem df "Steps" = Ok steps →
  first_match df s i →
  Series_eq steps s !! i = Some true ∧
  ∀ j, j < i → Series_eq steps s !! j = Some false.
Proof.
  intros Hs%getitem_Ok [(v & Hv & Heq) Hlt]. unfold cell in *.
  rewrite Hs in *. simpl in *. unfold Series_eq.
  rewrite Series_iloc_values in Hv. split.
  - by rewrite list_lookup_fmap, Hv; simpl; rewrite Heq.
  - intros j Hj. rewrite list_lookup_fmap.
    destruct (Series_values steps !! j) as [w|] eqn:Hw.
    + simpl. rewrite (Hlt j w Hj); [done|]. by rewrite Series_iloc_values.
    + apply lookup_ge_None in Hw. apply lookup_lt_Some in Hv. lia.
Qed.

(** If some record carries the identifier, one of them is the first. *)
Lemma first_match_exists df s j v :
  cell df "Steps" j = Some v → scalar_eqb v s = true →
  ∃ i, first_match df s i.
Proof.
  unfold first_match, cell.
  destruct (columns df !! "Steps") as [steps|] eqn:Hs; [|done]. simpl.
  rewrite Series_iloc_values. intros Hv Heq.
  destruct (list_find_elem_of (λ x, scalar_eqb x s = true)
              (Series_values steps) v) as [[i w] Hf].
  { by eapply list_elem_of_lookup_2. }
  { done. }
  apply list_find_Some in Hf as (Hw & Hweq & Hmin).
  exists i. split.
  - exists w. by rewrite Series_iloc_values.
  - intros j' w' Hj Hw'. rewrite Series_iloc_values in Hw'.
    specialize (Hmin j' w' Hw' Hj). by destruct (scalar_eqb w' s).
Qed.

Lemma step_data_first_match df s i :
  first_match df s i → step_data df s = Ok (row df i).
Proof.
  intros Hf. pose proof Hf as [(v & Hv & _) _].
  unfold cell in Hv. destruct (columns df !! "Steps") as [steps|] eqn:Hs; [|done].
  apply getitem_Ok in Hs.
  destruct (first_match_mask df steps s i Hs Hf) as [Hi Hlt].
  unfold step_data. rewrite Hs. cbn [mbind result_bind]. unfold iloc.
  destruct (decide _) as [_|Hn].
  - f_equal. by apply row_boolean_index_first.
  - exfalso. apply Hn. cbn [boolean_index index_len]. by eapply filter_true_pos.
Qed.

(** An identifier that no record carries. *)
Lemma step_data_absent df steps s :
  getitem df "Steps" = Ok steps →
  (∀ j v, cell df "Steps" j = Some v → scalar_eqb v s = false) →
  step_data df s = Raise IndexError.
Proof.
  intros Hs Hno. unfold step_data. rewrite Hs. cbn [mbind result_bind].
  unfold iloc. destruct (decide _) as [Hpos|]; [|done]. exfalso.
  cbn [boolean_index index_len] in Hpos. rewrite filter_true_none in Hpos; [lia|].
  apply Forall_forall. intros b Hb. unfold Series_eq in Hb.
  apply list_elem_of_fmap in Hb as (w & -> & Hw).
  apply list_elem_of_lookup in Hw as [j Hj]. apply (Hno j).
  unfold cell. apply getitem_Ok in Hs. rewrite Hs. simpl.
  by rewrite Series_iloc_values.
Qed.

(** * Filter *)

Lemma scalar_same_refl x : scalar_same x x = true.
Proof.
  destruct x as [x|s]; simpl.
  - unfold F64.same, F64.isna, is_nan. by destruct (PrimFloat.eqb x x).
  - apply String.eqb_refl.
Qed.

(** Every value of a column is the same as a value already seen or as one
    of the distinct values kept. *)
Lemma unique_from_covers seen xs x :
  x ∈ xs →
  existsb (scalar_same x) seen = true ∨
  existsb (scalar_same x) (unique_from seen xs) = true.
Proof.
  revert seen. induction xs as [|y ys IH]; intros seen Hx.
  { by apply elem_of_nil in Hx. }
  simpl. apply elem_of_cons in Hx.
  destruct (existsb (scalar_same y) seen) eqn:Hy.
  - destruct Hx as [->|Hx]; [by left|by apply IH].
  - destruct Hx as [->|Hx].
    + right. simpl. by rewrite scalar_same_refl.
    + destruct (IH (y :: seen) Hx) as [Hs|Hs].
      * simpl in Hs. apply orb_true_iff in Hs as [Hs|Hs]; [|by left].
        right. simpl. by rewrite Hs.
      * right. simpl. by rewrite Hs, orb_true_r.
Qed.

Lemma Series_isin_unique s :
  Forall (λ b, b = true) (Series_isin s (Series_unique s)).
Proof.
  unfold Series_isin, Series_unique. apply Forall_fmap, Forall_forall.
  intros x Hx. simpl.
  by destruct (unique_from_covers [] _ x Hx) as [?|?].
Qed.

Lemma Series_isin_length s values :
  length (Series_isin s values) = Series_len s.
Proof. unfold Series_isin. by rewrite length_fmap, Series_values_length. Qed.

Lemma zip_with_andb_all (m1 m2 : list bool) :
  Forall (λ b, b = true) m1 → Forall (λ b, b = true) m2 →
  Forall (λ b, b = true) (zip_with andb m1 m2).
Proof.
  intros H1. revert m2. induction H1 as [|b m1 -> _ IH]; intros m2 H2; [done|].
  destruct H2 as [|b' m2 -> H2]; [done|]. simpl. constructor; [done|by apply IH].
Qed.

(** A mask that holds everywhere selects the whole frame. *)
Lemma boolean_index_all df mask :
  rectangular df → Forall (λ b, b = true) mask → length mask = index_len df →
  boolean_index df mask = df.
Proof.
  intros Hrect Hall Hlen. destruct df as [n cols]. unfold boolean_index; simpl in *.
  f_equal.
  - by rewrite filter_true_all.
  - apply map_eq. intros k. rewrite lookup_fmap.
    destruct (cols !! k) as [s|] eqn:Hk; [|done]. simpl. f_equal.
    specialize (Hrect k s Hk). simpl in Hrect.
    destruct s; simpl in *; f_equal; apply compress_all; try done; lia.
Qed.

Lemma oee_threshold_zero : oee_threshold 0 = 0%float.
Proof. reflexivity. Qed.

Lemma Series_ge_zero_all oees :
  Forall (λ x, F64.in_unit x = true) oees →
  Forall (λ b, b = true) ((λ x, F64.geb x 0) <$> oees).
Proof.
  intros H. apply Forall_fmap. eapply Forall_impl; [exact H|].
  intros x Hx. simpl. unfold F64.in_unit, F64.geb in *.
  by apply andb_prop in Hx as [-> _].
Qed.

(** * Rows *)

Lemma num_cell_numeric_column df k i :
  num_cell df k i = numeric_column df k !! i.
Proof.
  unfold num_cell, cell, numeric_column.
  destruct (columns df !! k) as [[xs|xs]|]; simpl; try done.
  - by destruct (xs !! i).
  - by destruct (xs !! i).
Qed.

Lemma input_rows_lookup df i : input_rows df !! i = inputs_at df i.
Proof.
  unfold input_rows, inputs_at. rewrite !num_cell_numeric_column.
  rewrite !lookup_zip_with.
  destruct (numeric_column df "Current Lot Run Time (Hours)" !! i),
    (numeric_column df "Expected Lot Run Time (Hours)" !! i),
    (numeric_column df "Process Down time" !! i),
    (numeric_column df "Failure Rate" !! i); done.
Qed.

(** * Row-at-a-time evaluation *)

Lemma eval_step_length (rows : list Inputs) (out : list (option Metrics)) j :
  length (match rows !! j with
          | Some r => <[j := Some (compute_row r)]> out
          | None => out
          end) = length out.
Proof. destruct (rows !! j); [apply length_insert|done]. Qed.

(** The slot of record [i] after visiting [order]: filled if [i] was
    visited, untouched otherwise. *)
Lemma eval_fold_lookup (rows : list Inputs) order : ∀ out i,
  length out = length rows →
  foldl (λ out i,
           match rows !! i with
           | Some r => <[i := Some (compute_row r)]> out
           | None => out
           end) out order !! i
  = if decide (i ∈ order)
    then match rows !! i with
         | Some r => Some (Some (compute_row r))
         | None => None
         end
    else out !! i.
Proof.
  induction order as [|j order IH]; intros out i Hlen.
  { simpl. destruct (decide (i ∈ [])) as [H|_]; [by apply elem_of_nil in H|done]. }
  cbn [foldl]. rewrite IH by (by rewrite eval_step_length).
  destruct (decide (i ∈ order)) as [Hin|Hnin].
  { rewrite decide_True by (by right). done. }
  destruct (decide (i = j)) as [->|Hne].
  - rewrite decide_True by (by left).
    destruct (rows !! j) as [r|] eqn:Hr.
    + apply list_lookup_insert_eq. apply lookup_lt_Some in Hr. lia.
    + apply lookup_ge_None. apply lookup_ge_None in Hr. lia.
  - rewrite decide_False by (by intros [?|?]%elem_of_cons).
    destruct (rows !! j); [by apply list_lookup_insert_ne|done].
Qed.

Lemma eval_in_order_covering order rows :
  (∀ i, i < length rows → i ∈ order) →
  eval_in_order order rows = (λ r, Some (compute_row r)) <$> rows.
Proof.
  intros Hcov. apply list_eq. intros i. unfold eval_in_order.
  rewrite eval_fold_lookup by apply length_replicate.
  rewrite list_lookup_fmap. destruct (rows !! i) as [r|] eqn:Hr; simpl.
  - rewrite decide_True; [done|]. apply Hcov. by eapply lookup_lt_Some.
  - destruct (decide (i ∈ order)); [done|]. apply lookup_ge_None.
    rewrite length_replicate. by apply lookup_ge_None.
Qed.

Lemma eval_in_order_permutation order rows :
  order ≡ₚ seq 0 (length rows) →
  eval_in_order order rows = (λ r, Some (compute_row r)) <$> rows.
Proof.
  intros Hp. apply eval_in_order_covering. intros i Hi.
  rewrite Hp. apply elem_of_seq. lia.
Qed.

Lemma inputs_at_agree src src' i :
  (∀ k, cell src k i = cell src' k i) → inputs_at src i = inputs_at src' i.
Proof. intros H. unfold inputs_at, num_cell. by rewrite !H. Qed.

(** * Clamping and the waste guard *)

Lemma clip_saturates x : saturates x (F64.clip 0 1 x).
Proof.
  split; [apply clip_below|]. split; [apply clip_above|apply clip_inside].
Qed.

Lemma gtb_zero_nonzero x :
  F64.gtb x 0 = true → PrimFloat.eqb x 0 = false.
Proof.
  unfold F64.gtb. rewrite FloatAxioms.ltb_spec, FloatAxioms.eqb_spec, Prim2SF_zero.
  destruct (Prim2SF x) as [s|s| |s m e]; try done; by destruct s.
Qed.

(** The guard of line 70, for any two totals. *)
Lemma waste_percentage_of_guarded total_waste total_material_used :
  waste_percentage_of total_waste total_material_used
  = Ok (if F64.gtb total_material_used 0
        then (total_waste / total_material_used * 100)%float
        else 0%float).
Proof.
  unfold waste_percentage_of, checked_div.
  destruct (F64.gtb total_material_used 0) eqn:Hg; [|done].
  by rewrite (gtb_zero_nonzero _ Hg).
Qed.

(** Without the guard the aggregates of an empty selection are a NaN mean
    and a [ValueError] from [idxmax]. *)
Lemma aggregates_of_nothing :
  Series_mean (Float64 []) = Ok nan ∧
  Series_extreme F64.gtb (Float64 []) = Ok nan ∧
  Series_idx F64.gtb (Float64 []) = Raise ValueError.
Proof. repeat split; vm_compute; reflexivity. Qed.

(** * Facts about the sample sheets *)

Lemma required_columns_sheet_three :
  Forall (λ k, is_Some (columns sheet_three !! k)) required_columns.
Proof.
  unfold required_columns.
  repeat (apply List.Forall_cons; [vm_compute; eauto|]). apply List.Forall_nil.
Defined.

Lemma rectangular_sheet_three : rectangular sheet_three.
Proof. apply (bool_decide_unpack _). vm_compute. reflexivity. Defined.

Lemma load_data_sheet_three :
  load_data sheet_three
  = Ok (script_df sheet_three, script_data_dict sheet_three).
Proof. apply loads_script. vm_compute. reflexivity. Defined.

(** * The range of the metrics *)

(** C1, as stated, fails on a record with nothing run and nothing expected:
    its availability is [0 / 0], a NaN that the clamp leaves in place, and a
    NaN is not in the unit interval. The sheet [sheet_idle] has one such
    record. *)
Lemma idle_record_not_in_unit :
  record_metrics sheet_idle 0 = Ok (Some (mkMetrics nan nan 1 0)) ∧
  F64.in_unit nan = false.
Proof. split; vm_compute; reflexivity. Qed.

(** C1, amended. For every record of the computed table, the OEE lies in
    [[0,1]] whatever the raw figures are, and each of availability,
    performance and quality either lies in [[0,1]] or is NaN (only the OEE
    has its NaN replaced). *)
Theorem metrics_in_unit_or_nan src i m :
  record_metrics src i = Ok (Some m) →
  (F64.isna (m_availability m) = true ∨ F64.in_unit (m_availability m) = true) ∧
  (F64.isna (m_performance m) = true ∨ F64.in_unit (m_performance m) = true) ∧
  (F64.isna (m_quality m) = true ∨ F64.in_unit (m_quality m) = true) ∧
  F64.in_unit (m_oee m) = true.
Proof.
  intros (r & _ & ->)%record_metrics_Some.
  cbn [compute_row m_availability m_performance m_quality m_oee].
  auto using availability_range, performance_range, quality_range, oee_in_unit.
Qed.

Lemma metrics_in_unit_or_nan_witness :
  record_metrics sheet_three 2 = Ok (Some (mkMetrics nan nan 1 0)) ∧
  (F64.isna nan = true ∨ F64.in_unit nan = true) ∧
  (F64.isna nan = true ∨ F64.in_unit nan = true) ∧
  (F64.isna 1 = true ∨ F64.in_unit 1 = true) ∧
  F64.in_unit 0 = true.
Proof.
  split; [vm_compute; reflexivity|].
  apply (metrics_in_unit_or_nan sheet_three 2 (mkMetrics nan nan 1 0)).
  vm_compute; reflexivity.
Defined.

(** * A zero expected run time *)

(** C2, as stated, fails on a record with no expected run time and a
    negative down time: [5 / 0] is plus infinity, clamped to 1, and
    [(0 - -1) / 0] is plus infinity too, so the OEE is the quality, here 1. *)
Lemma negative_down_time_oee_one :
  inputs_at sheet_negative_down 0 = Some (mkInputs 5 0 (-1) 0) ∧
  record_metrics sheet_negative_down 0 = Ok (Some (mkMetrics 1 1 1 1)) ∧
  PrimFloat.eqb 1 0 = false.
Proof. repeat split; vm_compute; reflexivity. Qed.

(** C2, amended. For every record of a sheet that has the ten columns the
    metrics are computed without an exception; when the expected run time
    equals 0 the OEE equals 0 (so it is not NaN), whatever the failure rate
    is, unless the run time and the down time have strictly opposite signs
    (they have not when both are non-negative); and when availability,
    performance and quality are all defined (not NaN), the OEE is their
    product, multiplied from left to right. *)
Theorem oee_zero_when_nothing_expected src i r :
  Forall (λ k, is_Some (columns src !! k)) required_columns →
  inputs_at src i = Some r →
  ∃ m, record_metrics src i = Ok (Some m) ∧
    (PrimFloat.eqb (i_expected r) 0 = true →
     opposite_signs (i_current r) (i_down r) = false →
     PrimFloat.eqb (m_oee m) 0 = true) ∧
    (F64.isna (m_availability m) = false →
     F64.isna (m_performance m) = false →
     F64.isna (m_quality m) = false →
     m_oee m = (m_availability m * m_performance m * m_quality m)%float).
Proof.
  intros Hreq Hr. exists (compute_row r).
  split; [by apply record_metrics_spec|].
  cbn [compute_row m_availability m_performance m_quality m_oee]. split.
  - apply oee_expected_zero.
  - intros Ha Hp Hq. apply oee_of_product.
    + by apply range_notna; [apply availability_range|].
    + by apply range_notna; [apply performance_range|].
    + by apply range_notna; [apply quality_range|].
Qed.

Lemma oee_zero_when_nothing_expected_witness :
  Forall (λ k, is_Some (columns sheet_three !! k)) required_columns ∧
  inputs_at sheet_three 2 = Some (mkInputs 0 0 0 0) ∧
  ∃ m, record_metrics sheet_three 2 = Ok (Some m) ∧
       PrimFloat.eqb (m_oee m) 0 = true.
Proof.
  split; [exact required_columns_sheet_three|].
  split; [vm_compute; reflexivity|].
  destruct (oee_zero_when_nothing_expected sheet_three 2 (mkInputs 0 0 0 0))
    as (m & Hm & Hz & _).
  - exact required_columns_sheet_three.
  - vm_compute; reflexivity.
  - exists m. split; [exact Hm|]. apply Hz; vm_compute; reflexivity.
Defined.

(** * The filter *)

(** C3. Filtering the computed table by all its distinct statuses and the
    threshold 0 returns the table itself: the same index length and the
    same columns, value for value. *)
Theorem filter_by_everything_is_identity src df dd :
  rectangular src →
  load_data src = Ok (df, dd) →
  ∃ status_filter,
    status_options df = Ok status_filter ∧
    filtered_df df status_filter (oee_threshold 0) = Ok df.
Proof.
  intros Hrect Hl.
  pose proof (load_data_rectangular _ _ _ Hrect Hl) as Hdf.
  destruct (load_data_oee_column _ _ _ Hl) as (oees & HO & Hunit).
  pose proof Hl as (_ & _ & _ & _ & _ & _ & _ & _ & Hreq & _ & _ & _ & _ & _ & Hk)
    %load_data_inv.
  assert (∃ status, columns df !! "Running Status" = Some status) as [status Hst].
  { rewrite Hk by (apply (bool_decide_unpack _); vm_compute; reflexivity).
    rewrite Forall_forall in Hreq. apply Hreq.
    apply (bool_decide_unpack _); vm_compute; reflexivity. }
  exists (Series_unique status).
  unfold status_options, filtered_df.
  rewrite (proj2 (getitem_Ok _ _ _) Hst), (proj2 (getitem_Ok _ _ _) HO).
  cbn [mbind result_bind mret result_ret Series_ge]. split; [done|].
  f_equal. rewrite oee_threshold_zero. apply boolean_index_all; [done| |].
  - apply zip_with_andb_all; [apply Series_isin_unique|by apply Series_ge_zero_all].
  - rewrite length_zip_with, Series_isin_length, length_fmap.
    pose proof (Hdf _ _ Hst) as L1. pose proof (Hdf _ _ HO) as L2.
    simpl in L1, L2. lia.
Qed.

Lemma filter_by_everything_is_identity_witness :
  rectangular sheet_three ∧
  load_data sheet_three
    = Ok (script_df sheet_three, script_data_dict sheet_three) ∧
  ∃ status_filter,
    status_options (script_df sheet_three) = Ok status_filter ∧
    filtered_df (script_df sheet_three) status_filter (oee_threshold 0)
      = Ok (script_df sheet_three).
Proof.
  split; [exact rectangular_sheet_three|].
  split; [exact load_data_sheet_three|].
  apply (filter_by_everything_is_identity sheet_three
           (script_df sheet_three) (script_data_dict sheet_three)).
  - exact rectangular_sheet_three.
  - exact load_data_sheet_three.
Defined.

(** * An empty selection *)

(** C4. When the filter selects no row, the summary of the selection is the
    explicit no-data state in both columns of the page: no exception is
    raised, and the state is distinct from every summary that carries
    figures (so it is not a numeric 0). *)
Theorem empty_selection_reports_no_data df status_filter threshold fdf :
  filtered_df df status_filter threshold = Ok fdf →
  index_len fdf = 0 →
  filtered_summary fdf = Ok NoStepsMatch ∧
  performance_ranges fdf = Ok NoDataMatches ∧
  (∀ n a u t, Ok NoStepsMatch ≠ Ok (FilteredSummary n a u t)) ∧
  (∀ lo hi b w r, Ok NoDataMatches ≠ Ok (PerformanceRanges lo hi b w r)).
Proof.
  intros _ Hlen. unfold filtered_summary, performance_ranges. rewrite Hlen.
  repeat split; done.
Qed.

Lemma empty_selection_reports_no_data_witness :
  filtered_df (script_df sheet_three) [Str "Stopped"] (oee_threshold 60)
    = Ok (boolean_index (script_df sheet_three) [false; false; false]) ∧
  index_len (boolean_index (script_df sheet_three) [false; false; false]) = 0 ∧
  filtered_summary (boolean_index (script_df sheet_three) [false; false; false])
    = Ok NoStepsMatch.
Proof.
  split; [vm_compute; reflexivity|]. split; [reflexivity|].
  apply (empty_selection_reports_no_data (script_df sheet_three)
           [Str "Stopped"] (oee_threshold 60)
           (boolean_index (script_df sheet_three) [false; false; false]));
    vm_compute; reflexivity.
Defined.

(** * A missing column *)

(** C5. A sheet that lacks one of the ten required columns does not load:
    [load_data] raises and returns no frame at all. *)
Theorem load_fails_without_required_column src k :
  k ∈ required_columns → columns src !! k = None →
  ∃ e, load_data src = Raise e.
Proof.
  intros Hk Hnone. destruct (load_data src) as [[df dd]|e] eqn:Hl; [|eauto].
  apply load_data_inv in Hl as (? & ? & ? & ? & _ & _ & _ & _ & Hreq & _).
  rewrite Forall_forall in Hreq. destruct (Hreq k Hk) as [s Hs]. congruence.
Qed.

Lemma load_fails_without_required_column_witness :
  "Failure Rate" ∈ required_columns ∧
  columns sheet_no_failure_rate !! "Failure Rate" = None ∧
  ∃ e, load_data sheet_no_failure_rate = Raise e.
Proof.
  assert ("Failure Rate" ∈ required_columns) as Hk
    by (apply (bool_decide_unpack _); vm_compute; reflexivity).
  split; [exact Hk|]. split; [vm_compute; reflexivity|].
  apply (load_fails_without_required_column
           sheet_no_failure_rate "Failure Rate" Hk).
  vm_compute; reflexivity.
Defined.

(** The exception of that sheet is the [KeyError] of the absent column. *)
Lemma load_without_failure_rate :
  load_data sheet_no_failure_rate = Raise (KeyError "Failure Rate").
Proof. vm_compute. reflexivity. Qed.

(** * Lookup by step *)

(** C6. For every step identifier that some record carries, the lookup
    returns one record: the first one in table order whose step equals the
    identifier; a later record with the same step is never returned. *)
Theorem step_lookup_first_wins df s j v :
  cell df "Steps" j = Some v → scalar_eqb v s = true →
  ∃ i, first_match df s i ∧ i ≤ j ∧ step_data df s = Ok (row df i).
Proof.
  intros Hv Heq. destruct (first_match_exists df s j v Hv Heq) as [i Hf].
  exists i. split; [done|]. split; [|by apply step_data_first_match].
  destruct Hf as [_ Hmin]. destruct (decide (i ≤ j)) as [|Hgt]; [done|].
  rewrite (Hmin j v) in Heq; [done|lia|done].
Qed.

Lemma step_lookup_first_wins_witness :
  cell (script_df sheet_three) "Steps" 2 = Some (Str "Cutting") ∧
  scalar_eqb (Str "Cutting") (Str "Cutting") = true ∧
  ∃ i, first_match (script_df sheet_three) (Str "Cutting") i ∧ i ≤ 2 ∧
       step_data (script_df sheet_three) (Str "Cutting")
       = Ok (row (script_df sheet_three) i).
Proof.
  split; [vm_compute; reflexivity|]. split; [reflexivity|].
  apply (step_lookup_first_wins (script_df sheet_three) (Str "Cutting") 2
           (Str "Cutting")); vm_compute; reflexivity.
Defined.

(** On the sheet with two "Cutting" records the lookup returns the record
    of lot L1, the first of the two. *)
Lemma step_lookup_returns_first_lot :
  match step_data (script_df sheet_three) (Str "Cutting") with
  | Ok r => r !! "Current lot Number"
  | Raise _ => None
  end = Some (Str "L1").
Proof. vm_compute. reflexivity. Qed.

(** A step that no record of that sheet carries is not found. *)
Lemma step_lookup_of_absent_step :
  step_data (script_df sheet_three) (Str "Gluing") = Raise IndexError.
Proof. vm_compute. reflexivity. Qed.

(** * Independence of the rows *)

(** C7. The metrics of record [i] depend on the raw figures of record [i]
    only: two sheets that agree on row [i] get the same four derived values
    in that row. Evaluating the records one at a time, in any order, gives
    what evaluating them from first to last gives, and that is the content
    of the derived columns that [load_data] computes. *)
Theorem metrics_are_rowwise src df dd :
  load_data src = Ok (df, dd) →
  (∀ src' df' dd' i,
     load_data src' = Ok (df', dd') →
     (∀ k, cell src k i = cell src' k i) →
     metrics_at df i = metrics_at df' i) ∧
  (∀ order,
     order ≡ₚ seq 0 (length (input_rows src)) →
     eval_in_order order (input_rows src)
       = eval_in_order (seq 0 (length (input_rows src))) (input_rows src) ∧
     ∀ i, i < length (input_rows src) →
          eval_in_order order (input_rows src) !! i = Some (metrics_at df i)).
Proof.
  intros Hl. split.
  - intros src' df' dd' i Hl' Hagree.
    rewrite (load_data_metrics_at _ _ _ _ Hl), (load_data_metrics_at _ _ _ _ Hl').
    by rewrite (inputs_at_agree _ _ _ Hagree).
  - intros order Hp. rewrite (eval_in_order_permutation _ _ Hp).
    rewrite (eval_in_order_permutation (seq _ _)) by done. split; [done|].
    intros i Hi. rewrite list_lookup_fmap, input_rows_lookup.
    rewrite (load_data_metrics_at _ _ _ _ Hl).
    destruct (inputs_at src i) as [r|] eqn:Hr; [done|].
    rewrite <- input_rows_lookup in Hr. apply lookup_ge_None in Hr. lia.
Qed.

Lemma metrics_are_rowwise_witness :
  load_data sheet_three
    = Ok (script_df sheet_three, script_data_dict sheet_three) ∧
  [2; 0; 1] ≡ₚ seq 0 (length (input_rows sheet_three)) ∧
  eval_in_order [2; 0; 1] (input_rows sheet_three)
    = eval_in_order [0; 1; 2] (input_rows sheet_three).
Proof.
  assert (Hp : [2; 0; 1] ≡ₚ seq 0 (length (input_rows sheet_three))).
  { change (seq 0 (length (input_rows sheet_three))) with [0; 1; 2].
    apply (bool_decide_unpack _). vm_compute. reflexivity. }
  split; [exact load_data_sheet_three|]. split; [exact Hp|].
  exact (proj1 (proj2 (metrics_are_rowwise sheet_three _ _
                         load_data_sheet_three) [2; 0; 1] Hp)).
Defined.

(** * Saturation *)

(** C8. In every record, availability, performance and quality are their
    raw ratios saturated at the bounds: a raw value below 0 becomes 0, one
    above 1 becomes 1, one inside [[0,1]] is kept. With 12 hours run of 10
    expected the raw availability is 1.2 and the availability is 1. *)
Theorem clamp_saturates src i r m :
  inputs_at src i = Some r →
  record_metrics src i = Ok (Some m) →
  saturates (i_current r / i_expected r) (m_availability m) ∧
  saturates ((i_expected r - i_down r) / i_expected r) (m_performance m) ∧
  saturates (1 - i_failure r) (m_quality m) ∧
  (12 / 10 = 1.2 ∧ availability 12 10 = 1)%float.
Proof.
  intros Hr (r' & Hr' & ->)%record_metrics_Some.
  rewrite Hr in Hr'. injection Hr' as <-.
  cbn [compute_row m_availability m_performance m_quality].
  unfold availability at 1, performance, quality.
  split; [apply clip_saturates|]. split; [apply clip_saturates|].
  split; [apply clip_saturates|]. split; reflexivity.
Qed.

Lemma clamp_saturates_witness :
  inputs_at sheet_overrun 0 = Some (mkInputs 12 10 1 0.02) ∧
  record_metrics sheet_overrun 0
    = Ok (Some (mkMetrics 1 0.9 0.98 (1 * 0.9 * 0.98))) ∧
  saturates (12 / 10) 1.
Proof.
  split; [vm_compute; reflexivity|]. split; [vm_compute; reflexivity|].
  apply (clamp_saturates sheet_overrun 0 (mkInputs 12 10 1 0.02)
           (mkMetrics 1 0.9 0.98 (1 * 0.9 * 0.98)));
    vm_compute; reflexivity.
Defined.

(** * The nominal record *)

(** C9, as stated, fails in the last digit: for the record with 8 hours run
    of 10 expected, 1 hour down and a failure rate of 0.02, the three
    components are the floats 0.8, 0.9 and 0.98, but their product is not
    the float 0.7056. *)
Lemma nominal_oee_is_not_07056 :
  ∃ m, record_metrics sheet_nominal 0 = Ok (Some m) ∧
       m_availability m = 0.8%float ∧ m_performance m = 0.9%float ∧
       m_quality m = 0.98%float ∧
       PrimFloat.eqb (m_oee m) 0.7056 = false.
Proof.
  exists (mkMetrics 0.8 0.9 0.98 0.7056000000000001).
  repeat split; vm_compute; reflexivity.
Qed.

(** C9, amended. For that record the computed values are availability 0.8,
    performance 0.9, quality 0.98 and OEE 0.7056000000000001, the float next
    above 0.7056. *)
Theorem nominal_record_metrics :
  record_metrics sheet_nominal 0
    = Ok (Some (mkMetrics 0.8 0.9 0.98 0.7056000000000001)) ∧
  next_up 0.7056 = 0.7056000000000001%float.
Proof. split; vm_compute; reflexivity. Qed.

(** * The waste percentage *)

(** C10. The overall waste percentage is the total waste divided by the
    total material, times 100, when the total material is strictly
    positive, and 0 otherwise; no [ZeroDivisionError] arises, so the
    division is never by zero. *)
Theorem waste_percentage_guarded df mat waste :
  getitem df "Material Used (KG)" = Ok (Float64 mat) →
  getitem df "Waste Materials (KG)" = Ok (Float64 waste) →
  waste_percentage df
  = Ok (if F64.gtb (nansum mat) 0
        then (nansum waste / nansum mat * 100)%float
        else 0%float).
Proof.
  intros Hm Hw. unfold waste_percentage. rewrite Hm; cbn. rewrite Hw; cbn.
  by rewrite waste_percentage_of_guarded.
Qed.

Lemma waste_percentage_guarded_witness :
  getitem sheet_idle "Material Used (KG)" = Ok (Float64 [0%float]) ∧
  getitem sheet_idle "Waste Materials (KG)" = Ok (Float64 [0%float]) ∧
  waste_percentage sheet_idle = Ok 0%float.
Proof.
  split; [vm_compute; reflexivity|]. split; [vm_compute; reflexivity|].
  apply (waste_percentage_guarded sheet_idle [0%float] [0%float]);
    vm_compute; reflexivity.
Defined.

(** On the sheet of three records 16 of 240 kilograms are waste. *)
Lemma waste_percentage_sheet_three :
  waste_percentage sheet_three = Ok (16 / 240 * 100)%float.
Proof. vm_compute. reflexivity. Qed.

(** * More facts about the sample sheets *)

Lemma selects_selection df status_filter t :
  selects df status_filter t = true →
  filtered_df df status_filter t = Ok (selection df status_filter t).
Proof.
  unfold selects, selection.
  by destruct (filtered_df df status_filter t) as [fdf|e].
Defined.

Lemma load_data_frame_three :
  load_data sheet_three = Ok (frame_three, script_data_dict sheet_three).
Proof. exact load_data_sheet_three. Defined.

Lemma rectangular_frame_three : rectangular frame_three.
Proof.
  exact (load_data_rectangular _ _ _ rectangular_sheet_three
           load_data_frame_three).
Defined.

Lemma running_steps_selected :
  filtered_df frame_three [Str "Running"] (oee_threshold 50)
  = Ok running_steps.
Proof. apply selects_selection. vm_compute. reflexivity. Defined.

Lemma steps_above_half_selected :
  filtered_df frame_three [Str "Running"; Str "Stopped"] (oee_threshold 50)
  = Ok steps_above_half.
Proof. apply selects_selection. vm_compute. reflexivity. Defined.

Lemma totalled_columns_sheet_three :
  Forall (λ k, ∃ xs, columns sheet_three !! k = Some (Float64 xs))
    totalled_columns.
Proof.
  unfold totalled_columns.
  apply List.Forall_cons; [by exists [500; 400; 300]%float|].
  apply List.Forall_cons; [by exists [100; 80; 60]%float|].
  apply List.Forall_cons; [by exists [5; 8; 3]%float|].
  apply List.Forall_nil.
Defined.

Lemma performance_ranges_steps_above_half :
  performance_ranges steps_above_half
  = Ok (PerformanceRanges 0.5 0.7056000000000001 (Str "Cutting")
          (Str "Stitching") (13 / 180 * 100)).
Proof. vm_compute. reflexivity. Defined.

(** * The order of binary64 *)

Section float_order.
Local Open Scope Z_scope.

(** The comparison of two finite numbers of one sign, as a comparison of
    the pairs (exponent, mantissa). *)
Lemma finite_compare_cases e1 m1 e2 m2 :
  match (match Z.compare e1 e2 with
         | Lt => Lt | Gt => Gt | Eq => Pos.compare_cont Eq m1 m2 end) with
  | Lt => e1 < e2 ∨ (e1 = e2 ∧ Z.pos m1 < Z.pos m2)
  | Eq => e1 = e2 ∧ m1 = m2
  | Gt => e2 < e1 ∨ (e1 = e2 ∧ Z.pos m2 < Z.pos m1)
  end.
Proof.
  destruct (Z.compare_spec e1 e2) as [->|?|?]; [|lia|lia].
  change (Pos.compare_cont Eq m1 m2) with (Pos.compare m1 m2).
  destruct (Pos.compare_spec m1 m2) as [->|?|?]; [done|right; lia|right; lia].
Qed.

(** Two negative numbers compare as their opposites do, swapped. *)
Lemma SFcompare_finite_neg m1 e1 m2 e2 :
  SFcompare (S754_finite true m1 e1) (S754_finite true m2 e2)
  = SFcompare (S754_finite false m2 e2) (S754_finite false m1 e1).
Proof.
  cbn [SFcompare]. f_equal.
  change (Pos.compare_cont Eq m1 m2) with (Pos.compare m1 m2).
  change (Pos.compare_cont Eq m2 m1) with (Pos.compare m2 m1).
  rewrite (Z.compare_antisym e1 e2), (Pos.compare_antisym m1 m2).
  by destruct (e1 ?= e2).
Qed.

Lemma SFleb_trans x y z :
  SFleb x y = true → SFleb y z = true → SFleb x z = true.
Proof.
  unfold SFleb.
  destruct x as [sx|sx| |sx mx ex], y as [sy|sy| |sy my ey],
    z as [sz|sz| |sz mz ez];
    repeat match goal with s : bool |- _ => destruct s end;
    rewrite ?SFcompare_finite_neg; cbn [SFcompare]; try done.
  - pose proof (finite_compare_cases ey my ex mx) as H1;
    pose proof (finite_compare_cases ez mz ey my) as H2;
    pose proof (finite_compare_cases ez mz ex mx) as H3.
    destruct (match ey ?= ex with Lt => Lt | Gt => Gt | Eq => Pos.compare_cont Eq my mx end);
    destruct (match ez ?= ey with Lt => Lt | Gt => Gt | Eq => Pos.compare_cont Eq mz my end);
    destruct (match ez ?= ex with Lt => Lt | Gt => Gt | Eq => Pos.compare_cont Eq mz mx end);
    try done; exfalso;
    repeat match goal with H : _ ∧ _ |- _ => destruct H end; subst; lia.
  - pose proof (finite_compare_cases ex mx ey my) as H1;
    pose proof (finite_compare_cases ey my ez mz) as H2;
    pose proof (finite_compare_cases ex mx ez mz) as H3.
    destruct (match ex ?= ey with Lt => Lt | Gt => Gt | Eq => Pos.compare_cont Eq mx my end);
    destruct (match ey ?= ez with Lt => Lt | Gt => Gt | Eq => Pos.compare_cont Eq my mz end);
    destruct (match ex ?= ez with Lt => Lt | Gt => Gt | Eq => Pos.compare_cont Eq mx mz end);
    try done; exfalso;
    repeat match goal with H : _ ∧ _ |- _ => destruct H end; subst; lia.
Qed.

(** Of two numbers, neither NaN, one is at most the other. *)
Lemma SFleb_total x y :
  x ≠ S754_nan → y ≠ S754_nan → SFltb x y = false → SFleb y x = true.
Proof.
  unfold SFleb, SFltb.
  destruct x as [sx|sx| |sx mx ex], y as [sy|sy| |sy my ey];
    repeat match goal with s : bool |- _ => destruct s end;
    rewrite ?SFcompare_finite_neg; cbn [SFcompare]; try done; intros _ _.
  - change (Pos.compare_cont Eq mx my) with (Pos.compare mx my).
    change (Pos.compare_cont Eq my mx) with (Pos.compare my mx).
    rewrite (Z.compare_antisym ey ex), (Pos.compare_antisym my mx).
    destruct (ey ?= ex); cbn; try done. by destruct (my ?= mx)%positive.
  - change (Pos.compare_cont Eq mx my) with (Pos.compare mx my).
    change (Pos.compare_cont Eq my mx) with (Pos.compare my mx).
    rewrite (Z.compare_antisym ex ey), (Pos.compare_antisym mx my).
    destruct (ex ?= ey); cbn; try done. by destruct (mx ?= my)%positive.
Qed.

Lemma SFltb_leb x y : SFltb x y = true → SFleb x y = true.
Proof. unfold SFltb, SFleb. by destruct (SFcompare x y) as [[]|]. Qed.

Lemma SFleb_ltb_trans x y z :
  SFleb x y = true → SFltb y z = true → SFltb x z = true.
Proof.
  unfold SFleb, SFltb.
  destruct x as [sx|sx| |sx mx ex], y as [sy|sy| |sy my ey],
    z as [sz|sz| |sz mz ez];
    repeat match goal with s : bool |- _ => destruct s end;
    rewrite ?SFcompare_finite_neg; cbn [SFcompare]; try done.
  - pose proof (finite_compare_cases ey my ex mx) as H1;
    pose proof (finite_compare_cases ez mz ey my) as H2;
    pose proof (finite_compare_cases ez mz ex mx) as H3.
    destruct (match ey ?= ex with Lt => Lt | Gt => Gt | Eq => Pos.compare_cont Eq my mx end);
    destruct (match ez ?= ey with Lt => Lt | Gt => Gt | Eq => Pos.compare_cont Eq mz my end);
    destruct (match ez ?= ex with Lt => Lt | Gt => Gt | Eq => Pos.compare_cont Eq mz mx end);
    try done; exfalso;
    repeat match goal with H : _ ∧ _ |- _ => destruct H end; subst; lia.
  - pose proof (finite_compare_cases ex mx ey my) as H1;
    pose proof (finite_compare_cases ey my ez mz) as H2;
    pose proof (finite_compare_cases ex mx ez mz) as H3.
    destruct (match ex ?= ey with Lt => Lt | Gt => Gt | Eq => Pos.compare_cont Eq mx my end);
    destruct (match ey ?= ez with Lt => Lt | Gt => Gt | Eq => Pos.compare_cont Eq my mz end);
    destruct (match ex ?= ez with Lt => Lt | Gt => Gt | Eq => Pos.compare_cont Eq mx mz end);
    try done; exfalso;
    repeat match goal with H : _ ∧ _ |- _ => destruct H end; subst; lia.
Qed.

Lemma SFltb_leb_trans x y z :
  SFltb x y = true → SFleb y z = true → SFltb x z = true.
Proof.
  unfold SFleb, SFltb.
  destruct x as [sx|sx| |sx mx ex], y as [sy|sy| |sy my ey],
    z as [sz|sz| |sz mz ez];
    repeat match goal with s : bool |- _ => destruct s end;
    rewrite ?SFcompare_finite_neg; cbn [SFcompare]; try done.
  - pose proof (finite_compare_cases ey my ex mx) as H1;
    pose proof (finite_compare_cases ez mz ey my) as H2;
    pose proof (finite_compare_cases ez mz ex mx) as H3.
    destruct (match ey ?= ex with Lt => Lt | Gt => Gt | Eq => Pos.compare_cont Eq my mx end);
    destruct (match ez ?= ey with Lt => Lt | Gt => Gt | Eq => Pos.compare_cont Eq mz my end);
    destruct (match ez ?= ex with Lt => Lt | Gt => Gt | Eq => Pos.compare_cont Eq mz mx end);
    try done; exfalso;
    repeat match goal with H : _ ∧ _ |- _ => destruct H end; subst; lia.
  - pose proof (finite_compare_cases ex mx ey my) as H1;
    pose proof (finite_compare_cases ey my ez mz) as H2;
    pose proof (finite_compare_cases ex mx ez mz) as H3.
    destruct (match ex ?= ey with Lt => Lt | Gt => Gt | Eq => Pos.compare_cont Eq mx my end);
    destruct (match ey ?= ez with Lt => Lt | Gt => Gt | Eq => Pos.compare_cont Eq my mz end);
    destruct (match ex ?= ez with Lt => Lt | Gt => Gt | Eq => Pos.compare_cont Eq mx mz end);
    try done; exfalso;
    repeat match goal with H : _ ∧ _ |- _ => destruct H end; subst; lia.
Qed.

(** The only number between 1 and 1 is 1. *)
Lemma SFleb_antisym_one x :
  SFleb SF_one x = true → SFleb x SF_one = true → x = SF_one.
Proof.
  unfold SF_one.
  destruct x as [s|s| |s m e]; try done; try (by destruct s).
  destruct s; [done|]. rewrite !finite_leb_spec.
  intros [?|[? ?]] [?|[? ?]]; try lia. subst e. f_equal. apply Pos2Z.inj. lia.
Qed.

End float_order.

Lemma leb_trans x y z :
  PrimFloat.leb x y = true → PrimFloat.leb y z = true →
  PrimFloat.leb x z = true.
Proof. rewrite !FloatAxioms.leb_spec. apply SFleb_trans. Qed.

Lemma ltb_leb x y : PrimFloat.ltb x y = true → PrimFloat.leb x y = true.
Proof. rewrite FloatAxioms.ltb_spec, FloatAxioms.leb_spec. apply SFltb_leb. Qed.

Lemma leb_total x y :
  F64.isna x = false → F64.isna y = false →
  PrimFloat.ltb x y = false → PrimFloat.leb y x = true.
Proof.
  rewrite !isna_false_Prim2SF, FloatAxioms.ltb_spec, FloatAxioms.leb_spec.
  apply SFleb_total.
Qed.

Lemma leb_notna x y :
  PrimFloat.leb x y = true → F64.isna x = false ∧ F64.isna y = false.
Proof.
  rewrite !isna_false_Prim2SF, FloatAxioms.leb_spec. unfold SFleb.
  destruct (Prim2SF x), (Prim2SF y); done.
Qed.

Lemma leb_refl x : F64.isna x = false → PrimFloat.leb x x = true.
Proof.
  rewrite isna_false_Prim2SF, FloatAxioms.leb_spec. unfold SFleb.
  intros H. by rewrite SFcompare_refl.
Qed.

Lemma leb_ltb_trans x y z :
  PrimFloat.leb x y = true → PrimFloat.ltb y z = true →
  PrimFloat.ltb x z = true.
Proof.
  rewrite FloatAxioms.leb_spec, !FloatAxioms.ltb_spec. apply SFleb_ltb_trans.
Qed.

Lemma ltb_leb_trans x y z :
  PrimFloat.ltb x y = true → PrimFloat.leb y z = true →
  PrimFloat.ltb x z = true.
Proof.
  rewrite FloatAxioms.leb_spec, !FloatAxioms.ltb_spec. apply SFltb_leb_trans.
Qed.

Lemma leb_antisym_one x :
  PrimFloat.leb 1 x = true → PrimFloat.leb x 1 = true → x = 1%float.
Proof.
  rewrite !FloatAxioms.leb_spec, Prim2SF_one. intros H1 H2.
  apply Prim2SF_inj. rewrite Prim2SF_one.
  by apply SFleb_antisym_one.
Qed.

(** * More on masks *)

Lemma compress_sublist {A} (mask : list bool) (xs : list A) :
  compress mask xs `sublist_of` xs.
Proof.
  revert xs. induction mask as [|b mask IH]; intros [|x xs]; simpl;
    try apply sublist_nil_l.
  destruct b; [by apply sublist_skip|by apply sublist_cons].
Qed.

Lemma compress_mono {A} (mask1 mask2 : list bool) (xs : list A) :
  Forall2 (λ a b, a = true → b = true) mask1 mask2 →
  compress mask1 xs `sublist_of` compress mask2 xs.
Proof.
  intros H. revert xs. induction H as [|a b m1 m2 Hab _ IH]; intros [|x xs];
    simpl; try apply sublist_nil_l.
  destruct a.
  - rewrite Hab by done. by apply sublist_skip.
  - destruct b; [by apply sublist_cons|done].
Qed.

Lemma compress_length {A} (mask : list bool) (xs : list A) :
  length xs = length mask →
  length (compress mask xs) = length (filter (λ b, b = true) mask).
Proof.
  revert xs. induction mask as [|b mask IH]; intros [|x xs] Hlen; simpl in *;
    try done.
  destruct b.
  - rewrite filter_cons_True by done. simpl. f_equal. apply IH. lia.
  - rewrite filter_cons_False by done. apply IH. lia.
Qed.

Lemma filter_true_le (mask : list bool) :
  length (filter (λ b, b = true) mask) ≤ length mask.
Proof. apply length_filter. Qed.

(** The entries selected by a conjunction of two tests satisfy the test
    that was made on them. *)
Lemma compress_andb_r {A} (f : A → bool) (m : list bool) (xs : list A) :
  Forall (λ x, f x = true) (compress (zip_with andb m (f <$> xs)) xs).
Proof.
  revert m. induction xs as [|x xs IH]; intros [|b m]; simpl; try done.
  destruct b; simpl; [|apply IH].
  destruct (f x) eqn:Hx; [|apply IH]. constructor; [done|apply IH].
Qed.

Lemma compress_andb_l {A} (f : A → bool) (m : list bool) (xs : list A) :
  Forall (λ x, f x = true) (compress (zip_with andb (f <$> xs) m) xs).
Proof.
  revert m. induction xs as [|x xs IH]; intros [|b m]; simpl; try done.
  destruct (f x) eqn:Hx; simpl; [|apply IH].
  destruct b; [|apply IH]. constructor; [done|apply IH].
Qed.

Lemma boolean_index_rectangular df mask :
  rectangular df → length mask = index_len df →
  rectangular (boolean_index df mask).
Proof.
  intros Hrect Hlen k s. unfold boolean_index; simpl. rewrite lookup_fmap.
  destruct (columns df !! k) as [c|] eqn:Hc; simpl; [|done].
  intros [= <-]. specialize (Hrect k c Hc). simpl in Hrect.
  destruct c; simpl in *; apply compress_length; lia.
Qed.

Lemma Series_values_compress mask s :
  Series_values (Series_compress mask s) = compress mask (Series_values s).
Proof.
  destruct s as [xs|xs]; simpl.
  - revert xs. induction mask as [|b mask IH]; intros [|x xs]; simpl; try done.
    destruct b; simpl; by rewrite IH.
  - revert xs. induction mask as [|b mask IH]; intros [|x xs]; simpl; try done.
    destruct b; simpl; by rewrite IH.
Qed.

(** * More on the filter *)

(** The mask of lines 332-335. *)
Lemma filtered_df_inv df status_filter t fdf :
  filtered_df df status_filter t = Ok fdf →
  ∃ status oees,
    columns df !! "Running Status" = Some status ∧
    columns df !! "OEE" = Some (Float64 oees) ∧
    fdf = boolean_index df
            (zip_with andb (Series_isin status status_filter)
                           ((λ x, F64.geb x t) <$> oees)).
Proof.
  unfold filtered_df, getitem.
  destruct (columns df !! "Running Status") as [status|]; [|done].
  destruct (columns df !! "OEE") as [[oees|?]|]; try done.
  cbn. intros [= <-]. eauto.
Qed.

Lemma filtered_df_rectangular df status_filter t fdf :
  rectangular df → filtered_df df status_filter t = Ok fdf → rectangular fdf.
Proof.
  intros Hrect (status & oees & Hst & HO & ->)%filtered_df_inv.
  apply boolean_index_rectangular; [done|].
  rewrite length_zip_with, Series_isin_length, length_fmap.
  pose proof (Hrect _ _ Hst) as L1. pose proof (Hrect _ _ HO) as L2.
  simpl in L1, L2. lia.
Qed.

Lemma cell_boolean_index df mask k i :
  cell (boolean_index df mask) k i
  = columns df !! k ≫= λ s, compress mask (Series_values s) !! i.
Proof.
  unfold cell, boolean_index; simpl. rewrite lookup_fmap.
  destruct (columns df !! k) as [s|]; simpl; [|done].
  by rewrite Series_iloc_values, Series_values_compress.
Qed.

(** X1. Every row that the filter keeps matches it: its OEE is a number at
    least the threshold, and its running status is one of the selected
    statuses. *)
Theorem filter_keeps_only_matching_rows df status_filter t fdf :
  filtered_df df status_filter t = Ok fdf →
  ∀ i,
    (∀ v, cell fdf "OEE" i = Some v → ∃ x, v = Num x ∧ F64.geb x t = true) ∧
    (∀ v, cell fdf "Running Status" i = Some v →
          existsb (scalar_same v) status_filter = true).
Proof.
  intros (status & oees & Hst & HO & ->)%filtered_df_inv i. split; intros v.
  - rewrite cell_boolean_index, HO. simpl. intros Hv.
    apply list_elem_of_lookup_2 in Hv.
    pose proof (compress_andb_r (λ s, match s with Num x => F64.geb x t | Str _ => false end)
                  (Series_isin status status_filter) (Num <$> oees)) as Hall.
    rewrite <- list_fmap_compose in Hall.
    rewrite Forall_forall in Hall. specialize (Hall v Hv).
    destruct v as [x|s]; [eauto|done].
  - rewrite cell_boolean_index, Hst. simpl. intros Hv.
    apply list_elem_of_lookup_2 in Hv.
    pose proof (compress_andb_l (λ x, existsb (scalar_same x) status_filter)
                  ((λ x, F64.geb x t) <$> oees) (Series_values status)) as Hall.
    rewrite Forall_forall in Hall. by apply Hall.
Qed.

Lemma filter_keeps_only_matching_rows_witness :
  filtered_df frame_three [Str "Running"] (oee_threshold 50)
    = Ok running_steps ∧
  ∀ i,
    (∀ v, cell running_steps "OEE" i = Some v →
          ∃ x, v = Num x ∧ F64.geb x (oee_threshold 50) = true) ∧
    (∀ v, cell running_steps "Running Status" i = Some v →
          existsb (scalar_same v) [Str "Running"] = true).
Proof.
  split; [exact running_steps_selected|].
  exact (filter_keeps_only_matching_rows frame_three [Str "Running"]
           (oee_threshold 50) running_steps running_steps_selected).
Defined.

Lemma compress_lookup_true {A} (mask : list bool) (xs : list A) i :
  mask !! i = Some true →
  compress mask xs !! length (filter (λ b, b = true) (take i mask)) = xs !! i.
Proof.
  revert xs i. induction mask as [|b mask IH]; intros xs i Hi; [done|].
  destruct i as [|i]; simpl in Hi.
  - injection Hi as ->. by destruct xs.
  - destruct xs as [|x xs].
    + simpl. by destruct b.
    + simpl. destruct b.
      * rewrite filter_cons_True by done. simpl. by apply IH.
      * rewrite filter_cons_False by done. by apply IH.
Qed.

Lemma filter_true_take_lt (mask : list bool) i :
  mask !! i = Some true →
  length (filter (λ b, b = true) (take i mask))
  < length (filter (λ b, b = true) mask).
Proof.
  intros Hi. rewrite <- (take_drop_middle mask i true Hi) at 2.
  rewrite filter_app, length_app, filter_cons_True by done. simpl. lia.
Qed.

(** X2. The filter drops no matching row: a record whose status is among the
    selected ones and whose OEE is at least the threshold appears in the
    selection, whole, at a position not after its own. *)
Theorem filter_keeps_every_matching_row df status_filter t fdf i st x :
  filtered_df df status_filter t = Ok fdf →
  cell df "Running Status" i = Some st →
  existsb (scalar_same st) status_filter = true →
  cell df "OEE" i = Some (Num x) →
  F64.geb x t = true →
  ∃ j, j ≤ i ∧ j < index_len fdf ∧ row fdf j = row df i.
Proof.
  intros (status & oees & Hst & HO & ->)%filtered_df_inv Hs Hin Hx Hge.
  set (mask := zip_with andb _ _).
  assert (mask !! i = Some true) as Hi.
  { subst mask. unfold cell in Hs, Hx. rewrite Hst in Hs. rewrite HO in Hx.
    simpl in Hs, Hx. rewrite Series_iloc_values in Hs.
    unfold Series_isin. rewrite lookup_zip_with, !list_lookup_fmap, Hs. simpl.
    destruct (oees !! i) as [y|]; simpl in *; [|done].
    injection Hx as ->. by rewrite Hin, Hge. }
  exists (length (filter (λ b, b = true) (take i mask))). split; [|split].
  - etrans; [apply length_filter|]. rewrite length_take. lia.
  - simpl. by apply filter_true_take_lt.
  - apply map_eq. intros k. unfold row, boolean_index; simpl.
    rewrite !lookup_omap, lookup_fmap.
    destruct (columns df !! k) as [s|]; simpl; [|done].
    rewrite !Series_iloc_values, Series_values_compress.
    by apply compress_lookup_true.
Qed.

Lemma filter_keeps_every_matching_row_witness :
  cell frame_three "Running Status" 0 = Some (Str "Running") ∧
  cell frame_three "OEE" 0 = Some (Num 0.7056000000000001%float) ∧
  ∃ j, j ≤ 0 ∧ j < index_len running_steps ∧
       row running_steps j = row frame_three 0.
Proof.
  split; [vm_compute; reflexivity|]. split; [vm_compute; reflexivity|].
  apply (filter_keeps_every_matching_row frame_three [Str "Running"]
           (oee_threshold 50) running_steps 0 (Str "Running")
           0.7056000000000001%float running_steps_selected);
    vm_compute; reflexivity.
Defined.

(** X3. Filtering a rectangular frame only removes rows: the selection is
    rectangular, has no more rows, has the same columns, and each of its
    columns is a subsequence of the column it comes from, so the order of
    the rows is kept. *)
Theorem filter_only_removes_rows df status_filter t fdf :
  rectangular df →
  filtered_df df status_filter t = Ok fdf →
  rectangular fdf ∧ index_len fdf ≤ index_len df ∧
  dom (columns fdf) = dom (columns df) ∧
  ∀ k c, columns df !! k = Some c →
         ∃ c', columns fdf !! k = Some c' ∧
               Series_values c' `sublist_of` Series_values c.
Proof.
  intros Hrect (status & oees & Hst & HO & ->)%filtered_df_inv.
  set (mask := zip_with andb _ _).
  assert (length mask = index_len df) as Hlen.
  { subst mask. rewrite length_zip_with, Series_isin_length, length_fmap.
    pose proof (Hrect _ _ Hst) as L1. pose proof (Hrect _ _ HO) as L2.
    simpl in L1, L2. lia. }
  split; [by apply boolean_index_rectangular|]. split; [|split].
  - simpl. rewrite <- Hlen. apply length_filter.
  - simpl. apply dom_fmap_L.
  - intros k c Hc. exists (Series_compress mask c). split.
    + simpl. by rewrite lookup_fmap, Hc.
    + rewrite Series_values_compress. apply compress_sublist.
Qed.

Lemma filter_only_removes_rows_witness :
  rectangular frame_three ∧
  filtered_df frame_three [Str "Running"] (oee_threshold 50)
    = Ok running_steps ∧
  rectangular running_steps ∧ index_len running_steps ≤ index_len frame_three.
Proof.
  split; [exact rectangular_frame_three|].
  split; [exact running_steps_selected|].
  destruct (filter_only_removes_rows frame_three [Str "Running"]
              (oee_threshold 50) running_steps rectangular_frame_three
              running_steps_selected) as (Hr & Hle & _).
  exact (conj Hr Hle).
Defined.

Lemma Forall_true_fmap {A} (f : A → bool) (xs : list A) :
  Forall (λ x, f x = true) xs → Forall (λ b, b = true) (f <$> xs).
Proof. intros H. by apply Forall_fmap. Qed.

(** X4. Filtering the selection again with the same statuses and the same
    threshold returns the selection unchanged. *)
Theorem filter_is_idempotent df status_filter t fdf :
  rectangular df →
  filtered_df df status_filter t = Ok fdf →
  filtered_df fdf status_filter t = Ok fdf.
Proof.
  intros Hrect Hf.
  pose proof (filtered_df_rectangular _ _ _ _ Hrect Hf) as Hr.
  pose proof Hf as (status & oees & Hst & HO & ->)%filtered_df_inv.
  set (mask := zip_with andb _ _) in *.
  set (fdf := boolean_index df mask) in *.
  assert (columns fdf !! "Running Status" = Some (Series_compress mask status)) as Hst'
    by (simpl; by rewrite lookup_fmap, Hst).
  assert (columns fdf !! "OEE" = Some (Float64 (compress mask oees))) as HO'
    by (simpl; by rewrite lookup_fmap, HO).
  unfold filtered_df, getitem. rewrite Hst', HO'. cbn. f_equal.
  apply boolean_index_all; [done| |].
  - apply zip_with_andb_all.
    + unfold Series_isin. rewrite Series_values_compress.
      apply Forall_true_fmap.
      apply (compress_andb_l (λ x, existsb (scalar_same x) status_filter)).
    + apply Forall_true_fmap. apply (compress_andb_r (λ x, F64.geb x t)).
  - rewrite length_zip_with, Series_isin_length, length_fmap.
    pose proof (Hr _ _ Hst') as L1. pose proof (Hr _ _ HO') as L2.
    simpl in L1, L2. simpl. lia.
Qed.

Lemma filter_is_idempotent_witness :
  rectangular frame_three ∧
  filtered_df frame_three [Str "Running"] (oee_threshold 50)
    = Ok running_steps ∧
  filtered_df running_steps [Str "Running"] (oee_threshold 50)
    = Ok running_steps.
Proof.
  split; [exact rectangular_frame_three|].
  split; [exact running_steps_selected|].
  exact (filter_is_idempotent frame_three [Str "Running"] (oee_threshold 50)
           running_steps rectangular_frame_three running_steps_selected).
Defined.

Lemma masks_pointwise {A B} (g g' : A → bool) (f f' : B → bool)
    (ss : list A) (os : list B) :
  (∀ x, g x = true → g' x = true) → (∀ x, f x = true → f' x = true) →
  Forall2 (λ a b, a = true → b = true)
    (zip_with andb (g <$> ss) (f <$> os))
    (zip_with andb (g' <$> ss) (f' <$> os)).
Proof.
  intros Hg Hf. revert os. induction ss as [|s ss IH]; intros [|o os]; simpl;
    try constructor; [|apply IH].
  intros [Hs Ho]%andb_prop. by rewrite (Hg _ Hs), (Hf _ Ho).
Qed.

Lemma existsb_mono {A} (p : A → bool) (l l' : list A) :
  l ⊆ l' → existsb p l = true → existsb p l' = true.
Proof.
  intros Hsub. rewrite !existsb_exists. intros (x & Hx & Hp).
  exists x. split; [|done]. apply list_elem_of_In, Hsub. by apply list_elem_of_In.
Qed.

Lemma filter_true_mono (m1 m2 : list bool) :
  Forall2 (λ a b, a = true → b = true) m1 m2 →
  length (filter (λ b, b = true) m1) ≤ length (filter (λ b, b = true) m2).
Proof.
  induction 1 as [|a b m1 m2 Hab _ IH]; [done|].
  destruct a.
  - rewrite Hab, !filter_cons_True by done. simpl. lia.
  - rewrite filter_cons_False by done.
    destruct b; [rewrite filter_cons_True by done; simpl; lia|].
    by rewrite filter_cons_False by done.
Qed.

(** X5. Widening the filter loses no row: with more statuses selected and a
    threshold that is not higher, the number of rows does not decrease and
    every column of the former selection is a subsequence of the new one. *)
Theorem filter_is_monotone df status_filter status_filter' t t' fdf fdf' :
  filtered_df df status_filter t = Ok fdf →
  filtered_df df status_filter' t' = Ok fdf' →
  status_filter ⊆ status_filter' →
  PrimFloat.leb t' t = true →
  index_len fdf ≤ index_len fdf' ∧
  ∀ k c, columns fdf !! k = Some c →
         ∃ c', columns fdf' !! k = Some c' ∧
               Series_values c `sublist_of` Series_values c'.
Proof.
  intros (status & oees & Hst & HO & ->)%filtered_df_inv
         (status' & oees' & Hst' & HO' & ->)%filtered_df_inv Hsub Ht.
  rewrite Hst in Hst'. injection Hst' as <-.
  rewrite HO in HO'. injection HO' as <-.
  assert (Forall2 (λ a b, a = true → b = true)
            (zip_with andb (Series_isin status status_filter)
                           ((λ x, F64.geb x t) <$> oees))
            (zip_with andb (Series_isin status status_filter')
                           ((λ x, F64.geb x t') <$> oees))) as Hmask.
  { unfold Series_isin. apply masks_pointwise.
    - intros x. by apply existsb_mono.
    - intros x Hx. unfold F64.geb in *. by eapply leb_trans. }
  split.
  - simpl. by apply filter_true_mono.
  - intros k c. simpl. rewrite !lookup_fmap.
    destruct (columns df !! k) as [s|]; simpl; [|done]. intros [= <-].
    eexists; split; [done|]. rewrite !Series_values_compress.
    by apply compress_mono.
Qed.

Lemma filter_is_monotone_witness :
  [Str "Running"] ⊆ [Str "Running"; Str "Stopped"] ∧
  PrimFloat.leb (oee_threshold 50) (oee_threshold 50) = true ∧
  index_len running_steps ≤ index_len steps_above_half.
Proof.
  assert ([Str "Running"] ⊆ [Str "Running"; Str "Stopped"]) as Hsub.
  { intros x Hx. apply list_elem_of_singleton in Hx as ->. left. }
  split; [exact Hsub|]. split; [reflexivity|].
  exact (proj1 (filter_is_monotone frame_three [Str "Running"]
                  [Str "Running"; Str "Stopped"] (oee_threshold 50)
                  (oee_threshold 50) running_steps steps_above_half
                  running_steps_selected steps_above_half_selected Hsub
                  eq_refl)).
Defined.

(** * The edges of the filter *)

Lemma Series_isin_nil s :
  Forall (λ b, b = false) (Series_isin s []).
Proof. unfold Series_isin. apply Forall_fmap, Forall_true. done. Qed.

Lemma zip_with_andb_none_l (m1 m2 : list bool) :
  Forall (λ b, b = false) m1 → Forall (λ b, b = false) (zip_with andb m1 m2).
Proof.
  intros H. revert m2. induction H as [|b m1 -> _ IH]; intros [|c m2]; simpl;
    constructor; auto.
Qed.

(** X6. With no status selected the filter keeps no row, whatever the
    threshold is, and both columns of the summary show their no-data text. *)
Theorem empty_status_filter_selects_nothing df t fdf :
  filtered_df df [] t = Ok fdf →
  index_len fdf = 0 ∧
  filtered_summary fdf = Ok NoStepsMatch ∧
  performance_ranges fdf = Ok NoDataMatches.
Proof.
  intros (status & oees & Hst & HO & ->)%filtered_df_inv.
  assert (index_len (boolean_index df
            (zip_with andb (Series_isin status [])
               ((λ x, F64.geb x t) <$> oees))) = 0) as H0.
  { simpl. apply filter_true_none, zip_with_andb_none_l, Series_isin_nil. }
  unfold filtered_summary, performance_ranges. rewrite H0.
  by rewrite !decide_False by lia.
Qed.

Lemma empty_status_filter_selects_nothing_witness :
  filtered_df frame_three [] (oee_threshold 0)
    = Ok (selection frame_three [] (oee_threshold 0)) ∧
  index_len (selection frame_three [] (oee_threshold 0)) = 0 ∧
  filtered_summary (selection frame_three [] (oee_threshold 0))
    = Ok NoStepsMatch ∧
  performance_ranges (selection frame_three [] (oee_threshold 0))
    = Ok NoDataMatches.
Proof.
  assert (filtered_df frame_three [] (oee_threshold 0)
          = Ok (selection frame_three [] (oee_threshold 0))) as H
    by (apply selects_selection; vm_compute; reflexivity).
  split; [exact H|].
  exact (empty_status_filter_selects_nothing frame_three (oee_threshold 0)
           _ H).
Defined.

Lemma oee_threshold_100 : oee_threshold 100 = 1%float.
Proof. reflexivity. Qed.

(** X7. With the slider at 100% the selection of a loaded frame holds only
    records whose OEE is exactly 1. *)
Theorem full_threshold_keeps_only_perfect_steps src df dd status_filter fdf :
  load_data src = Ok (df, dd) →
  filtered_df df status_filter (oee_threshold 100) = Ok fdf →
  ∀ i v, cell fdf "OEE" i = Some v → v = Num 1.
Proof.
  intros Hl Hf i v Hv.
  destruct (load_data_oee_column _ _ _ Hl) as (oees & HO & Hu).
  pose proof Hf as (status & oees' & Hst & HO' & ->)%filtered_df_inv.
  rewrite HO in HO'. injection HO' as <-.
  rewrite cell_boolean_index, HO in Hv. simpl in Hv.
  apply list_elem_of_lookup_2 in Hv.
  set (mask := zip_with andb _ _) in Hv.
  assert (v ∈ Num <$> oees) as Hin
    by (eapply elem_of_sublist; [exact Hv|apply compress_sublist]).
  apply list_elem_of_fmap in Hin as (x & -> & Hx).
  rewrite Forall_forall in Hu. specialize (Hu x Hx).
  pose proof (compress_andb_r
                (λ s, match s with Num x => F64.geb x 1 | Str _ => false end)
                (Series_isin status status_filter) (Num <$> oees)) as Hall.
  rewrite <- list_fmap_compose in Hall.
  rewrite Forall_forall in Hall. specialize (Hall _ Hv). simpl in Hall.
  f_equal. apply leb_antisym_one; [exact Hall|].
  unfold F64.in_unit in Hu. by apply andb_prop in Hu as [_ ?].
Qed.

Lemma full_threshold_keeps_only_perfect_steps_witness :
  load_data sheet_negative_down
    = Ok (script_df sheet_negative_down,
          script_data_dict sheet_negative_down) ∧
  filtered_df (script_df sheet_negative_down) [Str "Running"]
      (oee_threshold 100)
    = Ok (selection (script_df sheet_negative_down) [Str "Running"]
            (oee_threshold 100)) ∧
  index_len (selection (script_df sheet_negative_down) [Str "Running"]
               (oee_threshold 100)) = 1 ∧
  ∀ i v,
    cell (selection (script_df sheet_negative_down) [Str "Running"]
            (oee_threshold 100)) "OEE" i = Some v →
    v = Num 1%float.
Proof.
  assert (load_data sheet_negative_down
          = Ok (script_df sheet_negative_down,
                script_data_dict sheet_negative_down)) as Hl
    by (apply loads_script; vm_compute; reflexivity).
  assert (filtered_df (script_df sheet_negative_down) [Str "Running"]
            (oee_threshold 100)
          = Ok (selection (script_df sheet_negative_down) [Str "Running"]
                  (oee_threshold 100))) as Hf
    by (apply selects_selection; vm_compute; reflexivity).
  split; [exact Hl|]. split; [exact Hf|]. split; [vm_compute; reflexivity|].
  exact (full_threshold_keeps_only_perfect_steps sheet_negative_down _ _
           [Str "Running"] _ Hl Hf).
Defined.

(** X8. On a loaded frame the options of the step selector and of the status
    filter are computed without an exception, and the filter succeeds for
    every choice of statuses and every threshold. *)
Theorem selectors_of_a_loaded_frame_never_fail src df dd :
  load_data src = Ok (df, dd) →
  (∃ options, step_options df = Ok options) ∧
  (∃ statuses, status_options df = Ok statuses) ∧
  ∀ status_filter t, ∃ fdf, filtered_df df status_filter t = Ok fdf.
Proof.
  intros Hl. destruct (load_data_oee_column _ _ _ Hl) as (oees & HO & _).
  apply load_data_inv in Hl
    as (? & ? & ? & ? & _ & _ & _ & _ & Hreq & _ & _ & _ & _ & _ & Hsame).
  rewrite Forall_forall in Hreq.
  destruct (Hreq "Steps") as [steps Hsteps];
    [apply (bool_decide_unpack _); vm_compute; reflexivity|].
  destruct (Hreq "Running Status") as [status Hstatus];
    [apply (bool_decide_unpack _); vm_compute; reflexivity|].
  rewrite <- Hsame in Hsteps, Hstatus
    by (apply (bool_decide_unpack _); vm_compute; reflexivity).
  unfold step_options, status_options, filtered_df, getitem.
  split; [rewrite Hsteps; cbn; eauto|].
  split; [rewrite Hstatus; cbn; eauto|].
  intros status_filter t. rewrite Hstatus, HO. cbn. eauto.
Qed.

Lemma selectors_of_a_loaded_frame_never_fail_witness :
  load_data sheet_three = Ok (frame_three, script_data_dict sheet_three) ∧
  ∃ options, step_options frame_three = Ok options.
Proof.
  split; [exact load_data_frame_three|].
  exact (proj1 (selectors_of_a_loaded_frame_never_fail sheet_three frame_three
                  (script_data_dict sheet_three) load_data_frame_three)).
Defined.

(** * The best and the lowest entry of a column *)

Section argbest_facts.
Variables better le : float → float → bool.
Hypothesis better_le : ∀ x y, better x y = true → le y x = true.
Hypothesis keep_le : ∀ x y,
  F64.isna x = false → F64.isna y = false → better x y = false →
  le x y = true.
Hypothesis le_refl : ∀ x, F64.isna x = false → le x x = true.
Hypothesis le_trans : ∀ x y z, le x y = true → le y z = true → le x z = true.
Hypothesis better_trans : ∀ x v y,
  better x v = true → le y v = true → better x y = true.

Lemma best_of_kept pre x acc :
  best_of better le pre acc →
  match acc with
  | None => F64.isna x = true
  | Some (_, v) => F64.isna x = true ∨ le x v = true
  end →
  best_of better le (pre ++ [x]) acc.
Proof.
  destruct acc as [[j v]|]; simpl.
  - intros (Hj & Hv & Hall & Hbefore) Hx. split; [|split; [done|split]].
    + by apply lookup_app_l_Some.
    + apply Forall_app. split; [done|]. by constructor.
    + intros k y Hk Hy. apply (Hbefore k y Hk).
      rewrite lookup_app_l in Hy; [done|]. apply lookup_lt_Some in Hj. lia.
  - intros Hall Hx. apply Forall_app. split; [done|]. by constructor.
Qed.

Lemma best_of_step pre x acc :
  best_of better le pre acc →
  best_of better le (pre ++ [x])
    (if F64.isna x then acc
     else match acc with
          | None => Some (length pre, x)
          | Some (_, y) => if better x y then Some (length pre, x) else acc
          end).
Proof.
  intros Hacc. destruct (F64.isna x) eqn:Hx.
  { apply best_of_kept; [done|]. destruct acc as [[? ?]|]; auto. }
  destruct acc as [[j v]|].
  - destruct (better x v) eqn:Hb.
    + destruct Hacc as (Hj & Hv & Hall & Hbefore). simpl.
      split; [|split; [done|split]].
      * by rewrite lookup_app_r, Nat.sub_diag by lia.
      * apply Forall_app. split; [|constructor; [|done]; right; by apply le_refl].
        eapply Forall_impl; [exact Hall|]. intros y [?|Hy]; [by left|right].
        eapply le_trans; [exact Hy|]. by apply better_le.
      * intros k y Hk Hy. rewrite lookup_app_l in Hy by done.
        rewrite Forall_forall in Hall.
        destruct (Hall y) as [?|Hle]; [by eapply list_elem_of_lookup_2|by left|].
        right. by eapply better_trans.
    + apply best_of_kept; [done|]. right.
      destruct Hacc as (_ & Hv & _). by apply keep_le.
  - simpl in Hacc |- *. split; [|split; [done|split]].
    + by rewrite lookup_app_r, Nat.sub_diag by lia.
    + apply Forall_app. split; [|constructor; [|done]; right; by apply le_refl].
      eapply Forall_impl; [exact Hacc|]. auto.
    + intros k y Hk Hy. rewrite lookup_app_l in Hy by done. left.
      rewrite Forall_forall in Hacc. apply Hacc. by eapply list_elem_of_lookup_2.
Qed.

Lemma argbest_best_of xs : ∀ pre acc,
  best_of better le pre acc →
  best_of better le (pre ++ xs) (argbest better xs (length pre) acc).
Proof.
  induction xs as [|x xs IH]; intros pre acc Hacc.
  - by rewrite app_nil_r.
  - cbn [argbest]. rewrite (cons_middle x pre xs), app_assoc.
    replace (S (length pre)) with (length (pre ++ [x]))
      by (rewrite length_app; simpl; lia).
    apply IH. by apply best_of_step.
Qed.

Lemma argbest_spec xs :
  best_of better le xs (argbest better xs 0 None).
Proof. apply (argbest_best_of xs [] None). constructor. Qed.

End argbest_facts.

(** A column with an entry that is not NaN has a best entry. *)
Lemma argbest_is_Some better xs : ∀ i acc,
  is_Some acc ∨ (∃ x, x ∈ xs ∧ F64.isna x = false) →
  is_Some (argbest better xs i acc).
Proof.
  induction xs as [|x xs IH]; intros i acc H; cbn [argbest].
  - destruct H as [?|(x & Hx & _)]; [done|by apply elem_of_nil in Hx].
  - apply IH. destruct (F64.isna x) eqn:Hx.
    + destruct H as [?|(y & Hy & Hyn)]; [by left|].
      apply elem_of_cons in Hy as [->|Hy]; [congruence|right; eauto].
    + left. destruct acc as [[j v]|]; [|done]. by destruct (better x v).
Qed.

Lemma argmax_spec xs :
  best_of F64.gtb PrimFloat.leb xs (argbest F64.gtb xs 0 None).
Proof.
  apply argbest_spec; unfold F64.gtb.
  - intros x y. apply ltb_leb.
  - intros x y Hx Hy. by apply leb_total.
  - apply leb_refl.
  - apply leb_trans.
  - intros x v y Hxv Hyv. by eapply leb_ltb_trans.
Qed.

Lemma argmin_spec xs :
  best_of PrimFloat.ltb F64.geb xs (argbest PrimFloat.ltb xs 0 None).
Proof.
  apply argbest_spec; unfold F64.geb.
  - intros x y. apply ltb_leb.
  - intros x y Hx Hy. by apply leb_total.
  - apply leb_refl.
  - intros x y z H1 H2. by eapply leb_trans.
  - intros x v y Hxv Hyv. by eapply ltb_leb_trans.
Qed.

(** * The summary of the selection *)

Lemma loc_Ok df i k v : loc df i k = Ok v ↔ cell df k i = Some v.
Proof.
  unfold loc, cell, getitem. destruct (columns df !! k) as [s|]; simpl; [|done].
  destruct (Series_iloc s i); split; congruence.
Qed.

(** What the right column read when it shows figures. *)
Lemma performance_ranges_inv fdf lo hi best lowest rate :
  performance_ranges fdf = Ok (PerformanceRanges lo hi best lowest rate) →
  ∃ oees imax imin,
    0 < index_len fdf ∧
    columns fdf !! "OEE" = Some (Float64 oees) ∧
    argbest F64.gtb oees 0 None = Some (imax, hi) ∧
    argbest PrimFloat.ltb oees 0 None = Some (imin, lo) ∧
    cell fdf "Steps" imax = Some best ∧
    cell fdf "Steps" imin = Some lowest.
Proof.
  unfold performance_ranges. destruct (decide _) as [Hpos|]; [|done].
  destruct (getitem fdf "OEE") as [[oees|?]|] eqn:HO; try done.
  cbn [mbind result_bind Series_extreme Series_idx].
  destruct (argbest F64.gtb oees 0 None) as [[imax vmax]|] eqn:Hmax;
    cbn [mbind result_bind]; [|done].
  destruct (loc fdf imax "Steps") as [b|] eqn:Hb; cbn [mbind result_bind];
    [|done].
  destruct (argbest PrimFloat.ltb oees 0 None) as [[imin vmin]|] eqn:Hmin;
    cbn [mbind result_bind]; [|done].
  destruct (loc fdf imin "Steps") as [l|] eqn:Hl; cbn [mbind result_bind];
    [|done].
  destruct (getitem fdf "Waste Materials (KG)") as [w|];
    cbn [mbind result_bind]; [|done].
  destruct (Series_sum w); cbn [mbind result_bind]; [|done].
  destruct (getitem fdf "Material Used (KG)") as [m|];
    cbn [mbind result_bind]; [|done].
  destruct (Series_sum m); cbn [mbind result_bind mret result_ret]; [|done].
  intros [= <- <- <- <- _].
  apply getitem_Ok in HO. apply loc_Ok in Hb, Hl.
  eexists _, _, _. repeat split; eauto.
Qed.

Lemma cell_Float64 df k xs i :
  columns df !! k = Some (Float64 xs) → cell df k i = Num <$> xs !! i.
Proof. unfold cell. by intros ->. Qed.

(** X9. When the right column shows figures, the best performing step is the
    step of the first record of the selection that attains the maximum OEE
    shown, and the lowest performing step that of the first record that
    attains the minimum: every earlier record with a defined OEE is strictly
    below the maximum, respectively strictly above the minimum. *)
Theorem best_and_lowest_steps_are_first_extremes fdf lo hi best lowest rate :
  performance_ranges fdf = Ok (PerformanceRanges lo hi best lowest rate) →
  ∃ imax imin,
    cell fdf "OEE" imax = Some (Num hi) ∧ cell fdf "Steps" imax = Some best ∧
    cell fdf "OEE" imin = Some (Num lo) ∧ cell fdf "Steps" imin = Some lowest ∧
    ∀ j x, cell fdf "OEE" j = Some (Num x) → F64.isna x = false →
      (j < imax → PrimFloat.ltb x hi = true) ∧
      (j < imin → PrimFloat.ltb lo x = true).
Proof.
  intros (oees & imax & imin & _ & HO & Hmax & Hmin & Hb & Hl)
    %performance_ranges_inv.
  pose proof (argmax_spec oees) as Smax. rewrite Hmax in Smax.
  pose proof (argmin_spec oees) as Smin. rewrite Hmin in Smin.
  destruct Smax as (Hmaxv & _ & _ & Hmaxb), Smin as (Hminv & _ & _ & Hminb).
  exists imax, imin. rewrite !(cell_Float64 _ _ _ _ HO), Hmaxv, Hminv.
  do 4 (split; [done|]). intros j x Hx Hna.
  rewrite (cell_Float64 _ _ _ _ HO) in Hx.
  destruct (oees !! j) as [y|] eqn:Hy; [|done]. injection Hx as ->.
  split; intros Hj.
  - destruct (Hmaxb j x Hj Hy) as [?|?]; [congruence|done].
  - destruct (Hminb j x Hj Hy) as [?|?]; [congruence|done].
Qed.

Lemma best_and_lowest_steps_are_first_extremes_witness :
  performance_ranges steps_above_half
    = Ok (PerformanceRanges 0.5%float 0.7056000000000001%float (Str "Cutting")
            (Str "Stitching") (13 / 180 * 100)%float) ∧
  ∃ imax imin,
    cell steps_above_half "OEE" imax = Some (Num 0.7056000000000001%float) ∧
    cell steps_above_half "Steps" imax = Some (Str "Cutting") ∧
    cell steps_above_half "OEE" imin = Some (Num 0.5%float) ∧
    cell steps_above_half "Steps" imin = Some (Str "Stitching").
Proof.
  split; [exact performance_ranges_steps_above_half|].
  destruct (best_and_lowest_steps_are_first_extremes steps_above_half 0.5%float
              0.7056000000000001%float (Str "Cutting") (Str "Stitching")
              (13 / 180 * 100)%float performance_ranges_steps_above_half)
    as (imax & imin & H1 & H2 & H3 & H4 & _).
  exact (ex_intro _ imax (ex_intro _ imin (conj H1 (conj H2 (conj H3 H4))))).
Defined.

Lemma Forall_sublist {A} (P : A → Prop) (l1 l2 : list A) :
  l1 `sublist_of` l2 → Forall P l2 → Forall P l1.
Proof.
  rewrite !Forall_forall. intros Hsub H x Hx. apply H.
  by eapply elem_of_sublist.
Qed.

(** The OEE column of a selection of the loaded frame. *)
Lemma filtered_oee_column src df dd status_filter t fdf :
  load_data src = Ok (df, dd) →
  filtered_df df status_filter t = Ok fdf →
  ∃ oees, columns fdf !! "OEE" = Some (Float64 oees) ∧
          Forall (λ x, F64.in_unit x = true ∧ F64.geb x t = true) oees.
Proof.
  intros Hl Hf. destruct (load_data_oee_column _ _ _ Hl) as (oees & HO & Hu).
  pose proof Hf as (status & oees' & Hst & HO' & ->)%filtered_df_inv.
  rewrite HO in HO'. injection HO' as <-.
  eexists. split; [simpl; by rewrite lookup_fmap, HO|].
  apply Forall_and. split.
  - eapply Forall_sublist; [apply compress_sublist|done].
  - apply (compress_andb_r (λ x, F64.geb x t)).
Qed.

(** X10. For a selection of the loaded frame, the OEE range shown bounds every
    OEE of the selection; both ends are attained, both lie in [[0,1]], and
    the lower end is at least the threshold. *)
Theorem reported_range_bounds_the_selection src df dd status_filter t fdf
    lo hi best lowest rate :
  load_data src = Ok (df, dd) →
  filtered_df df status_filter t = Ok fdf →
  performance_ranges fdf = Ok (PerformanceRanges lo hi best lowest rate) →
  F64.in_unit lo = true ∧ F64.in_unit hi = true ∧
  F64.geb lo t = true ∧ PrimFloat.leb lo hi = true ∧
  (∃ i, cell fdf "OEE" i = Some (Num lo)) ∧
  (∃ i, cell fdf "OEE" i = Some (Num hi)) ∧
  ∀ i v, cell fdf "OEE" i = Some v →
    ∃ x, v = Num x ∧ PrimFloat.leb lo x = true ∧ PrimFloat.leb x hi = true.
Proof.
  intros Hl Hf (oees & imax & imin & _ & HO & Hmax & Hmin & _ & _)
    %performance_ranges_inv.
  destruct (filtered_oee_column _ _ _ _ _ _ Hl Hf) as (oees' & HO' & Hall).
  rewrite HO in HO'. injection HO' as <-. rewrite Forall_forall in Hall.
  pose proof (argmax_spec oees) as Smax. rewrite Hmax in Smax.
  pose proof (argmin_spec oees) as Smin. rewrite Hmin in Smin.
  destruct Smax as (Hmaxv & _ & Hmaxall & _), Smin as (Hminv & _ & Hminall & _).
  rewrite Forall_forall in Hmaxall, Hminall.
  pose proof (list_elem_of_lookup_2 _ _ _ Hmaxv) as Hhi.
  pose proof (list_elem_of_lookup_2 _ _ _ Hminv) as Hlo.
  assert (∀ x, x ∈ oees →
            PrimFloat.leb lo x = true ∧ PrimFloat.leb x hi = true) as Hb.
  { intros x Hx. destruct (Hall x Hx) as [Hu%in_unit_notna _].
    destruct (Hmaxall x Hx) as [?|?]; [congruence|].
    destruct (Hminall x Hx) as [?|?]; [congruence|done]. }
  split; [by apply Hall|]. split; [by apply Hall|]. split; [by apply Hall|].
  split; [by apply Hb|].
  split; [exists imin; by rewrite (cell_Float64 _ _ _ _ HO), Hminv|].
  split; [exists imax; by rewrite (cell_Float64 _ _ _ _ HO), Hmaxv|].
  intros i v. rewrite (cell_Float64 _ _ _ _ HO).
  destruct (oees !! i) as [x|] eqn:Hx; [|done]. intros [= <-].
  exists x. split; [done|]. apply Hb. by eapply list_elem_of_lookup_2.
Qed.

Lemma reported_range_bounds_the_selection_witness :
  performance_ranges steps_above_half
    = Ok (PerformanceRanges 0.5%float 0.7056000000000001%float (Str "Cutting")
            (Str "Stitching") (13 / 180 * 100)%float) ∧
  F64.in_unit 0.5%float = true ∧ F64.in_unit 0.7056000000000001%float = true ∧
  F64.geb 0.5%float (oee_threshold 50) = true ∧
  PrimFloat.leb 0.5%float 0.7056000000000001%float = true.
Proof.
  split; [exact performance_ranges_steps_above_half|].
  destruct (reported_range_bounds_the_selection sheet_three frame_three
              (script_data_dict sheet_three) [Str "Running"; Str "Stopped"]
              (oee_threshold 50) steps_above_half 0.5%float 0.7056000000000001%float
              (Str "Cutting") (Str "Stitching") (13 / 180 * 100)%float
              load_data_frame_three steps_above_half_selected
              performance_ranges_steps_above_half)
    as (H1 & H2 & H3 & H4 & _).
  exact (conj H1 (conj H2 (conj H3 H4))).
Defined.

(** A column of the sheet that is not a derived one, in a selection of the
    loaded frame. *)
Lemma filtered_source_column src df dd status_filter t fdf k s :
  load_data src = Ok (df, dd) →
  filtered_df df status_filter t = Ok fdf →
  k ∉ derived_columns →
  columns src !! k = Some s →
  ∃ mask, columns fdf !! k = Some (Series_compress mask s).
Proof.
  intros Hl (status & oees & _ & _ & ->)%filtered_df_inv Hk Hs.
  apply load_data_inv in Hl
    as (? & ? & ? & ? & _ & _ & _ & _ & _ & _ & _ & _ & _ & _ & Hsame).
  eexists. simpl. by rewrite lookup_fmap, (Hsame k Hk), Hs.
Qed.

Lemma totalled_not_derived k : k ∈ totalled_columns → k ∉ derived_columns.
Proof.
  unfold totalled_columns, derived_columns. intros Hk.
  repeat (apply elem_of_cons in Hk as [->|Hk]);
    [| | |by apply elem_of_nil in Hk];
    apply (bool_decide_unpack _); vm_compute; reflexivity.
Qed.

(** X11. On a non-empty selection of a loaded sheet whose units, material and
    waste columns are numeric, neither column of the summary raises: the
    left one shows the number of selected rows with its three figures, the
    right one the ranges. *)
Theorem summary_of_a_selection_never_fails src df dd status_filter t fdf :
  rectangular src →
  Forall (λ k, ∃ xs, columns src !! k = Some (Float64 xs)) totalled_columns →
  load_data src = Ok (df, dd) →
  filtered_df df status_filter t = Ok fdf →
  0 < index_len fdf →
  ∃ avg units material lo hi best lowest rate,
    filtered_summary fdf
      = Ok (FilteredSummary (index_len fdf) avg units material) ∧
    performance_ranges fdf = Ok (PerformanceRanges lo hi best lowest rate).
Proof.
  intros Hrect Hnum Hl Hf Hpos.
  pose proof (load_data_rectangular _ _ _ Hrect Hl) as Hdf.
  pose proof (filtered_df_rectangular _ _ _ _ Hdf Hf) as Hfdf.
  destruct (filtered_oee_column _ _ _ _ _ _ Hl Hf) as (oees & HO & Hall).
  assert (∀ k, k ∈ totalled_columns →
               ∃ xs, columns fdf !! k = Some (Float64 xs)) as Htot.
  { intros k Hk. rewrite Forall_forall in Hnum. destruct (Hnum k Hk) as [xs Hxs].
    destruct (filtered_source_column _ _ _ _ _ _ k _ Hl Hf
                (totalled_not_derived k Hk) Hxs) as [mask Hm].
    rewrite Hm. simpl. eauto. }
  destruct (Htot "Units produced") as [us Hus];
    [apply (bool_decide_unpack _); vm_compute; reflexivity|].
  destruct (Htot "Material Used (KG)") as [ms Hms];
    [apply (bool_decide_unpack _); vm_compute; reflexivity|].
  destruct (Htot "Waste Materials (KG)") as [ws Hws];
    [apply (bool_decide_unpack _); vm_compute; reflexivity|].
  assert (∃ steps, columns fdf !! "Steps" = Some steps) as [steps Hsteps].
  { pose proof Hl as (? & ? & ? & ? & _ & _ & _ & _ & Hreq & _)%load_data_inv.
    rewrite Forall_forall in Hreq. destruct (Hreq "Steps") as [s Hs].
    { apply (bool_decide_unpack _); vm_compute; reflexivity. }
    destruct (filtered_source_column _ _ _ _ _ _ "Steps" s Hl Hf) as [mask Hm];
      [apply (bool_decide_unpack _); vm_compute; reflexivity|done|eauto]. }
  pose proof (Hfdf _ _ HO) as LO. pose proof (Hfdf _ _ Hsteps) as LS.
  simpl in LO, LS.
  assert (∃ x, x ∈ oees ∧ F64.isna x = false) as (x0 & Hx0 & Hx0n).
  { destruct oees as [|x0 oees']; [simpl in LO; lia|]. exists x0.
    split; [left|]. apply Forall_cons in Hall as [[Hu _] _].
    by apply in_unit_notna. }
  destruct (argbest_is_Some F64.gtb oees 0 None) as [[imax hi] Hmax];
    [right; eauto|].
  destruct (argbest_is_Some PrimFloat.ltb oees 0 None) as [[imin lo] Hmin];
    [right; eauto|].
  pose proof (argmax_spec oees) as Smax. rewrite Hmax in Smax.
  pose proof (argmin_spec oees) as Smin. rewrite Hmin in Smin.
  destruct Smax as (Hmaxv%lookup_lt_Some & _), Smin as (Hminv%lookup_lt_Some & _).
  destruct (Series_values steps !! imax) as [best|] eqn:Hbest;
    [|apply lookup_ge_None in Hbest; rewrite Series_values_length in Hbest; lia].
  destruct (Series_values steps !! imin) as [lowest|] eqn:Hlowest;
    [|apply lookup_ge_None in Hlowest; rewrite Series_values_length in Hlowest;
      lia].
  rewrite <- Series_iloc_values in Hbest, Hlowest.
  eexists _, _, _, lo, hi, best, lowest, _.
  unfold filtered_summary, performance_ranges, loc, getitem.
  rewrite !decide_True by done. rewrite HO, Hus, Hms, Hws, Hsteps.
  cbn [mbind result_bind mret result_ret Series_mean Series_sum Series_extreme
       Series_idx]. rewrite Hmax, Hmin.
  cbn [mbind result_bind mret result_ret]. rewrite Hbest, Hlowest.
  by cbn [mbind result_bind mret result_ret].
Qed.

Lemma summary_of_a_selection_never_fails_witness :
  rectangular sheet_three ∧
  load_data sheet_three = Ok (frame_three, script_data_dict sheet_three) ∧
  filtered_df frame_three [Str "Running"; Str "Stopped"] (oee_threshold 50)
    = Ok steps_above_half ∧
  0 < index_len steps_above_half ∧
  ∃ avg units material lo hi best lowest rate,
    filtered_summary steps_above_half
      = Ok (FilteredSummary (index_len steps_above_half) avg units material) ∧
    performance_ranges steps_above_half
      = Ok (PerformanceRanges lo hi best lowest rate).
Proof.
  assert (0 < index_len steps_above_half) as Hpos
    by (apply (bool_decide_unpack _); vm_compute; reflexivity).
  split; [exact rectangular_sheet_three|].
  split; [exact load_data_frame_three|].
  split; [exact steps_above_half_selected|]. split; [exact Hpos|].
  exact (summary_of_a_selection_never_fails sheet_three frame_three
           (script_data_dict sheet_three) [Str "Running"; Str "Stopped"]
           (oee_threshold 50) steps_above_half rectangular_sheet_three
           totalled_columns_sheet_three load_data_frame_three
           steps_above_half_selected Hpos).
Defined.

(** * More on the load *)

(** The dictionary returned beside the frame. *)
Lemma load_data_dict src df dd :
  load_data src = Ok (df, dd) →
  (∀ key col, (key, col) ∈ data_dict_keys → dd !! key = columns df !! col) ∧
  (∀ key, key ∉ data_dict_keys.*1 → dd !! key = None).
Proof.
  intros H. unfold load_data in H.
  unfold Series_truediv, Series_sub, Series_mul, Series_rsub, Series_clip,
    Series_fillna in H.
  repeat load_step H.
  injection H as <- <-.
  repeat match goal with
         | Hk : getitem _ _ = Ok _ |- _ => apply getitem_Ok in Hk
         end.
  split.
  - intros key col Hin. unfold data_dict_keys in Hin.
    repeat (apply elem_of_cons in Hin as [[= -> ->]|Hin]);
      [..|by apply elem_of_nil in Hin];
      unfold setitem; cbn [columns];
      repeat first [rewrite lookup_insert_eq|rewrite lookup_insert_ne by done];
      congruence.
  - intros key Hne. unfold data_dict_keys in Hne. cbn [fmap list_fmap fst] in Hne.
    rewrite !not_elem_of_cons in Hne.
    destruct Hne as (?&?&?&?&?&?&?&?&?&?&?&?&?&?&_).
    by rewrite !lookup_insert_ne by done.
Qed.

Lemma derived_in_frame src df dd k :
  load_data src = Ok (df, dd) → k ∈ derived_columns →
  ∃ xs, columns df !! k = Some (Float64 xs).
Proof.
  intros (? & ? & ? & ? & _ & _ & _ & _ & _ & _ & HA & HP & HQ & HO & _)
    %load_data_inv Hk. cbn zeta in *. unfold derived_columns in Hk.
  repeat (apply elem_of_cons in Hk as [->|Hk]); [eauto..|].
  by apply elem_of_nil in Hk.
Qed.

(** X12. Loading keeps the number of rows and every column of the sheet as it
    is, and adds exactly the four columns Availability, Performance, Quality
    and OEE. *)
Theorem load_adds_four_columns src df dd :
  load_data src = Ok (df, dd) →
  index_len df = index_len src ∧
  dom (columns df) = dom (columns src) ∪ list_to_set derived_columns ∧
  ∀ k, k ∉ derived_columns → columns df !! k = columns src !! k.
Proof.
  intros Hl.
  pose proof Hl as (? & ? & ? & ? & _ & _ & _ & _ & _ & Hn & _ & _ & _ & _ & Hsame)
    %load_data_inv.
  split; [done|]. split; [|done]. apply set_eq. intros k.
  rewrite elem_of_union, elem_of_list_to_set, !elem_of_dom.
  destruct (decide (k ∈ derived_columns)) as [Hk|Hk].
  - destruct (derived_in_frame _ _ _ k Hl Hk) as [xs ->]. split; eauto.
  - rewrite (Hsame k Hk). tauto.
Qed.

Lemma load_adds_four_columns_witness :
  load_data sheet_three = Ok (frame_three, script_data_dict sheet_three) ∧
  index_len frame_three = index_len sheet_three ∧
  dom (columns frame_three)
    = dom (columns sheet_three) ∪ list_to_set derived_columns.
Proof.
  split; [exact load_data_frame_three|].
  destruct (load_adds_four_columns sheet_three frame_three
              (script_data_dict sheet_three) load_data_frame_three)
    as (H1 & H2 & _).
  exact (conj H1 H2).
Defined.

Lemma load_data_numeric_inputs src df dd :
  load_data src = Ok (df, dd) →
  Forall (λ k, ∃ xs, columns src !! k = Some (Float64 xs)) numeric_inputs.
Proof.
  intros (cur & exp & down & fr & Hc & He & Hd & Hf & _)%load_data_inv.
  unfold numeric_inputs.
  repeat (apply List.Forall_cons; [by eexists|]). apply List.Forall_nil.
Qed.

(** X13. [load_data] succeeds exactly when the sheet has the ten required
    columns and its four time and rate columns are numeric. *)
Theorem load_succeeds_iff_schema src :
  (∃ df dd, load_data src = Ok (df, dd)) ↔
  Forall (λ k, is_Some (columns src !! k)) required_columns ∧
  Forall (λ k, ∃ xs, columns src !! k = Some (Float64 xs)) numeric_inputs.
Proof.
  split.
  - intros (df & dd & Hl). split; [|by eapply load_data_numeric_inputs].
    by apply load_data_inv in Hl as (? & ? & ? & ? & _ & _ & _ & _ & Hreq & _).
  - intros [Hreq Hnum]. by apply load_data_total.
Qed.

Lemma inputs_at_Some src i :
  rectangular src →
  Forall (λ k, ∃ xs, columns src !! k = Some (Float64 xs)) numeric_inputs →
  i < index_len src → is_Some (inputs_at src i).
Proof.
  intros Hrect Hnum Hi. unfold numeric_inputs in Hnum.
  repeat match goal with
         | H : Forall _ (_ :: _) |- _ => apply Forall_cons in H as [[? ?] H]
         end.
  unfold inputs_at.
  repeat match goal with
         | H : columns src !! ?k = Some (Float64 ?xs) |- _ =>
             rewrite (num_cell_Float64 _ _ _ i H);
             let L := fresh "L" in
             pose proof (Hrect _ _ H) as L; simpl in L;
             destruct (lookup_lt_is_Some_2 xs i) as [? ->]; [lia|];
             clear H
         end.
  by eexists.
Qed.

(** X14. Every record of a rectangular sheet that loads gets its four metrics,
    computed from its own raw figures, and there are no metrics beyond the
    last record. *)
Theorem every_record_gets_its_metrics src df dd i :
  rectangular src →
  load_data src = Ok (df, dd) →
  (i < index_len src →
   ∃ r, inputs_at src i = Some r ∧ metrics_at df i = Some (compute_row r)) ∧
  (index_len src ≤ i → metrics_at df i = None).
Proof.
  intros Hrect Hl. rewrite (load_data_metrics_at _ _ _ i Hl). split.
  - intros Hi. destruct (inputs_at_Some src i) as [r Hr]; [done| |done|].
    + by eapply load_data_numeric_inputs.
    + exists r. by rewrite Hr.
  - intros Hi. unfold inputs_at.
    pose proof Hl as (cur & ? & ? & ? & Hc & _)%load_data_inv.
    rewrite (num_cell_Float64 _ _ _ i Hc).
    pose proof (Hrect _ _ Hc) as L. simpl in L.
    by rewrite (lookup_ge_None_2 cur i) by lia.
Qed.

Lemma every_record_gets_its_metrics_witness :
  rectangular sheet_three ∧
  load_data sheet_three = Ok (frame_three, script_data_dict sheet_three) ∧
  ∃ r, inputs_at sheet_three 1 = Some r ∧
       metrics_at frame_three 1 = Some (compute_row r).
Proof.
  split; [exact rectangular_sheet_three|].
  split; [exact load_data_frame_three|].
  apply (every_record_gets_its_metrics sheet_three frame_three
           (script_data_dict sheet_three) 1 rectangular_sheet_three
           load_data_frame_three).
  apply (bool_decide_unpack _). vm_compute. reflexivity.
Defined.

(** X15. The dictionary returned beside the frame has exactly the fourteen keys
    of the script, and under each key the column of the final frame that the
    key names (so the OEE it holds has its NaN replaced). *)
Theorem data_dict_mirrors_the_frame src df dd :
  load_data src = Ok (df, dd) →
  dom dd = list_to_set data_dict_keys.*1 ∧
  ∀ key col, (key, col) ∈ data_dict_keys →
    ∃ s, dd !! key = Some s ∧ columns df !! col = Some s.
Proof.
  intros Hl. destruct (load_data_dict _ _ _ Hl) as [Hin Hout].
  assert (∀ key col, (key, col) ∈ data_dict_keys →
            ∃ s, dd !! key = Some s ∧ columns df !! col = Some s) as Hmirror.
  { intros key col Hk. rewrite (Hin key col Hk).
    assert (is_Some (columns df !! col)) as [s Hs]; [|eauto].
    destruct (decide (col ∈ derived_columns)) as [Hd|Hd].
    - destruct (derived_in_frame _ _ _ col Hl Hd) as [xs ->]. eauto.
    - pose proof Hl as (? & ? & ? & ? & _ & _ & _ & _ & Hreq & _ & _ & _ & _ & _ & Hsame)
        %load_data_inv.
      rewrite (Hsame col Hd). rewrite Forall_forall in Hreq. apply Hreq.
      unfold data_dict_keys in Hk.
      repeat (apply elem_of_cons in Hk as [[= -> ->]|Hk]);
        [..|by apply elem_of_nil in Hk];
        first [ apply (bool_decide_unpack _); vm_compute; reflexivity
              | exfalso; apply Hd; apply (bool_decide_unpack _); vm_compute;
                reflexivity ]. }
  split; [|done]. apply set_eq. intros key.
  rewrite elem_of_list_to_set, elem_of_dom. split.
  - intros Hsome. destruct (decide (key ∈ data_dict_keys.*1)) as [|Hn]; [done|].
    rewrite (Hout key Hn) in Hsome. by destruct Hsome.
  - intros ([key' col] & -> & Hk)%list_elem_of_fmap. simpl.
    destruct (Hmirror _ _ Hk) as (s & -> & _). eauto.
Qed.

Lemma data_dict_mirrors_the_frame_witness :
  load_data sheet_three = Ok (frame_three, script_data_dict sheet_three) ∧
  dom (script_data_dict sheet_three) = list_to_set data_dict_keys.*1.
Proof.
  split; [exact load_data_frame_three|].
  exact (proj1 (data_dict_mirrors_the_frame sheet_three frame_three
                  (script_data_dict sheet_three) load_data_frame_three)).
Defined.

Lemma getitem_Raise df k e :
  getitem df k = Raise e → e = KeyError k ∧ columns df !! k = None.
Proof. unfold getitem. destruct (columns df !! k); [done|]. by intros [= <-]. Qed.

(** One step of the execution of a load that fails: a column access is
    resolved, or split into its outcomes, the failing ones being settled at
    once. *)
Ltac load_fail_step H :=
  first
  [ rewrite getitem_setitem_eq in H
  | rewrite getitem_setitem_ne in H by done
  | progress cbn [mbind result_bind mret result_ret Series_truediv Series_sub
                  Series_mul Series_binop Series_rsub Series_clip
                  Series_fillna Series_map] in H
  | match type of H with
    | context [getitem ?d ?k] =>
        match goal with
        | Hk : getitem d k = _ |- _ => rewrite Hk in H
        | _ => let s := fresh "s" in
               let Hk := fresh "Hk" in
               destruct (getitem d k) as [s|?] eqn:Hk;
               [|apply getitem_Raise in Hk as [-> Hk];
                 cbn [mbind result_bind] in H; injection H as <-;
                 left; exists k; split; [done|]; split; [|done];
                 apply (bool_decide_unpack _); vm_compute; reflexivity]
        end
    | context [Series_binop _ ?a _] =>
        is_var a; destruct a as [?|?]
    | context [Series_binop _ _ ?b] =>
        is_var b; destruct b as [?|?]
    | context [Series_map _ ?a] =>
        is_var a; destruct a as [?|?]
    | context [match ?s with Float64 _ => _ | Object _ => _ end] =>
        is_var s; destruct s as [?|?]
    end ].

(** X16. A load that fails, fails in one of two ways: with the [KeyError] of a
    required column that the sheet lacks, or with a [TypeError] when one of
    the four time and rate columns is textual. *)
Theorem load_fails_with_KeyError_or_TypeError src e :
  load_data src = Raise e →
  (∃ k, e = KeyError k ∧ k ∈ required_columns ∧ columns src !! k = None) ∨
  (e = TypeError ∧
   ∃ k s, k ∈ numeric_inputs ∧ columns src !! k = Some (Object s)).
Proof.
  intros H. unfold load_data in H.
  unfold Series_truediv, Series_sub, Series_mul, Series_rsub, Series_clip,
    Series_fillna in H.
  repeat load_fail_step H; try discriminate H.
  all: injection H as <-; right; split; [done|].
  all: match goal with
       | Hk : getitem _ ?k = Ok (Object ?l) |- _ =>
           exists k, l; split; [|by apply getitem_Ok];
           apply (bool_decide_unpack _); vm_compute; reflexivity
       end.
Qed.

Lemma load_fails_with_KeyError_or_TypeError_witness :
  load_data sheet_no_failure_rate = Raise (KeyError "Failure Rate") ∧
  ((∃ k, KeyError "Failure Rate" = KeyError k ∧ k ∈ required_columns ∧
         columns sheet_no_failure_rate !! k = None) ∨
   (KeyError "Failure Rate" = TypeError ∧
    ∃ k s, k ∈ numeric_inputs ∧
           columns sheet_no_failure_rate !! k = Some (Object s))).
Proof.
  assert (load_data sheet_no_failure_rate = Raise (KeyError "Failure Rate"))
    as H by (vm_compute; reflexivity).
  split; [exact H|].
  exact (load_fails_with_KeyError_or_TypeError sheet_no_failure_rate
           (KeyError "Failure Rate") H).
Defined.

Lemma required_not_derived k : k ∈ required_columns → k ∉ derived_columns.
Proof.
  unfold required_columns. intros Hk.
  repeat (apply elem_of_cons in Hk as [->|Hk]);
    [..|by apply elem_of_nil in Hk];
    apply (bool_decide_unpack _); vm_compute; reflexivity.
Qed.

Lemma numeric_inputs_required k : k ∈ numeric_inputs → k ∈ required_columns.
Proof.
  unfold numeric_inputs. intros Hk.
  repeat (apply elem_of_cons in Hk as [->|Hk]);
    [..|by apply elem_of_nil in Hk];
    apply (bool_decide_unpack _); vm_compute; reflexivity.
Qed.

(** X17. The metrics are computed from the raw columns only: a sheet with the
    same number of rows that differs only in columns named Availability,
    Performance, Quality or OEE loads to the same frame and dictionary. In
    particular loading an already loaded frame changes nothing. *)
Theorem load_ignores_stale_metrics src src' df dd :
  load_data src = Ok (df, dd) →
  index_len src' = index_len src →
  (∀ k, k ∉ derived_columns → columns src' !! k = columns src !! k) →
  load_data src' = Ok (df, dd).
Proof.
  intros Hl Hn Hagree.
  destruct (load_data_total src') as (df' & dd' & Hl').
  { pose proof Hl as (? & ? & ? & ? & _ & _ & _ & _ & Hreq & _)%load_data_inv.
    rewrite Forall_forall in Hreq |- *. intros k Hk.
    rewrite Hagree by (by apply required_not_derived). by apply Hreq. }
  { pose proof (load_data_numeric_inputs _ _ _ Hl) as Hnum.
    rewrite Forall_forall in Hnum |- *. intros k Hk.
    rewrite Hagree by (by apply required_not_derived, numeric_inputs_required).
    by apply Hnum. }
  rewrite Hl'. 
  assert (df' = df) as ->.
  { pose proof Hl as (cur & exp & down & fr & Hc & He & Hd & Hf & _ & Hlen
        & HA & HP & HQ & HO & Hsame)%load_data_inv.
    pose proof Hl' as (cur' & exp' & down' & fr' & Hc' & He' & Hd' & Hf' & _
        & Hlen' & HA' & HP' & HQ' & HO' & Hsame')%load_data_inv.
    cbn zeta in *.
    rewrite Hagree, Hc in Hc'
      by (apply (bool_decide_unpack _); vm_compute; reflexivity).
    rewrite Hagree, He in He'
      by (apply (bool_decide_unpack _); vm_compute; reflexivity).
    rewrite Hagree, Hd in Hd'
      by (apply (bool_decide_unpack _); vm_compute; reflexivity).
    rewrite Hagree, Hf in Hf'
      by (apply (bool_decide_unpack _); vm_compute; reflexivity).
    injection Hc' as <-. injection He' as <-. injection Hd' as <-.
    injection Hf' as <-.
    destruct df as [n cols], df' as [n' cols']. simpl in *. f_equal; [lia|].
    apply map_eq. intros k.
    destruct (decide (k ∈ derived_columns)) as [Hk|Hk].
    - unfold derived_columns in Hk.
      repeat (apply elem_of_cons in Hk as [->|Hk]);
        [congruence..|by apply elem_of_nil in Hk].
    - by rewrite Hsame, Hsame', Hagree. }
  f_equal. f_equal.
  destruct (load_data_dict _ _ _ Hl) as [Hin Hout].
  destruct (load_data_dict _ _ _ Hl') as [Hin' Hout'].
  apply map_eq. intros key.
  destruct (decide (key ∈ data_dict_keys.*1)) as [Hk|Hk].
  - apply list_elem_of_fmap in Hk as ([key' col] & -> & Hk). simpl.
    by rewrite (Hin _ _ Hk), (Hin' _ _ Hk).
  - by rewrite Hout, Hout'.
Qed.

Lemma load_ignores_stale_metrics_witness :
  load_data sheet_three = Ok (frame_three, script_data_dict sheet_three) ∧
  index_len frame_three = index_len sheet_three ∧
  load_data frame_three = Ok (frame_three, script_data_dict sheet_three).
Proof.
  assert (index_len frame_three = index_len sheet_three) as Hn
    by (vm_compute; reflexivity).
  split; [exact load_data_frame_three|]. split; [exact Hn|].
  apply (load_ignores_stale_metrics sheet_three frame_three frame_three
           (script_data_dict sheet_three) load_data_frame_three Hn).
  pose proof (load_data_inv _ _ _ load_data_frame_three)
    as (? & ? & ? & ? & _ & _ & _ & _ & _ & _ & _ & _ & _ & _ & Hsame).
  exact Hsame.
Defined.

(** * The distinct values of a column *)

Lemma unique_from_elem_of seen xs x :
  x ∈ unique_from seen xs → x ∈ xs.
Proof.
  revert seen. induction xs as [|y ys IH]; intros seen; simpl; [done|].
  destruct (existsb (scalar_same y) seen).
  - intros H%IH. by right.
  - intros [->|H%IH]%elem_of_cons; [left|by right].
Qed.

Lemma unique_from_fresh seen xs x :
  x ∈ unique_from seen xs → existsb (scalar_same x) seen = false.
Proof.
  revert seen. induction xs as [|y ys IH]; intros seen; simpl.
  { by intros ?%elem_of_nil. }
  destruct (existsb (scalar_same y) seen) eqn:Hy; [apply IH|].
  intros [->|H%IH]%elem_of_cons; [done|].
  simpl in H. by apply orb_false_elim in H as [_ ?].
Qed.

Lemma unique_from_NoDup seen xs : NoDup (unique_from seen xs).
Proof.
  revert seen. induction xs as [|y ys IH]; intros seen; simpl; [constructor|].
  destruct (existsb (scalar_same y) seen); [apply IH|].
  constructor; [|apply IH]. intros H%unique_from_fresh. simpl in H.
  by rewrite scalar_same_refl in H.
Qed.

(** X18. The distinct values of a column, which the step selector and the
    status filter offer: no value is listed twice, every listed value occurs
    in the column, every value of the column is the same as a listed one,
    and the list is no longer than the column. *)
Theorem unique_values_are_distinct_and_complete s :
  NoDup (Series_unique s) ∧
  (∀ x, x ∈ Series_unique s → x ∈ Series_values s) ∧
  (∀ x, x ∈ Series_values s →
        existsb (scalar_same x) (Series_unique s) = true) ∧
  length (Series_unique s) ≤ Series_len s.
Proof.
  unfold Series_unique. split; [apply unique_from_NoDup|]. split; [|split].
  - intros x. apply unique_from_elem_of.
  - intros x Hx. by destruct (unique_from_covers [] _ x Hx).
  - rewrite <- Series_values_length. generalize (@nil scalar).
    induction (Series_values s) as [|y ys IH]; intros seen; simpl; [done|].
    destruct (existsb (scalar_same y) seen); simpl.
    + specialize (IH seen). lia.
    + specialize (IH (y :: seen)). lia.
Qed.

(** * The step selector *)

Lemma scalar_eqb_notna v s : scalar_eqb v s = true → scalar_eqb s s = true.
Proof.
  destruct v as [x|a], s as [y|b]; simpl; try done.
  - rewrite !FloatAxioms.eqb_spec. unfold SFeqb. intros H.
    rewrite SFcompare_refl; [done|]. intros Hy. rewrite Hy in H.
    by destruct (Prim2SF x).
  - intros _. apply String.eqb_refl.
Qed.

(** X19. Every option of the step selector that is not NaN opens a record: the
    lookup succeeds and returns the first record with that step. A NaN
    option (a missing value of a numeric Steps column) raises [IndexError],
    since NaN equals nothing. *)
Theorem every_step_option_opens_a_record df options s :
  step_options df = Ok options → s ∈ options →
  (scalar_eqb s s = true →
   ∃ i, first_match df s i ∧ step_data df s = Ok (row df i)) ∧
  (scalar_eqb s s = false → step_data df s = Raise IndexError).
Proof.
  unfold step_options.
  destruct (getitem df "Steps") as [steps|] eqn:Hs; [|done].
  cbn [mbind result_bind mret result_ret]. intros [= <-] Hin. split.
  - intros Hrefl.
    apply unique_from_elem_of, list_elem_of_lookup in Hin as [j Hj].
    assert (cell df "Steps" j = Some s) as Hc.
    { unfold cell. apply getitem_Ok in Hs. rewrite Hs. simpl.
      by rewrite Series_iloc_values. }
    destruct (first_match_exists df s j s Hc Hrefl) as [i Hi].
    exists i. split; [done|]. by apply step_data_first_match.
  - intros Hna. apply (step_data_absent df steps s Hs). intros j v _.
    destruct (scalar_eqb v s) eqn:Hv; [|done].
    apply scalar_eqb_notna in Hv. congruence.
Qed.

Lemma every_step_option_opens_a_record_witness :
  step_options frame_three = Ok [Str "Cutting"; Str "Stitching"] ∧
  Str "Stitching" ∈ [Str "Cutting"; Str "Stitching"] ∧
  ∃ i, first_match frame_three (Str "Stitching") i ∧
       step_data frame_three (Str "Stitching") = Ok (row frame_three i).
Proof.
  assert (step_options frame_three = Ok [Str "Cutting"; Str "Stitching"])
    as Ho by (vm_compute; reflexivity).
  assert (Str "Stitching" ∈ [Str "Cutting"; Str "Stitching"]) as Hin
    by (right; left).
  split; [exact Ho|]. split; [exact Hin|].
  apply (every_step_option_opens_a_record frame_three
           [Str "Cutting"; Str "Stitching"] (Str "Stitching") Ho Hin).
  reflexivity.
Defined.

(** * The detail of a step *)






(** * The key performance indicators *)

Local Open Scope float_scope.

(** What the tiles show, read off the seven columns. *)
Lemma kpis_inv df k :
  kpis df = Ok k →
  ∃ oees avs pfs qus units mats wastes,
    columns df !! "OEE" = Some (Float64 oees) ∧
    columns df !! "Availability" = Some (Float64 avs) ∧
    columns df !! "Performance" = Some (Float64 pfs) ∧
    columns df !! "Quality" = Some (Float64 qus) ∧
    columns df !! "Units produced" = Some (Float64 units) ∧
    columns df !! "Material Used (KG)" = Some (Float64 mats) ∧
    columns df !! "Waste Materials (KG)" = Some (Float64 wastes) ∧
    k = {|
      avg_oee := nanmean oees;
      avg_availability := nanmean avs;
      avg_performance := nanmean pfs;
      avg_quality := nanmean qus;
      total_units := nansum units;
      total_material_used := nansum mats;
      total_waste := nansum wastes;
      waste_percent :=
        if F64.gtb (nansum mats) 0 then nansum wastes / nansum mats * 100
        else 0;
      oee_delta :=
        if F64.geb (nanmean oees) 0.85
        then "Target: 85%" else "Below Target: 85%";
      availability_delta :=
        if F64.geb (nanmean avs) 0.90
        then "Target: 90%" else "Below Target: 90%";
      performance_delta :=
        if F64.geb (nanmean pfs) 0.95
        then "Target: 95%" else "Below Target: 95%";
      quality_delta :=
        if F64.geb (nanmean qus) 0.99
        then "Target: 99%" else "Below Target: 99%";
      waste_delta :=
        if PrimFloat.ltb
             (if F64.gtb (nansum mats) 0
              then nansum wastes / nansum mats * 100 else 0) 5
        then "Good" else "High";
    |}.
Proof.
  unfold kpis, getitem.
  destruct (columns df !! "OEE") as [[oees|?]|]; try done.
  destruct (columns df !! "Availability") as [[avs|?]|]; try done.
  destruct (columns df !! "Performance") as [[pfs|?]|]; try done.
  destruct (columns df !! "Quality") as [[qus|?]|]; try done.
  destruct (columns df !! "Units produced") as [[units|?]|]; try done.
  destruct (columns df !! "Material Used (KG)") as [[mats|?]|]; try done.
  destruct (columns df !! "Waste Materials (KG)") as [[wastes|?]|]; try done.
  cbn [mbind result_bind mret result_ret Series_mean Series_sum].
  rewrite waste_percentage_of_guarded.
  cbn [mbind result_bind mret result_ret]. intros [= <-].
  by eexists _, _, _, _, _, _, _.
Qed.

Lemma kpis_total df oees avs pfs qus units mats wastes :
  columns df !! "OEE" = Some (Float64 oees) →
  columns df !! "Availability" = Some (Float64 avs) →
  columns df !! "Performance" = Some (Float64 pfs) →
  columns df !! "Quality" = Some (Float64 qus) →
  columns df !! "Units produced" = Some (Float64 units) →
  columns df !! "Material Used (KG)" = Some (Float64 mats) →
  columns df !! "Waste Materials (KG)" = Some (Float64 wastes) →
  ∃ k, kpis df = Ok k.
Proof.
  intros H1 H2 H3 H4 H5 H6 H7. unfold kpis, getitem.
  rewrite H1, H2, H3, H4, H5, H6, H7.
  cbn [mbind result_bind mret result_ret Series_mean Series_sum].
  rewrite waste_percentage_of_guarded.
  cbn [mbind result_bind mret result_ret]. eauto.
Qed.

Lemma geb_isna x y : F64.isna x = true → F64.geb x y = false.
Proof.
  intros Hx. unfold F64.geb. destruct (PrimFloat.leb y x) eqn:H; [|done].
  apply leb_notna in H as [_ ?]. congruence.
Qed.

(** X21. A KPI whose average is undefined (NaN, when no record has a defined
    value) is captioned below target. When the total material is not
    positive, the waste percentage is 0 and it is captioned Good. *)
Theorem undefined_average_is_below_target df k :
  kpis df = Ok k →
  (F64.isna (avg_oee k) = true → oee_delta k = "Below Target: 85%") ∧
  (F64.isna (avg_availability k) = true →
   availability_delta k = "Below Target: 90%") ∧
  (F64.isna (avg_performance k) = true →
   performance_delta k = "Below Target: 95%") ∧
  (F64.isna (avg_quality k) = true → quality_delta k = "Below Target: 99%") ∧
  (F64.gtb (total_material_used k) 0 = false →
   waste_percent k = 0 ∧ waste_delta k = "Good").
Proof.
  intros (oees & avs & pfs & qus & units & mats & wastes & _ & _ & _ & _ & _
          & _ & _ & ->)%kpis_inv.
  cbn [avg_oee avg_availability avg_performance avg_quality
       total_material_used waste_percent oee_delta availability_delta
       performance_delta quality_delta waste_delta].
  split; [intros H; by rewrite geb_isna|].
  split; [intros H; by rewrite geb_isna|].
  split; [intros H; by rewrite geb_isna|].
  split; [intros H; by rewrite geb_isna|].
  by intros ->.
Qed.

Lemma undefined_average_is_below_target_witness :
  kpis (script_df sheet_idle)
    = Ok (mkKPIs 0 nan nan 1 0 0 0 0 "Below Target: 85%" "Below Target: 90%"
            "Below Target: 95%" "Target: 99%" "Good") ∧
  (F64.isna nan = true → "Below Target: 90%" = "Below Target: 90%").
Proof.
  assert (kpis (script_df sheet_idle)
          = Ok (mkKPIs 0 nan nan 1 0 0 0 0 "Below Target: 85%"
                  "Below Target: 90%" "Below Target: 95%" "Target: 99%"
                  "Good")) as H by (vm_compute; reflexivity).
  split; [exact H|].
  exact (proj1 (proj2 (undefined_average_is_below_target
                         (script_df sheet_idle) _ H))).
Defined.

Local Close Scope float_scope.

(** The seven columns that the tiles read, in the loaded frame. *)
Lemma kpi_columns src df dd :
  Forall (λ k, ∃ xs, columns src !! k = Some (Float64 xs)) totalled_columns →
  load_data src = Ok (df, dd) →
  ∃ k, kpis df = Ok k.
Proof.
  intros Hnum Hl.
  destruct (derived_in_frame _ _ _ "OEE" Hl) as [oees HO];
    [apply (bool_decide_unpack _); vm_compute; reflexivity|].
  destruct (derived_in_frame _ _ _ "Availability" Hl) as [avs HA];
    [apply (bool_decide_unpack _); vm_compute; reflexivity|].
  destruct (derived_in_frame _ _ _ "Performance" Hl) as [pfs HP];
    [apply (bool_decide_unpack _); vm_compute; reflexivity|].
  destruct (derived_in_frame _ _ _ "Quality" Hl) as [qus HQ];
    [apply (bool_decide_unpack _); vm_compute; reflexivity|].
  pose proof Hl as (? & ? & ? & ? & _ & _ & _ & _ & _ & _ & _ & _ & _ & _
                    & Hsame)%load_data_inv.
  unfold totalled_columns in Hnum.
  repeat match goal with
         | H : Forall _ (_ :: _) |- _ => apply Forall_cons in H as [[? ?] H]
         end.
  eapply (kpis_total df); try eassumption;
    (rewrite Hsame; [eassumption|]);
    apply (bool_decide_unpack _); vm_compute; reflexivity.
Qed.

Lemma filter_notna_all (xs : list float) :
  Forall (λ x, F64.in_unit x = true) xs →
  filter (λ x, F64.isna x = false) xs = xs.
Proof.
  induction 1 as [|x xs Hx _ IH]; [done|].
  rewrite filter_cons_True by (by apply in_unit_notna). by rewrite IH.
Qed.

(** X22. On a loaded rectangular sheet with numeric units, material and waste
    columns the KPIs are computed without an exception. The average OEE
    divides by the number of all records, since no OEE is missing; the
    totals are those of the sheet's own columns, and the waste percentage is
    that of the sheet. *)
Theorem kpis_of_a_loaded_sheet src df dd :
  rectangular src →
  Forall (λ k, ∃ xs, columns src !! k = Some (Float64 xs)) totalled_columns →
  load_data src = Ok (df, dd) →
  ∃ k oees,
    kpis df = Ok k ∧ columns df !! "OEE" = Some (Float64 oees) ∧
    avg_oee k = (nansum oees / float_of_nat (index_len src))%float ∧
    getitem src "Units produced" ≫= Series_sum = Ok (total_units k) ∧
    getitem src "Material Used (KG)" ≫= Series_sum
      = Ok (total_material_used k) ∧
    getitem src "Waste Materials (KG)" ≫= Series_sum = Ok (total_waste k) ∧
    waste_percentage src = Ok (waste_percent k).
Proof.
  intros Hrect Hnum Hl. destruct (kpi_columns _ _ _ Hnum Hl) as [k Hk].
  pose proof (load_data_rectangular _ _ _ Hrect Hl) as Hdf.
  destruct (load_data_oee_column _ _ _ Hl) as (oees & HO & Hu).
  exists k, oees. split; [done|]. split; [done|].
  apply kpis_inv in Hk as (oees' & ? & ? & ? & units & mats & wastes & HO' & _
                           & _ & _ & Hun & Hma & Hwa & ->).
  rewrite HO in HO'. injection HO' as <-.
  pose proof Hl as (? & ? & ? & ? & _ & _ & _ & _ & _ & Hn & _ & _ & _ & _
                    & Hsame)%load_data_inv.
  rewrite Hsame in Hun, Hma, Hwa
    by (apply (bool_decide_unpack _); vm_compute; reflexivity).
  cbn [avg_oee total_units total_material_used total_waste waste_percent].
  unfold waste_percentage, getitem. rewrite Hun, Hma, Hwa.
  cbn [mbind result_bind Series_sum]. rewrite waste_percentage_of_guarded.
  repeat split. unfold nanmean.
  rewrite (filter_notna_all _ Hu). pose proof (Hdf _ _ HO) as L. simpl in L.
  by rewrite L, Hn.
Qed.

Lemma kpis_of_a_loaded_sheet_witness :
  rectangular sheet_three ∧
  load_data sheet_three = Ok (frame_three, script_data_dict sheet_three) ∧
  ∃ k oees,
    kpis frame_three = Ok k ∧
    columns frame_three !! "OEE" = Some (Float64 oees) ∧
    avg_oee k = (nansum oees / float_of_nat (index_len sheet_three))%float.
Proof.
  split; [exact rectangular_sheet_three|].
  split; [exact load_data_frame_three|].
  destruct (kpis_of_a_loaded_sheet sheet_three frame_three
              (script_data_dict sheet_three) rectangular_sheet_three
              totalled_columns_sheet_three load_data_frame_three)
    as (k & oees & H1 & H2 & H3 & _).
  exact (ex_intro _ k (ex_intro _ oees (conj H1 (conj H2 H3)))).
Defined.

(** * The order of the columns *)

Lemma NoDup_leading_columns : NoDup leading_columns.
Proof. apply (bool_decide_unpack _). vm_compute. reflexivity. Qed.

(** X23. When the labels of the frame are distinct and include the five
    leading columns, the order of the table's columns is a rearrangement of
    them: the five leading ones first, then the others in their original
    order, none lost and none repeated. *)
Theorem columns_order_is_a_rearrangement (cols : list string) :
  NoDup cols →
  leading_columns ⊆ cols →
  columns_order cols ≡ₚ cols ∧
  take 5 (columns_order cols) = leading_columns ∧
  drop 5 (columns_order cols) `sublist_of` cols.
Proof.
  intros Hnd Hsub. unfold columns_order. split; [|split].
  - rewrite <- (filter_app_complement (λ col, col ∈ leading_columns) cols) at 2.
    apply Permutation_app_tail. apply NoDup_Permutation.
    + apply NoDup_leading_columns.
    + by apply NoDup_filter.
    + intros x. rewrite list_elem_of_filter. split; [|tauto].
      intros Hx. split; [done|]. by apply Hsub.
  - done.
  - apply sublist_filter.
Qed.

Lemma columns_order_is_a_rearrangement_witness :
  NoDup (required_columns ++ derived_columns) ∧
  leading_columns ⊆ required_columns ++ derived_columns ∧
  columns_order (required_columns ++ derived_columns)
    ≡ₚ required_columns ++ derived_columns.
Proof.
  assert (NoDup (required_columns ++ derived_columns)) as Hnd
    by (apply (bool_decide_unpack _); vm_compute; reflexivity).
  assert (leading_columns ⊆ required_columns ++ derived_columns) as Hsub.
  { intros x Hx. unfold leading_columns in Hx.
    repeat (apply elem_of_cons in Hx as [->|Hx]);
      [..|by apply elem_of_nil in Hx];
      apply (bool_decide_unpack _); vm_compute; reflexivity. }
  split; [exact Hnd|]. split; [exact Hsub|].
  exact (proj1 (columns_order_is_a_rearrangement
                  (required_columns ++ derived_columns) Hnd Hsub)).
Defined.

(** * Material efficiency *)

Lemma material_efficiency_inv df df' :
  material_efficiency df = Ok df' →
  ∃ mats wastes,
    columns df !! "Material Used (KG)" = Some (Float64 mats) ∧
    columns df !! "Waste Materials (KG)" = Some (Float64 wastes) ∧
    df' = setitem df "Material_Efficiency"
            (Float64 (zip_with PrimFloat.div
                        (zip_with PrimFloat.sub mats wastes) mats)).
Proof.
  unfold material_efficiency, getitem.
  destruct (columns df !! "Material Used (KG)") as [[mats|?]|]; try done;
    destruct (columns df !! "Waste Materials (KG)") as [[wastes|?]|]; try done.
  cbn. intros [= <-]. eauto.
Qed.

Lemma material_efficiency_Ok df mats wastes :
  columns df !! "Material Used (KG)" = Some (Float64 mats) →
  columns df !! "Waste Materials (KG)" = Some (Float64 wastes) →
  material_efficiency df
  = Ok (setitem df "Material_Efficiency"
          (Float64 (zip_with PrimFloat.div
                      (zip_with PrimFloat.sub mats wastes) mats))).
Proof.
  intros Hm Hw. unfold material_efficiency, getitem. by rewrite Hm, Hw.
Qed.

(** X24. Adding the material-efficiency column changes no other column and no
    row count; each record gets (material - waste) / material; and the
    table filter selects the same rows as without the column. *)
Theorem material_efficiency_leaves_the_rest df df' :
  material_efficiency df = Ok df' →
  index_len df' = index_len df ∧
  (∀ k, k ≠ "Material_Efficiency" → columns df' !! k = columns df !! k) ∧
  (∀ i m w,
     cell df "Material Used (KG)" i = Some (Num m) →
     cell df "Waste Materials (KG)" i = Some (Num w) →
     cell df' "Material_Efficiency" i = Some (Num ((m - w) / m)%float)) ∧
  ∀ status_filter t fdf',
    filtered_df df' status_filter t = Ok fdf' →
    ∃ fdf, filtered_df df status_filter t = Ok fdf ∧
           index_len fdf' = index_len fdf ∧
           ∀ k, k ≠ "Material_Efficiency" →
                columns fdf' !! k = columns fdf !! k.
Proof.
  intros (mats & wastes & Hm & Hw & ->)%material_efficiency_inv.
  assert (∀ k, k ≠ "Material_Efficiency" →
            columns (setitem df "Material_Efficiency"
                       (Float64 (zip_with PrimFloat.div
                                   (zip_with PrimFloat.sub mats wastes) mats)))
              !! k = columns df !! k) as Hsame.
  { intros k Hk. simpl. by rewrite lookup_insert_ne. }
  split; [done|]. split; [done|]. split.
  - intros i m w. rewrite (cell_Float64 _ _ _ _ Hm), (cell_Float64 _ _ _ _ Hw).
    unfold cell. simpl. rewrite lookup_insert_eq. simpl.
    rewrite !lookup_zip_with.
    destruct (mats !! i) as [m'|]; [|done].
    destruct (wastes !! i) as [w'|]; [|done]. simpl. by intros [= ->] [= ->].
  - intros status_filter t fdf' (status & oees & Hst & HO & ->)%filtered_df_inv.
    rewrite Hsame in Hst, HO by done.
    eexists. split; [|split].
    + unfold filtered_df, getitem. rewrite Hst, HO. by cbn.
    + done.
    + intros k Hk. simpl. by rewrite !lookup_fmap, lookup_insert_ne.
Qed.

Lemma material_efficiency_leaves_the_rest_witness :
  material_efficiency frame_three
    = Ok (setitem frame_three "Material_Efficiency"
            (Float64 (zip_with PrimFloat.div
                        (zip_with PrimFloat.sub [100; 80; 60] [5; 8; 3])
                        [100; 80; 60]))%float) ∧
  index_len (setitem frame_three "Material_Efficiency"
               (Float64 (zip_with PrimFloat.div
                           (zip_with PrimFloat.sub [100; 80; 60] [5; 8; 3])
                           [100; 80; 60]))%float)
  = index_len frame_three.
Proof.
  assert (material_efficiency frame_three
          = Ok (setitem frame_three "Material_Efficiency"
                  (Float64 (zip_with PrimFloat.div
                              (zip_with PrimFloat.sub [100; 80; 60] [5; 8; 3])
                              [100; 80; 60]))%float)) as H
    by (apply material_efficiency_Ok; vm_compute; reflexivity).
  split; [exact H|].
  exact (proj1 (material_efficiency_leaves_the_rest frame_three _ H)).
Defined.

Lemma in_unit_signed_infinity s : F64.in_unit (signed_infinity s) = false.
Proof. by destruct s. Qed.

(** X25. The material efficiency is not clamped: for a record with zero
    material used it is NaN or an infinity, never a value in [[0,1]], and no
    exception is raised. *)
Theorem material_efficiency_without_material df df' i m w :
  material_efficiency df = Ok df' →
  cell df "Material Used (KG)" i = Some (Num m) →
  cell df "Waste Materials (KG)" i = Some (Num w) →
  PrimFloat.eqb m 0 = true →
  ∃ x, cell df' "Material_Efficiency" i = Some (Num x) ∧
       F64.in_unit x = false ∧
       (F64.isna x = true ∨ x = infinity ∨ x = neg_infinity).
Proof.
  intros (mats & wastes & Hm & Hw & ->)%material_efficiency_inv.
  rewrite (cell_Float64 _ _ _ _ Hm), (cell_Float64 _ _ _ _ Hw).
  intros Hmi Hwi [s Hz]%eqb_zero_Prim2SF.
  exists ((m - w) / m)%float. split.
  - unfold cell. simpl. rewrite lookup_insert_eq. simpl.
    rewrite !lookup_zip_with.
    destruct (mats !! i) as [m'|]; [|done].
    destruct (wastes !! i) as [w'|]; [|done]. simpl in *. congruence.
  - destruct (div_zero_sign (m - w) m s Hz) as [Hn|(sc & _ & ->)].
    + split; [|by left]. unfold F64.in_unit.
      destruct (PrimFloat.leb 0 ((m - w) / m)) eqn:H; [|done].
      apply leb_notna in H as [_ ?]. congruence.
    + split; [apply in_unit_signed_infinity|]. right.
      destruct (xorb sc s); auto.
Qed.

Lemma material_efficiency_without_material_witness :
  material_efficiency sheet_idle
    = Ok (setitem sheet_idle "Material_Efficiency"
            (Float64 (zip_with PrimFloat.div
                        (zip_with PrimFloat.sub [0] [0]) [0]))%float) ∧
  ∃ x, cell (setitem sheet_idle "Material_Efficiency"
               (Float64 (zip_with PrimFloat.div
                           (zip_with PrimFloat.sub [0] [0]) [0]))%float)
         "Material_Efficiency" 0 = Some (Num x) ∧
       F64.in_unit x = false ∧
       (F64.isna x = true ∨ x = infinity ∨ x = neg_infinity).
Proof.
  assert (material_efficiency sheet_idle
          = Ok (setitem sheet_idle "Material_Efficiency"
                  (Float64 (zip_with PrimFloat.div
                              (zip_with PrimFloat.sub [0] [0]) [0]))%float))
    as H by (apply material_efficiency_Ok; vm_compute; reflexivity).
  split; [exact H|].
  apply (material_efficiency_without_material sheet_idle _ 0 0%float 0%float H);
    vm_compute; reflexivity.
Defined.

(** * Missing values in the reductions *)



